(** * Personal finance manager: a shallow embedding of [finance_manager.py]

    The program keeps three SQLite tables (users, transactions, budgets)
    and a [current_user] field on the manager object.  Every method opens
    a connection, runs one or a few statements, commits and closes.  The
    embedding threads the database and the manager explicitly, takes the
    readings of [datetime.datetime.now()] as arguments, and returns what
    the method returns together with the lines it prints. *)

From Stdlib Require Import ZArith Bool List String Ascii Permutation Sorted Lia Floats.
From Stdlib Require OrderedTypeEx.
Import ListNotations.
Open Scope string_scope.
Open Scope list_scope.
Open Scope Z_scope.

(** ** Amounts

    The [amount] columns are declared [REAL]: whatever number is bound, the
    value read back is a Python [float].  The operations the program uses
    on amounts are the literal [0], [+], [-], [<=] and [>]; a NaN is bound
    by SQLite as NULL.  The embedding is written once over this interface. *)

Class Amount (A : Type) : Type := {
  azero : A;
  aadd  : A -> A -> A;
  asub  : A -> A -> A;
  aleb  : A -> A -> bool;
  agtb  : A -> A -> bool;
  anull : A -> bool
}.

(** Binary64 floats, the type the program computes with. *)
#[export] Instance float_amount : Amount float := {|
  azero := 0%float;
  aadd  := PrimFloat.add;
  asub  := PrimFloat.sub;
  aleb  := PrimFloat.leb;
  agtb  := fun x y => PrimFloat.ltb y x;
  anull := fun x => negb (PrimFloat.eqb x x)
|}.

(** Exact integer amounts (whole currency units, or cents). *)
#[export] Instance Z_amount : Amount Z := {|
  azero := 0;
  aadd  := Z.add;
  asub  := Z.sub;
  aleb  := Z.leb;
  agtb  := Z.gtb;
  anull := fun _ => false
|}.

(** What the validation [amount <= 0] relies on: a value that is [> 0] is
    not [<= 0] and is not NaN. *)
Class AmountOrder (A : Type) `{Amount A} : Prop := {
  pos_not_le   : forall a, agtb a azero = true -> aleb a azero = false;
  pos_not_null : forall a, agtb a azero = true -> anull a = false
}.

(** Exact arithmetic: addition is associative and commutative, [0] is
    neutral.  Binary64 addition is not associative. *)
Class AmountExact (A : Type) `{Amount A} : Prop := {
  aadd_assoc : forall a b c, aadd a (aadd b c) = aadd (aadd a b) c;
  aadd_comm  : forall a b, aadd a b = aadd b a;
  aadd_0_l   : forall a, aadd azero a = a
}.

(** The program's [==] on amounts. *)
Class AmountEq (A : Type) : Type := {
  aeqb : A -> A -> bool
}.

#[export] Instance float_eq : AmountEq float := {| aeqb := PrimFloat.eqb |}.

#[export] Instance Z_eq : AmountEq Z := {| aeqb := Z.eqb |}.

(** A value is [==] to itself unless it is NaN. *)
Class AmountEqSelf (A : Type) `{Amount A} `{AmountEq A} : Prop := {
  aeqb_self : forall a, aeqb a a = negb (anull a)
}.

(** Adding up from [0], left to right: the [+=] accumulators of
    [generate_report], and the built-in [sum] of [check_budget] (CPython
    from 3.12 on compensates the rounding of float additions inside
    [sum]; the two agree whenever the additions are exact). *)
Definition sum {A} `{Amount A} (xs : list A) : A := fold_left aadd xs azero.

(** ** Clock and [strftime] *)

Record datetime : Type := mkDatetime {
  year : Z; month : Z; day : Z; hour : Z; minute : Z; second : Z
}.

(** [now.replace(day=1)] and [now.replace(month=1, day=1)]. *)
Definition replace_day (now : datetime) (d : Z) : datetime :=
  mkDatetime (year now) (month now) d (hour now) (minute now) (second now).

Definition replace_month_day (now : datetime) (m d : Z) : datetime :=
  mkDatetime (year now) m d (hour now) (minute now) (second now).

Definition digit (n : Z) : ascii := ascii_of_nat (48 + Z.to_nat (n mod 10)).

Definition pad2 (n : Z) : string :=
  String (digit (n / 10)) (String (digit n) EmptyString).

Definition pad4 (n : Z) : string :=
  String (digit (n / 1000)) (String (digit (n / 100)) (pad2 n)).

(** [strftime("%Y-%m-%d")], for the four-digit years [datetime] produces. *)
Definition strftime_date (t : datetime) : string :=
  (pad4 (year t) ++ "-" ++ pad2 (month t) ++ "-" ++ pad2 (day t))%string.

(** [strftime("%Y-%m-%d %H:%M:%S")]. *)
Definition strftime_datetime (t : datetime) : string :=
  (strftime_date t ++ " " ++ pad2 (hour t) ++ ":" ++ pad2 (minute t) ++ ":"
     ++ pad2 (second t))%string.

(** ** A small error monad for statements that can violate a constraint *)

Definition bind {X Y} (o : option X) (k : X -> option Y) : option Y :=
  match o with
  | Some x => k x
  | None => None
  end.

Notation "x <- c ;; k" := (bind c (fun x => k))
  (at level 61, c at next level, right associativity).

Section Tables.
Context {A : Type} `{Amount A}.

(** ** Rows and tables ([setup_database]) *)

Record User : Type := mkUser {
  u_id : Z; u_username : string; u_password : string
}.

Record Transaction : Type := mkTransaction {
  t_id : Z; t_user_id : Z; t_type : string; t_amount : A;
  t_category : string; t_description : string; t_date : string
}.

Record Budget : Type := mkBudget {
  b_id : Z; b_user_id : Z; b_category : string; b_amount : A;
  b_month : Z; b_year : Z
}.

(** The three tables in rowid order, with the [sqlite_sequence] counters
    that [AUTOINCREMENT] keeps. *)
Record Database : Type := mkDatabase {
  users : list User;
  transactions : list Transaction;
  budgets : list Budget;
  seq_users : Z;
  seq_transactions : Z;
  seq_budgets : Z
}.

Definition empty_database : Database := mkDatabase [] [] [] 0 0 0.

Definition set_transactions (d : Database) (l : list Transaction) (s : Z) : Database :=
  mkDatabase (users d) l (budgets d) (seq_users d) s (seq_budgets d).

Definition set_budgets (d : Database) (l : list Budget) (s : Z) : Database :=
  mkDatabase (users d) (transactions d) l (seq_users d) (seq_transactions d) s.

(** [CHECK(type IN ('income', 'expense'))], also the test of [add_transaction]. *)
Definition valid_type (ty : string) : bool :=
  String.eqb ty "income" || String.eqb ty "expense".

(** [INSERT INTO users (username, password)]: [username] is [UNIQUE]. *)
Definition insert_user (d : Database) (username password : string) : option Database :=
  if existsb (fun u => String.eqb (u_username u) username) (users d) then None
  else
    let id := seq_users d + 1 in
    Some (mkDatabase (users d ++ [mkUser id username password])
            (transactions d) (budgets d) id (seq_transactions d) (seq_budgets d)).

(** [SELECT id FROM users WHERE username = ? AND password = ?], [fetchone]. *)
Definition select_user (d : Database) (username password : string) : option Z :=
  option_map u_id
    (find (fun u => String.eqb (u_username u) username && String.eqb (u_password u) password)
       (users d)).

(** [INSERT INTO transactions (user_id, type, amount, category, description, date)]:
    the [CHECK] on [type] and [NOT NULL] on [amount] can fail. *)
Definition insert_transaction (d : Database) (uid : Z) (ty : string) (amount : A)
    (category description date : string) : option Database :=
  if negb (valid_type ty) || anull amount then None
  else
    let id := seq_transactions d + 1 in
    Some (set_transactions d
            (transactions d ++ [mkTransaction id uid ty amount category description date]) id).

(** The [WHERE id = ? AND user_id = ?] of update and delete. *)
Definition owned_row (tid uid : Z) (t : Transaction) : bool :=
  (t_id t =? tid) && (t_user_id t =? uid).

(** The [SET] clause built from the fields that are not [None]. *)
Definition apply_updates (amount : option A) (category description : option string)
    (t : Transaction) : Transaction :=
  mkTransaction (t_id t) (t_user_id t) (t_type t)
    (match amount with Some a => a | None => t_amount t end)
    (match category with Some c => c | None => t_category t end)
    (match description with Some s => s | None => t_description t end)
    (t_date t).

(** [UPDATE transactions SET ... WHERE id = ? AND user_id = ?], with
    [cursor.rowcount].  Setting [amount] to NULL on a matched row violates
    [NOT NULL]. *)
Definition update_rows (d : Database) (amount : option A) (category description : option string)
    (tid uid : Z) : option (Database * nat) :=
  let rowcount := List.length (filter (owned_row tid uid) (transactions d)) in
  if match amount with Some a => anull a | None => false end && negb (Nat.eqb rowcount 0)
  then None
  else
    Some (set_transactions d
            (map (fun t => if owned_row tid uid t
                           then apply_updates amount category description t else t)
                 (transactions d)) (seq_transactions d),
          rowcount).

(** [DELETE FROM transactions WHERE id = ? AND user_id = ?], with [rowcount]. *)
Definition delete_rows (d : Database) (tid uid : Z) : Database * nat :=
  (set_transactions d (filter (fun t => negb (owned_row tid uid t)) (transactions d))
     (seq_transactions d),
   List.length (filter (owned_row tid uid) (transactions d))).

(** [DELETE FROM transactions WHERE user_id = ?]. *)
Definition delete_user_transactions (d : Database) (uid : Z) : Database :=
  set_transactions d (filter (fun t => negb (t_user_id t =? uid)) (transactions d))
    (seq_transactions d).

(** [DELETE FROM budgets WHERE user_id = ?]. *)
Definition delete_user_budgets (d : Database) (uid : Z) : Database :=
  set_budgets d (filter (fun b => negb (b_user_id b =? uid)) (budgets d)) (seq_budgets d).

(** The key of [UNIQUE(user_id, category, month, year)]. *)
Definition same_budget_key (uid : Z) (category : string) (m y : Z) (b : Budget) : bool :=
  (b_user_id b =? uid) && String.eqb (b_category b) category
    && (b_month b =? m) && (b_year b =? y).

(** [INSERT INTO budgets (user_id, category, amount, month, year)]. *)
Definition insert_budget (d : Database) (uid : Z) (category : string) (amount : A) (m y : Z)
    : option Database :=
  if anull amount || existsb (same_budget_key uid category m y) (budgets d) then None
  else
    let id := seq_budgets d + 1 in
    Some (set_budgets d (budgets d ++ [mkBudget id uid category amount m y]) id).

(** [INSERT OR REPLACE INTO budgets ...]: the row holding the key is
    deleted first; [NOT NULL] still aborts. *)
Definition replace_budget (d : Database) (uid : Z) (category : string) (amount : A) (m y : Z)
    : option Database :=
  if anull amount then None
  else
    let id := seq_budgets d + 1 in
    Some (set_budgets d
            (filter (fun b => negb (same_budget_key uid category m y b)) (budgets d)
               ++ [mkBudget id uid category amount m y]) id).

(** [SELECT amount FROM budgets WHERE user_id = ? AND category = ? AND
    month = ? AND year = ?], [fetchone]. *)
Definition select_budget_amount (d : Database) (uid : Z) (category : string) (m y : Z)
    : option A :=
  option_map b_amount (find (same_budget_key uid category m y) (budgets d)).

(** The order of the index that [UNIQUE(user_id, category, month, year)]
    creates, among the rows of one user, month and year: by category,
    [TEXT] values byte by byte (rows of equal category, which the
    constraint excludes, stay in rowid order). *)
Fixpoint insert_by_category (b : Budget) (l : list Budget) : list Budget :=
  match l with
  | [] => [b]
  | x :: r => if String.leb (b_category b) (b_category x) then b :: x :: r
              else x :: insert_by_category b r
  end.

Definition order_by_category (l : list Budget) : list Budget :=
  fold_right insert_by_category [] l.

(** [SELECT category, amount FROM budgets WHERE user_id = ? AND month = ?
    AND year = ?]: there is no [ORDER BY]; SQLite answers the query through
    the index of the [UNIQUE] constraint, whose first column is [user_id],
    so the rows come in the order of that index. *)
Definition select_budgets (d : Database) (uid m y : Z) : list Budget :=
  order_by_category
    (filter (fun b => (b_user_id b =? uid) && (b_month b =? m) && (b_year b =? y))
       (budgets d)).

(** [ORDER BY date DESC]: [TEXT] values compare byte by byte; rows with
    equal dates are kept in rowid order. *)
Fixpoint insert_desc (t : Transaction) (l : list Transaction) : list Transaction :=
  match l with
  | [] => [t]
  | x :: r => if String.leb (t_date x) (t_date t) then t :: x :: r
              else x :: insert_desc t r
  end.

Definition order_by_date_desc (l : list Transaction) : list Transaction :=
  fold_right insert_desc [] l.

End Tables.

Arguments User : clear implicits.
Arguments Transaction : clear implicits.
Arguments Budget : clear implicits.
Arguments Database : clear implicits.

(** ** The manager object and its methods *)

Section Manager.
Context {A : Type} `{Amount A}.

Record Manager : Type := mkManager {
  db : Database A;
  current_user : option Z
}.

(** What the methods print.  Literal messages are kept as text; the
    formatted ones keep the values that are interpolated. *)
Inductive line : Type :=
| Text (s : string)
| Welcome (username : string)
| Failure (what : string)
| BudgetSet (category : string) (amount : A) (now : datetime)
| BudgetWarning (category : string)
| BudgetFigures (budget spent : A)
| BackupCreated (backup_file : string).

(** The dictionaries built by [get_transactions] and [get_budgets]. *)
Record TransDict : Type := mkTransDict {
  td_id : Z; td_type : string; td_amount : A;
  td_category : string; td_description : string; td_date : string
}.

Record BudgetDict : Type := mkBudgetDict {
  bd_category : string; bd_amount : A
}.

(** The JSON document of [backup_data], with the types of the values
    [backup_data] puts in it. *)
Record BackupDoc : Type := mkBackupDoc {
  bk_user_id : Z;
  bk_backup_date : string;
  bk_transactions : list TransDict;
  bk_budgets : list BudgetDict
}.

(** The dictionary returned by [generate_report]; [category_expenses] is
    a Python dict, kept in insertion order. *)
Record Report : Type := mkReport {
  r_period : string;
  r_start_date : string;
  r_end_date : string;
  r_total_income : A;
  r_total_expenses : A;
  r_savings : A;
  r_category_expenses : list (string * A)
}.

(** [category_expenses.get(k, default)]. *)
Fixpoint dict_get (d : list (string * A)) (k : string) (default : A) : A :=
  match d with
  | [] => default
  | (k', v) :: r => if String.eqb k' k then v else dict_get r k default
  end.

(** [category_expenses[k] = v]: an existing key keeps its place. *)
Fixpoint dict_set (d : list (string * A)) (k : string) (v : A) : list (string * A) :=
  match d with
  | [] => [(k, v)]
  | (k', v') :: r => if String.eqb k' k then (k', v) :: r else (k', v') :: dict_set r k v
  end.

(** [sum(category_expenses.values())]. *)
Definition sum_values (d : list (string * A)) : A := sum (map snd d).

(** [if not self.current_user]: [None] and [0] are both falsy. *)
Definition logged_in (m : Manager) : option Z :=
  match current_user m with
  | Some u => if u =? 0 then None else Some u
  | None => None
  end.

(** [if start_date:] and the like: [None] and the empty string are falsy. *)
Definition truthy (o : option string) : bool :=
  match o with
  | Some s => negb (String.eqb s "")
  | None => false
  end.

Definition please_log_in : line := Text "Please log in first.".

(** [register_user]; [hash_password] is SHA-256 from [hashlib]. *)
Definition register_user (hash_password : string -> string) (m : Manager)
    (username password : string) : Manager * bool * list line :=
  if String.eqb username "" || String.eqb password "" then
    (m, false, [Text "Username and password cannot be empty."])
  else
    match insert_user (db m) username (hash_password password) with
    | Some d => (mkManager d (current_user m), true, [Text "Registration successful!"])
    | None => (m, false, [Text "Username already exists. Please choose a different one."])
    end.

(** [login]. *)
Definition login (hash_password : string -> string) (m : Manager)
    (username password : string) : Manager * bool * list line :=
  let hashed_password := hash_password password in
  match select_user (db m) username hashed_password with
  | Some id => (mkManager (db m) (Some id), true, [Welcome username])
  | None => (m, false, [Text "Invalid username or password."])
  end.

Definition to_dict (t : Transaction A) : TransDict :=
  mkTransDict (t_id t) (t_type t) (t_amount t) (t_category t) (t_description t) (t_date t).

(** The [WHERE] clause assembled by [get_transactions]. *)
Definition where_clause (u : Z) (start_date end_date category transaction_type : option string)
    (t : Transaction A) : bool :=
  (t_user_id t =? u)
  && (if truthy start_date
      then match start_date with Some s => String.leb s (t_date t) | None => true end
      else true)
  && (if truthy end_date
      then match end_date with Some e => String.leb (t_date t) e | None => true end
      else true)
  && (if truthy category
      then match category with Some c => String.eqb (t_category t) c | None => true end
      else true)
  && (if truthy transaction_type
      then match transaction_type with Some k => String.eqb (t_type t) k | None => true end
      else true).

(** [get_transactions]. *)
Definition get_transactions (m : Manager)
    (start_date end_date category transaction_type : option string)
    : list TransDict * list line :=
  match logged_in m with
  | None => ([], [please_log_in])
  | Some u =>
      (map to_dict
         (order_by_date_desc
            (filter (where_clause u start_date end_date category transaction_type)
               (transactions (db m)))),
       [])
  end.

(** [check_budget]: the [amount] argument is the amount of the
    transaction that was just added. *)
Definition check_budget (m : Manager) (now : datetime) (category : string) (amount : A)
    : bool * list line :=
  match logged_in m with
  | None => (false, [])
  | Some u =>
      match select_budget_amount (db m) u category (month now) (year now) with
      | None => (false, [])
      | Some budget_amount =>
          let start_date := strftime_date (replace_day now 1) in
          let end_date := strftime_date now in
          let '(expenses, out) :=
            get_transactions m (Some start_date) (Some end_date) (Some category)
              (Some "expense") in
          let total_spent := sum (map td_amount expenses) in
          if agtb total_spent budget_amount
          then (true, out ++ [BudgetWarning category; BudgetFigures budget_amount total_spent])
          else (false, out)
      end
  end.

(** [add_transaction]: [now] is the clock read for the row's date,
    [now'] the one read by [check_budget]. *)
Definition add_transaction (m : Manager) (now now' : datetime) (transaction_type : string)
    (amount : A) (category description : string) : Manager * bool * list line :=
  match logged_in m with
  | None => (m, false, [please_log_in])
  | Some u =>
      if negb (valid_type transaction_type) then
        (m, false, [Text "Transaction type must be 'income' or 'expense'."])
      else if aleb amount azero then
        (m, false, [Text "Amount must be positive."])
      else
        let date := strftime_datetime now in
        match insert_transaction (db m) u transaction_type amount category description date with
        | Some d =>
            let m' := mkManager d (current_user m) in
            (m', true,
             Text "Transaction added successfully!" :: snd (check_budget m' now' category amount))
        | None => (m, false, [Failure "Error adding transaction"])
        end
  end.

(** [update_transaction], for a [transaction_id] that SQLite takes as
    an INTEGER (the ids of stored rows are such); what the method does with
    any other Python int is [update_transaction_of_int] below. *)
Definition update_transaction (m : Manager) (transaction_id : Z) (amount : option A)
    (category description : option string) : Manager * bool * list line :=
  match logged_in m with
  | None => (m, false, [please_log_in])
  | Some u =>
      if match amount with Some a => aleb a azero | None => false end then
        (m, false, [Text "Amount must be positive."])
      else
        match amount, category, description with
        | None, None, None => (m, false, [Text "No updates provided."])
        | _, _, _ =>
            match update_rows (db m) amount category description transaction_id u with
            | Some (d, rowcount) =>
                if Nat.eqb rowcount 0 then
                  (m, false,
                   [Text "Transaction not found or you don't have permission to update it."])
                else
                  (mkManager d (current_user m), true, [Text "Transaction updated successfully!"])
            | None => (m, false, [Failure "Error updating transaction"])
            end
        end
  end.

(** [delete_transaction], for a [transaction_id] that SQLite takes as
    an INTEGER; [delete_transaction_of_int] below takes any Python int. *)
Definition delete_transaction (m : Manager) (transaction_id : Z) : Manager * bool * list line :=
  match logged_in m with
  | None => (m, false, [please_log_in])
  | Some u =>
      let '(d, rowcount) := delete_rows (db m) transaction_id u in
      if Nat.eqb rowcount 0 then
        (m, false, [Text "Transaction not found or you don't have permission to delete it."])
      else
        (mkManager d (current_user m), true, [Text "Transaction deleted successfully!"])
  end.

(** A SQLite INTEGER is a signed 64-bit value.  Binding a Python int
    outside that range to a [?] makes [cursor.execute] raise OverflowError
    before the statement runs; the [except Exception] of the method prints
    its error line and nothing is committed. *)
Definition sqlite_integer (z : Z) : bool := (- 2 ^ 63 <=? z) && (z <? 2 ^ 63).

(** [update_transaction] as it is called, with any Python int: the
    tests on the login, the amount and the fields come before
    [cursor.execute]. *)
Definition update_transaction_of_int (m : Manager) (transaction_id : Z) (amount : option A)
    (category description : option string) : Manager * bool * list line :=
  match logged_in m with
  | None => (m, false, [please_log_in])
  | Some _ =>
      if match amount with Some a => aleb a azero | None => false end then
        (m, false, [Text "Amount must be positive."])
      else
        match amount, category, description with
        | None, None, None => (m, false, [Text "No updates provided."])
        | _, _, _ =>
            if sqlite_integer transaction_id
            then update_transaction m transaction_id amount category description
            else (m, false, [Failure "Error updating transaction"])
        end
  end.

(** [delete_transaction] as it is called, with any Python int. *)
Definition delete_transaction_of_int (m : Manager) (transaction_id : Z)
    : Manager * bool * list line :=
  match logged_in m with
  | None => (m, false, [please_log_in])
  | Some _ =>
      if sqlite_integer transaction_id then delete_transaction m transaction_id
      else (m, false, [Failure "Error deleting transaction"])
  end.

(** One turn of the loop of [generate_report] over the accumulators
    [total_income], [total_expenses] and [category_expenses]. *)
Definition report_step (acc : A * A * list (string * A)) (trans : TransDict)
    : A * A * list (string * A) :=
  let '(total_income, total_expenses, category_expenses) := acc in
  if String.eqb (td_type trans) "income" then
    (aadd total_income (td_amount trans), total_expenses, category_expenses)
  else
    (total_income,
     aadd total_expenses (td_amount trans),
     dict_set category_expenses (td_category trans)
       (aadd (dict_get category_expenses (td_category trans) azero) (td_amount trans))).

Definition report_loop (l : list TransDict) : A * A * list (string * A) :=
  fold_left report_step l (azero, azero, []).

(** The date range of a period, [None] for an invalid period. *)
Definition period_range (now : datetime) (period : string) : option (string * string) :=
  if String.eqb period "monthly" then
    Some (strftime_date (replace_day now 1), strftime_date now)
  else if String.eqb period "yearly" then
    Some (strftime_date (replace_month_day now 1 1), strftime_date now)
  else None.

(** [generate_report]; the empty dictionary [{}] is [None]. *)
Definition generate_report (m : Manager) (now : datetime) (period : string)
    : option Report * list line :=
  match logged_in m with
  | None => (None, [please_log_in])
  | Some _ =>
      match period_range now period with
      | None => (None, [Text "Invalid period. Use 'monthly' or 'yearly'."])
      | Some (start_date, end_date) =>
          let '(transactions, out) :=
            get_transactions m (Some start_date) (Some end_date) None None in
          let '(total_income, total_expenses, category_expenses) := report_loop transactions in
          let savings := asub total_income total_expenses in
          (Some (mkReport period start_date end_date total_income total_expenses savings
                   category_expenses),
           out)
      end
  end.

(** [set_budget]. *)
Definition set_budget (m : Manager) (now : datetime) (category : string) (amount : A)
    : Manager * bool * list line :=
  match logged_in m with
  | None => (m, false, [please_log_in])
  | Some u =>
      if aleb amount azero then (m, false, [Text "Budget amount must be positive."])
      else
        match replace_budget (db m) u category amount (month now) (year now) with
        | Some d => (mkManager d (current_user m), true, [BudgetSet category amount now])
        | None => (m, false, [Failure "Error setting budget"])
        end
  end.

(** [get_budgets]. *)
Definition get_budgets (m : Manager) (now : datetime) : list BudgetDict * list line :=
  match logged_in m with
  | None => ([], [please_log_in])
  | Some u =>
      (map (fun b => mkBudgetDict (b_category b) (b_amount b))
         (select_budgets (db m) u (month now) (year now)),
       [])
  end.

(** [backup_data]: the document handed to [json.dump] is returned in
    place of the file.  [now] is the clock read by [get_budgets], [now']
    the one read for [backup_date]. *)
Definition backup_data (m : Manager) (now now' : datetime) (backup_file : string)
    : option BackupDoc * bool * list line :=
  match logged_in m with
  | None => (None, false, [please_log_in])
  | Some u =>
      let '(transactions, out1) := get_transactions m None None None None in
      let '(budgets, out2) := get_budgets m now in
      (Some (mkBackupDoc u (strftime_datetime now') transactions budgets), true,
       out1 ++ out2 ++ [BackupCreated backup_file])
  end.

(** The two [for] loops of [restore_data]; a failed [INSERT] raises. *)
Fixpoint restore_transactions (d : Database A) (u : Z) (l : list TransDict)
    : option (Database A) :=
  match l with
  | [] => Some d
  | trans :: r =>
      d' <- insert_transaction d u (td_type trans) (td_amount trans) (td_category trans)
              (td_description trans) (td_date trans) ;;
      restore_transactions d' u r
  end.

Fixpoint restore_budgets (d : Database A) (u : Z) (now : datetime) (l : list BudgetDict)
    : option (Database A) :=
  match l with
  | [] => Some d
  | budget :: r =>
      d' <- insert_budget d u (bd_category budget) (bd_amount budget) (month now) (year now) ;;
      restore_budgets d' u now r
  end.

(** [restore_data]: [file] is the document [json.load] returns, [None]
    when the file cannot be read.  An exception leaves the connection
    uncommitted, so none of the statements takes effect. *)
Definition restore_data (m : Manager) (now : datetime) (file : option BackupDoc)
    : Manager * bool * list line :=
  match logged_in m with
  | None => (m, false, [please_log_in])
  | Some u =>
      match file with
      | None => (m, false, [Failure "Error restoring data"])
      | Some backup =>
          if negb (bk_user_id backup =? u) then
            (m, false, [Text "Backup file does not belong to the current user."])
          else
            let cleared := delete_user_budgets (delete_user_transactions (db m) u) u in
            match
              d1 <- restore_transactions cleared u (bk_transactions backup) ;;
              restore_budgets d1 u now (bk_budgets backup)
            with
            | Some d => (mkManager d (current_user m), true, [Text "Data restored successfully!"])
            | None => (m, false, [Failure "Error restoring data"])
            end
      end
  end.

(** ** The data methods as commands

    One constructor per method that reads or writes transactions and
    budgets; [main] calls them from its menu ([check_budget] through
    [add_transaction]). *)

Inductive command : Type :=
| AddTransaction (now now' : datetime) (transaction_type : string) (amount : A)
    (category description : string)
| UpdateTransaction (transaction_id : Z) (amount : option A)
    (category description : option string)
| DeleteTransaction (transaction_id : Z)
| GetTransactions (start_date end_date category transaction_type : option string)
| GenerateReport (now : datetime) (period : string)
| SetBudget (now : datetime) (category : string) (amount : A)
| CheckBudget (now : datetime) (category : string) (amount : A)
| GetBudgets (now : datetime)
| BackupData (now now' : datetime) (backup_file : string)
| RestoreData (now : datetime) (file : option BackupDoc).

Inductive response : Type :=
| RBool (b : bool)
| RTransactions (l : list TransDict)
| RReport (r : option Report)
| RBudgets (l : list BudgetDict)
| RBackup (b : bool) (document : option BackupDoc).

Definition exec (m : Manager) (c : command) : Manager * response * list line :=
  match c with
  | AddTransaction now now' ty amount category description =>
      let '(m', b, out) := add_transaction m now now' ty amount category description in
      (m', RBool b, out)
  | UpdateTransaction tid amount category description =>
      let '(m', b, out) := update_transaction m tid amount category description in
      (m', RBool b, out)
  | DeleteTransaction tid =>
      let '(m', b, out) := delete_transaction m tid in (m', RBool b, out)
  | GetTransactions start_date end_date category transaction_type =>
      let '(l, out) := get_transactions m start_date end_date category transaction_type in
      (m, RTransactions l, out)
  | GenerateReport now period =>
      let '(r, out) := generate_report m now period in (m, RReport r, out)
  | SetBudget now category amount =>
      let '(m', b, out) := set_budget m now category amount in (m', RBool b, out)
  | CheckBudget now category amount =>
      let '(b, out) := check_budget m now category amount in (m, RBool b, out)
  | GetBudgets now =>
      let '(l, out) := get_budgets m now in (m, RBudgets l, out)
  | BackupData now now' backup_file =>
      let '(document, b, out) := backup_data m now now' backup_file in
      (m, RBackup b document, out)
  | RestoreData now file =>
      let '(m', b, out) := restore_data m now file in (m', RBool b, out)
  end.

End Manager.

Arguments Manager : clear implicits.
Arguments line : clear implicits.
Arguments TransDict : clear implicits.
Arguments BudgetDict : clear implicits.
Arguments BackupDoc : clear implicits.
Arguments Report : clear implicits.
Arguments command : clear implicits.
Arguments response : clear implicits.

(** ** The menu loop of [main]

    [main] builds a manager over the database file (nobody logged in)
    and loops: it prints the menu, reads a choice and runs one branch.
    The world it runs in holds the manager, the lines still to be typed
    (for [input] and for [getpass]), what has been printed so far and the
    files of [backup_data] and [restore_data].  The built-ins [str.strip],
    [str.lower], [float] and [int] and the digest are parameters; the
    clock readings of a pass and the set of paths that can be opened for
    writing are given from outside. *)

(** The readings of [datetime.datetime.now()] during one pass of the
    loop, in the order they are taken (no pass takes more than three). *)
Record readings : Type := mkReadings {
  first_reading : datetime; second_reading : datetime; third_reading : datetime
}.

(** [strftime('%Y%m%d_%H%M%S')], of the default backup file name. *)
Definition strftime_compact (t : datetime) : string :=
  (pad4 (year t) ++ pad2 (month t) ++ pad2 (day t) ++ "_" ++ pad2 (hour t)
     ++ pad2 (minute t) ++ pad2 (second t))%string.

Section Program.
Context {A : Type} `{Amount A}.
Variable hash_password : string -> string.
Variables strip lower : string -> string.
Variable parse_float : string -> option A.
Variable parse_int : string -> option Z.
Variable writable : string -> bool.

(** What appears on the screen: the menu of [display_menu], the prompt
    of an [input], a line printed by a method, a literal line of [main]
    (a leading blank line is not kept), and the formatted lines. *)
Inductive display : Type :=
| Menu
| Prompt (text : string)
| Printed (l : line A)
| Say (text : string)
| Rule (width : Z)
| TransactionRow (x : TransDict A)
| Totals (total_income total_expense net : A)
| ReportTitle (period : string)
| ReportPeriod (start_date end_date : string)
| ReportIncome (total_income : A)
| ReportExpenses (total_expenses : A)
| ReportSavings (savings : A)
| ReportCategory (category : string) (amount : A)
| BudgetRow (b : BudgetDict A).

(** A file is absent ([None]), holds something [json.load] or
    [restore_data] cannot read as a backup ([Some None]), or holds a
    document in the format [backup_data] writes.  JSON of another shape
    that [restore_data] would still insert (a string where an amount is
    expected) is not among the contents; what is said of restores is said
    of files in the backup format. *)
Record World : Type := mkWorld {
  manager : Manager A;
  keyboard : list string;
  screen : list display;
  files : string -> option (option (BackupDoc A))
}.

(** The exceptions of [float], [int] and [input]. *)
Inductive exception : Type :=
| ValueError
| EOFError.

(** A step either returns or raises. *)
Inductive outcome (X : Type) : Type :=
| Ok (x : X)
| Raise (e : exception).

Arguments Ok {X} x.
Arguments Raise {X} e.

Definition io (X : Type) : Type := World -> World * outcome X.

Definition ret {X : Type} (x : X) : io X := fun w => (w, Ok x).

Definition io_bind {X Y : Type} (c : io X) (k : X -> io Y) : io Y :=
  fun w =>
    match c w with
    | (w', Ok x) => k x w'
    | (w', Raise e) => (w', Raise e)
    end.

Notation "x <~ c ;; k" := (io_bind c (fun x => k))
  (at level 61, c at next level, right associativity).

Notation "c ;;; k" := (io_bind c (fun _ => k))
  (at level 61, right associativity).

Definition show (l : list display) : io unit :=
  fun w => (mkWorld (manager w) (keyboard w) (screen w ++ l) (files w), Ok tt).

(** [input(prompt)] and [getpass.getpass(prompt)]: the prompt, then the
    next typed line, [EOFError] when there is none. *)
Definition input (prompt : string) : io string :=
  fun w =>
    match keyboard w with
    | [] => (mkWorld (manager w) [] (screen w ++ [Prompt prompt]) (files w), Raise EOFError)
    | typed :: rest =>
        (mkWorld (manager w) rest (screen w ++ [Prompt prompt]) (files w), Ok typed)
    end.

Definition raise_unless {X : Type} (o : option X) : io X :=
  fun w => match o with Some x => (w, Ok x) | None => (w, Raise ValueError) end.

(** [try: ... except ValueError: ...]. *)
Definition except_value_error (body handler : io unit) : io unit :=
  fun w =>
    match body w with
    | (w', Raise ValueError) => handler w'
    | r => r
    end.

(** A method call: the manager is replaced, the lines are printed. *)
Definition call {R : Type} (method : Manager A -> Manager A * R * list (line A)) : io R :=
  fun w =>
    let '(m', r, out) := method (manager w) in
    (mkWorld m' (keyboard w) (screen w ++ map Printed out) (files w), Ok r).

Definition ask {R : Type} (method : Manager A -> R * list (line A)) : io R :=
  fun w =>
    let '(r, out) := method (manager w) in
    (mkWorld (manager w) (keyboard w) (screen w ++ map Printed out) (files w), Ok r).

(** [if not s: s = None]. *)
Definition blank_to_none (s : string) : option string :=
  if String.eqb s "" then None else Some s.

(** Choices 3 and 4. *)
Definition add_dialog (r : readings) (kind ask_amount : string) : io unit :=
  except_value_error
    (typed <~ input ask_amount ;;
     amount <~ raise_unless (parse_float typed) ;;
     category <~ input "Enter category: " ;;
     description <~ input "Enter description (optional): " ;;
     call (fun m => add_transaction m (first_reading r) (second_reading r) kind amount
                      (strip category) (strip description)) ;;;
     ret tt)
    (show [Say "Invalid amount. Please enter a number."]).

(** Choice 5. *)
Definition view_dialog : io unit :=
  show [Say "Filter options:"; Say "1. All transactions"; Say "2. By date range";
        Say "3. By category"; Say "4. By type (income/expense)"] ;;;
  filter_choice <~ input "Enter your choice (1-4): " ;;
  filters <~
    (if String.eqb (strip filter_choice) "2" then
       start_date <~ input "Enter start date (YYYY-MM-DD): " ;;
       end_date <~ input "Enter end date (YYYY-MM-DD): " ;;
       ret (Some (strip start_date), Some (strip end_date), None, None)
     else if String.eqb (strip filter_choice) "3" then
       category <~ input "Enter category: " ;;
       ret (None, None, Some (strip category), None)
     else if String.eqb (strip filter_choice) "4" then
       trans_type <~ input "Enter type (income/expense): " ;;
       ret (None, None, None, Some (lower (strip trans_type)))
     else ret (None, None, None, None)) ;;
  let '(start_date, end_date, category, trans_type) := filters in
  transactions <~ ask (fun m => get_transactions m start_date end_date category trans_type) ;;
  match transactions with
  | [] => show [Say "No transactions found."]
  | _ =>
      let total_income :=
        sum (map td_amount (filter (fun t => String.eqb (td_type t) "income") transactions)) in
      let total_expense :=
        sum (map td_amount (filter (fun t => String.eqb (td_type t) "expense") transactions)) in
      show ([Say "Transactions:"; Rule 80] ++ map TransactionRow transactions
            ++ [Rule 80; Totals total_income total_expense (asub total_income total_expense)])
  end.

(** Choice 6. *)
Definition update_dialog : io unit :=
  except_value_error
    (typed <~ input "Enter transaction ID to update: " ;;
     trans_id <~ raise_unless (parse_int typed) ;;
     show [Say "Leave field blank to keep current value:"] ;;;
     amount_str <~ input "Enter new amount: " ;;
     amount <~
       (if String.eqb (strip amount_str) "" then ret None
        else a <~ raise_unless (parse_float (strip amount_str)) ;; ret (Some a)) ;;
     category <~ input "Enter new category: " ;;
     description <~ input "Enter new description: " ;;
     call (fun m => update_transaction_of_int m trans_id amount
                      (blank_to_none (strip category))
                      (blank_to_none (strip description))) ;;;
     ret tt)
    (show [Say "Invalid transaction ID or amount."]).

(** Choice 7. *)
Definition delete_dialog : io unit :=
  except_value_error
    (typed <~ input "Enter transaction ID to delete: " ;;
     trans_id <~ raise_unless (parse_int typed) ;;
     call (fun m => delete_transaction_of_int m trans_id) ;;;
     ret tt)
    (show [Say "Invalid transaction ID."]).

(** Choice 8. *)
Definition report_dialog (r : readings) : io unit :=
  period <~ input "Enter period (monthly/yearly): " ;;
  report <~ ask (fun m => generate_report m (first_reading r) (lower (strip period))) ;;
  match report with
  | None => ret tt
  | Some rep =>
      show ([ReportTitle (r_period rep); ReportPeriod (r_start_date rep) (r_end_date rep);
             ReportIncome (r_total_income rep); ReportExpenses (r_total_expenses rep);
             ReportSavings (r_savings rep)]
            ++ match r_category_expenses rep with
               | [] => []
               | entries =>
                   Say "Expenses by Category:"
                     :: map (fun e => ReportCategory (fst e) (snd e)) entries
               end)
  end.

(** Choice 9. *)
Definition budget_dialog (r : readings) : io unit :=
  category <~ input "Enter category: " ;;
  except_value_error
    (typed <~ input "Enter budget amount: " ;;
     amount <~ raise_unless (parse_float typed) ;;
     call (fun m => set_budget m (first_reading r) (strip category) amount) ;;;
     ret tt)
    (show [Say "Invalid amount. Please enter a number."]).

(** Choice 10. *)
Definition budgets_dialog (r : readings) : io unit :=
  budgets <~ ask (fun m => get_budgets m (first_reading r)) ;;
  match budgets with
  | [] => show [Say "No budgets set for this month."]
  | _ => show ([Say "Current Budgets:"; Rule 40] ++ map BudgetRow budgets ++ [Rule 40])
  end.

(** [backup_data] with its file: a path that cannot be opened for
    writing raises inside the method. *)
Definition backup_to_file (now now' : datetime) (backup_file : string) : io unit :=
  fun w =>
    match backup_data (manager w) now now' backup_file with
    | (Some document, _, out) =>
        if writable backup_file then
          (mkWorld (manager w) (keyboard w) (screen w ++ map Printed out)
             (fun name => if String.eqb name backup_file then Some (Some document)
                          else files w name),
           Ok tt)
        else
          (mkWorld (manager w) (keyboard w)
             (screen w ++ [Printed (Failure "Error creating backup")]) (files w),
           Ok tt)
    | (None, _, out) =>
        (mkWorld (manager w) (keyboard w) (screen w ++ map Printed out) (files w), Ok tt)
    end.

(** Choice 11. *)
Definition backup_dialog (r : readings) : io unit :=
  typed <~ input "Enter backup filename: " ;;
  if String.eqb (strip typed) "" then
    backup_to_file (second_reading r) (third_reading r)
      ("finance_backup_" ++ strftime_compact (first_reading r) ++ ".json")%string
  else backup_to_file (first_reading r) (second_reading r) (strip typed).

(** What is found under a path: nothing when [os.path.exists] is
    false. *)
Definition look_up (name : string) : io (option (option (BackupDoc A))) :=
  fun w => (w, Ok (files w name)).

(** Choice 12: [os.path.exists], then [restore_data] on what the file
    holds. *)
Definition restore_dialog (r : readings) : io unit :=
  typed <~ input "Enter backup filename: " ;;
  found <~ look_up (strip typed) ;;
  match found with
  | Some content => call (fun m => restore_data m (first_reading r) content) ;;; ret tt
  | None => show [Say "Backup file not found."]
  end.

(** The [if]/[elif] chain on the choice: [true] when the loop goes on,
    [false] after [break]. *)
Definition branch (r : readings) (choice : string) : io bool :=
  if String.eqb choice "1" then
    username <~ input "Enter username: " ;;
    password <~ input "Enter password: " ;;
    call (fun m => register_user hash_password m (strip username) password) ;;;
    ret true
  else if String.eqb choice "2" then
    username <~ input "Enter username: " ;;
    password <~ input "Enter password: " ;;
    call (fun m => login hash_password m (strip username) password) ;;;
    ret true
  else if String.eqb choice "3" then
    add_dialog r "income" "Enter income amount: " ;;; ret true
  else if String.eqb choice "4" then
    add_dialog r "expense" "Enter expense amount: " ;;; ret true
  else if String.eqb choice "5" then view_dialog ;;; ret true
  else if String.eqb choice "6" then update_dialog ;;; ret true
  else if String.eqb choice "7" then delete_dialog ;;; ret true
  else if String.eqb choice "8" then report_dialog r ;;; ret true
  else if String.eqb choice "9" then budget_dialog r ;;; ret true
  else if String.eqb choice "10" then budgets_dialog r ;;; ret true
  else if String.eqb choice "11" then backup_dialog r ;;; ret true
  else if String.eqb choice "12" then restore_dialog r ;;; ret true
  else if String.eqb choice "13" then
    show [Say "Thank you for using Personal Finance Manager!"] ;;; ret false
  else show [Say "Invalid choice. Please try again."] ;;; ret true.

(** One pass of the [while True] loop. *)
Definition pass (r : readings) : io bool :=
  show [Menu] ;;;
  typed <~ input "Enter your choice (1-13): " ;;
  branch r (strip typed).

(** How [main] ends: [break] at choice 13, or an uncaught exception. *)
Inductive ending : Type :=
| Exited
| Raised (e : exception)
| StillRunning.

(** The loop, for at most [passes] passes; [clock n] are the readings
    of pass [n]. *)
Fixpoint main_loop (clock : nat -> readings) (passes n : nat) (w : World)
    : World * ending :=
  match passes with
  | O => (w, StillRunning)
  | S more =>
      match pass (clock n) w with
      | (w', Ok true) => main_loop clock more (S n) w'
      | (w', Ok false) => (w', Exited)
      | (w', Raise e) => (w', Raised e)
      end
  end.

(** [main] over a database file holding [d], with the lines [typed]. *)
Definition main (clock : nat -> readings) (d : Database A) (typed : list string)
    (disk : string -> option (option (BackupDoc A))) : World * ending :=
  main_loop clock (S (List.length typed)) 0 (mkWorld (mkManager d None) typed [] disk).

End Program.

Arguments display : clear implicits.
Arguments World : clear implicits.
Arguments Ok {X} x.
Arguments Raise {X} e.

(** ** Reasoning along the steps of the loop *)

Section Frames.
Context {A : Type} `{Amount A}.

(** A step that leaves manager and files alone: typed lines are only
    consumed, printed lines only added. *)
Definition idle (w w' : World A) : Prop :=
  manager w' = manager w /\ files w' = files w
  /\ (exists read, keyboard w = read ++ keyboard w')
  /\ (exists shown, screen w' = screen w ++ shown).

(** A relation between the world before and after that steps of the
    loop can be chained along. *)
Class Frame (R : World A -> World A -> Prop) : Prop := {
  frame_trans : forall w1 w2 w3, R w1 w2 -> R w2 w3 -> R w1 w3;
  frame_idle : forall w w', idle w w' -> R w w'
}.

(** Every run of [c] relates the world it leaves to the one it found. *)
Definition keeps {X : Type} (R : World A -> World A -> Prop) (c : @io A X) : Prop :=
  forall w, R w (fst (c w)).

(** No [ValueError] leaves [c]. *)
Definition contained {X : Type} (c : @io A X) : Prop :=
  forall w, snd (c w) <> Raise ValueError.

(** [c] raises [EOFError] only with nothing left to read. *)
Definition starved {X : Type} (c : @io A X) : Prop :=
  forall w, snd (c w) = Raise EOFError -> keyboard (fst (c w)) = [].

(** [c] never asks the loop to stop. *)
Definition goes_on (c : @io A bool) : Prop :=
  forall w, snd (c w) <> Ok false.

(** The relation holds across a method call that turns the manager
    into [change m]. *)
Definition allows (R : World A -> World A -> Prop) (change : Manager A -> Manager A) : Prop :=
  forall w shown,
    R w (mkWorld (change (manager w)) (keyboard w) (screen w ++ shown) (files w)).

(** The relation holds across the writing of a backup file. *)
Definition saves (R : World A -> World A -> Prop) : Prop :=
  forall w now now' backup_file document b out shown,
    backup_data (manager w) now now' backup_file = (Some document, b, out) ->
    R w (mkWorld (manager w) (keyboard w) (screen w ++ shown)
           (fun name => if String.eqb name backup_file then Some (Some document)
                        else files w name)).

(** The relations of the statements. *)
Definition consumes (w w' : World A) : Prop :=
  exists read, keyboard w = read ++ keyboard w'.

Definition preserves (I : Manager A -> Prop) (w w' : World A) : Prop :=
  I (manager w) -> I (manager w').

Definition same {X : Type} (part : Manager A -> X) (w w' : World A) : Prop :=
  part (manager w') = part (manager w).

Definition same_files (w w' : World A) : Prop := files w' = files w.

(** While [a] stays logged in, the rows of everybody else stay. *)
Definition strangers_kept (a : Z) (w w' : World A) : Prop :=
  logged_in (manager w) = Some a ->
  logged_in (manager w') = Some a
  /\ filter (fun t => negb (t_user_id t =? a)) (transactions (db (manager w')))
     = filter (fun t => negb (t_user_id t =? a)) (transactions (db (manager w)))
  /\ filter (fun b => negb (b_user_id b =? a)) (budgets (db (manager w')))
     = filter (fun b => negb (b_user_id b =? a)) (budgets (db (manager w))).

(** What [main] prints when [float] or [int] raises under a choice. *)
Definition complaint (choice : string) : string :=
  if String.eqb choice "6" then "Invalid transaction ID or amount."
  else if String.eqb choice "7" then "Invalid transaction ID."
  else "Invalid amount. Please enter a number.".

Definition untouched_unless_logged_in (w w' : World A) : Prop :=
  current_user (manager w') = None ->
  current_user (manager w) = None
  /\ transactions (db (manager w')) = transactions (db (manager w))
  /\ budgets (db (manager w')) = budgets (db (manager w))
  /\ files w' = files w.

End Frames.

(** ** Vocabulary of the statements *)

Section Vocabulary.
Context {A : Type} `{Amount A}.

(** A stored user row carries this username and the digest of this password. *)
Definition credentials_match (hash_password : string -> string)
    (username password : string) (u : User) : Prop :=
  u_username u = username /\ u_password u = hash_password password.

(** What an update may do to one row: the key, owner, type and date stay;
    a field that was not supplied stays; a row that is not the addressed
    row of the current user stays whole. *)
Definition row_frame (tid u : Z) (amount : option A) (category description : option string)
    (t t' : Transaction A) : Prop :=
  t_id t' = t_id t /\ t_user_id t' = t_user_id t /\ t_type t' = t_type t
  /\ t_date t' = t_date t
  /\ (amount = None -> t_amount t' = t_amount t)
  /\ (category = None -> t_category t' = t_category t)
  /\ (description = None -> t_description t' = t_description t)
  /\ (owned_row tid u t = false -> t' = t).

Definition no_field (amount : option A) (category description : option string) : Prop :=
  amount = None /\ category = None /\ description = None.

(** The validation of a supplied amount passes. *)
Definition amount_accepted (amount : option A) : Prop :=
  match amount with Some a => aleb a azero = false | None => True end.

(** The range in the words of the specification: the row is the user's and
    its date string lies between the two bounds, both included, in the
    byte-wise order of strings. *)
Definition in_range (u : Z) (start_date end_date : string) (t : Transaction A) : bool :=
  (t_user_id t =? u) && String.leb start_date (t_date t) && String.leb (t_date t) end_date.

Definition rows_in_range (m : Manager A) (u : Z) (start_date end_date : string)
    : list (Transaction A) :=
  order_by_date_desc (filter (in_range u start_date end_date) (transactions (db m))).

(** The report computed from a given list of rows. *)
Definition report_of (period start_date end_date : string) (rows : list (Transaction A))
    : Report A :=
  let '(total_income, total_expenses, category_expenses) := report_loop (map to_dict rows) in
  mkReport period start_date end_date total_income total_expenses
    (asub total_income total_expenses) category_expenses.

Definition first_of_month (now : datetime) : string :=
  (pad4 (year now) ++ "-" ++ pad2 (month now) ++ "-01")%string.

Definition first_of_year (now : datetime) : string :=
  (pad4 (year now) ++ "-01-01")%string.

(** Amounts that are whole numbers of some unit: [of_units n] is the
    amount of [n] units, and adding two such amounts gives the amount of
    the sum, without rounding, as long as that sum is at most [bound]
    units. *)
Definition exact_up_to (of_units : Z -> A) (bound : Z) : Prop :=
  of_units 0 = azero
  /\ forall a b, 0 <= a -> 0 <= b -> a + b <= bound ->
                 aadd (of_units a) (of_units b) = of_units (a + b).

Definition total_units (ns : list Z) : Z := fold_right Z.add 0 ns.

(** The two branches of the loop of [generate_report]: a record whose
    type is 'income', and any other record (with the [CHECK] on the
    table, an 'expense'). *)
Definition is_income (t : TransDict A) : bool := String.eqb (td_type t) "income".

Definition counted_as_expense (t : TransDict A) : bool := negb (is_income t).

Definition expense_in (c : string) (t : TransDict A) : bool :=
  counted_as_expense t && String.eqb (td_category t) c.


(** The rows [check_budget] adds up: the user's rows of type 'expense'
    whose date string lies between the first of the month and today's
    date, in the category when the category is not the empty string. *)
Definition budget_window (u : Z) (now : datetime) (category : string) (t : Transaction A)
    : bool :=
  in_range u (first_of_month now) (strftime_date now) t
  && (if String.eqb category "" then true else String.eqb (t_category t) category)
  && String.eqb (t_type t) "expense".

Definition spent_this_month (m : Manager A) (u : Z) (now : datetime) (category : string) : A :=
  sum (map t_amount
         (order_by_date_desc (filter (budget_window u now category) (transactions (db m))))).


(** The constraints of the tables, on a backup document: each
    transaction has a type the [CHECK] admits and an amount that is not
    NULL, each budget an amount that is not NULL, and no two budgets name
    the same category (they are all stamped with one month and year). *)
Definition valid_transaction_dict (t : TransDict A) : bool :=
  valid_type (td_type t) && negb (anull (td_amount t)).

Fixpoint distinct_categories (l : list (BudgetDict A)) : bool :=
  match l with
  | [] => true
  | b :: r =>
      negb (existsb (fun b' => String.eqb (bd_category b') (bd_category b)) r)
      && distinct_categories r
  end.

Definition valid_document (doc : BackupDoc A) : bool :=
  forallb valid_transaction_dict (bk_transactions doc)
  && forallb (fun b => negb (anull (bd_amount b))) (bk_budgets doc)
  && distinct_categories (bk_budgets doc).

(** A row without its key and owner. *)
Definition transaction_fields (t : Transaction A) : string * A * string * string * string :=
  (t_type t, t_amount t, t_category t, t_description t, t_date t).

Definition dict_fields (t : TransDict A) : string * A * string * string * string :=
  (td_type t, td_amount t, td_category t, td_description t, td_date t).

Definition budget_fields (b : Budget A) : string * A * Z * Z :=
  (b_category b, b_amount b, b_month b, b_year b).

Definition owned_by (u : Z) (t : Transaction A) : bool := t_user_id t =? u.

Definition budget_of (u : Z) (b : Budget A) : bool := b_user_id b =? u.

(** The rows the two loops of [restore_data] insert, keyed from [s]. *)
Fixpoint number_transactions (s u : Z) (l : list (TransDict A)) : list (Transaction A) :=
  match l with
  | [] => []
  | t :: r =>
      mkTransaction (s + 1) u (td_type t) (td_amount t) (td_category t) (td_description t)
        (td_date t) :: number_transactions (s + 1) u r
  end.

Fixpoint number_budgets (s u : Z) (now : datetime) (l : list (BudgetDict A))
    : list (Budget A) :=
  match l with
  | [] => []
  | b :: r =>
      mkBudget (s + 1) u (bd_category b) (bd_amount b) (month now) (year now)
        :: number_budgets (s + 1) u now r
  end.

(** The constraints of the tables, on a database. *)
Definition budget_key (b : Budget A) : Z * string * Z * Z :=
  (b_user_id b, b_category b, b_month b, b_year b).

Definition wf_transaction (t : Transaction A) : Prop :=
  valid_type (t_type t) = true /\ anull (t_amount t) = false.

Definition wf_db (d : Database A) : Prop :=
  Forall wf_transaction (transactions d)
  /\ Forall (fun b => anull (b_amount b) = false) (budgets d)
  /\ NoDup (map budget_key (budgets d)).

(** No stored budget holds the key a restored budget would take. *)
Definition key_free (d : Database A) (u : Z) (now : datetime) (b : BudgetDict A) : Prop :=
  existsb (same_budget_key u (bd_category b) (month now) (year now)) (budgets d) = false.


(** The database a successful [restore_data] commits: the user's rows
    are gone, the rows of the document are appended with fresh keys. *)
Definition restored_db (d : Database A) (u : Z) (now : datetime) (doc : BackupDoc A)
    : Database A :=
  mkDatabase (users d)
    (filter (fun t => negb (t_user_id t =? u)) (transactions d)
       ++ number_transactions (seq_transactions d) u (bk_transactions doc))
    (filter (fun b => negb (b_user_id b =? u)) (budgets d)
       ++ number_budgets (seq_budgets d) u now (bk_budgets doc))
    (seq_users d)
    (seq_transactions d + Z.of_nat (List.length (bk_transactions doc)))
    (seq_budgets d + Z.of_nat (List.length (bk_budgets doc))).

(** A budget of a document, stamped with the month and year of [now]. *)
Definition stamped (now : datetime) (b : BudgetDict A) : string * A * Z * Z :=
  (bd_category b, bd_amount b, month now, year now).






(** The manager left by a command. *)
Definition state_after (m : Manager A) (c : command A) : Manager A := fst (fst (exec m c)).

(** What a command returns and prints. *)
Definition observed (m : Manager A) (c : command A) : response A * list (line A) :=
  (snd (fst (exec m c)), snd (exec m c)).






(** Keys are unique and never above the [AUTOINCREMENT] counters;
    usernames are unique. *)
Definition keys_wf (d : Database A) : Prop :=
  NoDup (map t_id (transactions d))
  /\ Forall (fun t => t_id t <= seq_transactions d) (transactions d)
  /\ NoDup (map b_id (budgets d))
  /\ Forall (fun b => b_id b <= seq_budgets d) (budgets d)
  /\ NoDup (map u_username (users d)).

(** Everything the schema of [setup_database] enforces. *)
Definition consistent (d : Database A) : Prop := wf_db d /\ keys_wf d.

(** The managers a session can reach from an empty database. *)
Inductive reachable (hash_password : string -> string) : Manager A -> Prop :=
| reach_start : reachable hash_password (mkManager empty_database None)
| reach_register m username password :
    reachable hash_password m ->
    reachable hash_password (fst (fst (register_user hash_password m username password)))
| reach_login m username password :
    reachable hash_password m ->
    reachable hash_password (fst (fst (login hash_password m username password)))
| reach_exec m c :
    reachable hash_password m -> reachable hash_password (state_after m c).


(** Most recent first, on rows and on the dictionaries made from them. *)
Definition not_before (t1 t2 : Transaction A) : Prop :=
  String.leb (t_date t2) (t_date t1) = true.

Definition dict_not_before (t1 t2 : TransDict A) : Prop :=
  String.leb (td_date t2) (td_date t1) = true.


(** By category, on rows and on the dictionaries made from them. *)
Definition by_category (b1 b2 : Budget A) : Prop :=
  String.leb (b_category b1) (b_category b2) = true.


(** What each method returns when it finds nobody logged in. *)
Definition refusal (c : command A) : response A :=
  match c with
  | GetTransactions _ _ _ _ => RTransactions []
  | GenerateReport _ _ => RReport None
  | GetBudgets _ => RBudgets []
  | BackupData _ _ _ => RBackup false None
  | _ => RBool false
  end.

(** [check_budget] is the one method that stays silent. *)
Definition refusal_lines (c : command A) : list (line A) :=
  match c with
  | CheckBudget _ _ _ => []
  | _ => [please_log_in]
  end.

(** The budgets [get_budgets] lists under one category. *)
Definition listed_under (category : string) (l : list (BudgetDict A)) : list (BudgetDict A) :=
  filter (fun b => String.eqb (bd_category b) category) l.


(** The filters of a query, on a returned record: a filter that is
    [None] or the empty string lets every record through. *)
Definition dict_matches (start_date end_date category transaction_type : option string)
    (x : TransDict A) : bool :=
  (if truthy start_date
   then match start_date with Some s => String.leb s (td_date x) | None => true end
   else true)
  && (if truthy end_date
      then match end_date with Some e => String.leb (td_date x) e | None => true end
      else true)
  && (if truthy category
      then match category with Some c => String.eqb (td_category x) c | None => true end
      else true)
  && (if truthy transaction_type
      then match transaction_type with Some k => String.eqb (td_type x) k | None => true end
      else true).

(** The record of an updated row. *)
Definition patch_dict (tid : Z) (amount : option A) (category description : option string)
    (x : TransDict A) : TransDict A :=
  if td_id x =? tid
  then mkTransDict (td_id x) (td_type x)
         (match amount with Some a => a | None => td_amount x end)
         (match category with Some c => c | None => td_category x end)
         (match description with Some s => s | None => td_description x end)
         (td_date x)
  else x.

End Vocabulary.

(** ** Concrete ledgers used to run the methods *)

Definition nov3 : datetime := mkDatetime 2026 11 3 10 0 0.

(** User 1 is logged in and holds three expenses dated November 1st,
    with amounts 1, 2^53 and 1 in categories a, b and a. *)
Definition rounding_ledger : Manager float :=
  mkManager
    (mkDatabase []
       [mkTransaction 1 1 "expense" 1%float "a" "" "2026-11-01 10:00:00";
        mkTransaction 2 1 "expense" 9007199254740992%float "b" "" "2026-11-01 09:00:00";
        mkTransaction 3 1 "expense" 1%float "a" "" "2026-11-01 08:00:00"]
       [] 0 3 0)
    (Some 1).

(** The same shape with amounts 0.30, 0.20 and 0.10. *)
Definition cents_ledger : Manager float :=
  mkManager
    (mkDatabase []
       [mkTransaction 1 1 "expense" 0x1.3333333333333p-2%float "a" "" "2026-11-01 10:00:00";
        mkTransaction 2 1 "expense" 0x1.999999999999ap-3%float "b" "" "2026-11-01 09:00:00";
        mkTransaction 3 1 "expense" 0x1.999999999999ap-4%float "a" "" "2026-11-01 08:00:00"]
       [] 0 3 0)
    (Some 1).

(** With whole amounts: an income of 500 and expenses of 30, 20 and 10. *)
Definition whole_ledger : Manager Z :=
  mkManager
    (mkDatabase []
       [mkTransaction 1 1 "expense" 30 "a" "" "2026-11-01 10:00:00";
        mkTransaction 2 1 "expense" 20 "b" "" "2026-11-01 09:00:00";
        mkTransaction 3 1 "income" 500 "pay" "" "2026-11-01 08:30:00";
        mkTransaction 4 1 "expense" 10 "a" "" "2026-11-01 08:00:00"]
       [] 0 4 0)
    (Some 1).

Definition whole_report : Report Z :=
  mkReport "monthly" "2026-11-01" "2026-11-03" 500 60 440 [("a", 40); ("b", 20)].

(** The scenario of the budget check: user 1 sets a budget of 100 for
    food, then adds expenses of 60 and 50 in food, all at [at_]. *)
Definition fresh_session : Manager float := mkManager empty_database (Some 1).

Definition food_scenario (at_ : datetime) : Manager float :=
  let m1 := fst (fst (set_budget fresh_session at_ "food" 100%float)) in
  let m2 := fst (fst (add_transaction m1 at_ at_ "expense" 60%float "food" "")) in
  fst (fst (add_transaction m2 at_ at_ "expense" 50%float "food" "")).

Definition nov2 : datetime := mkDatetime 2026 11 2 9 30 0.

Definition nov4 : datetime := mkDatetime 2026 11 4 9 0 0.

(** User 1 adds a salary of 1000 and an expense of 40 for food, both at
    [at_]. *)
Definition payday_scenario (at_ : datetime) : Manager float :=
  let m1 := fst (fst (add_transaction fresh_session at_ at_ "income" 1000%float "salary" "")) in
  fst (fst (add_transaction m1 at_ at_ "expense" 40%float "food" "")).

(** Binary64 amounts that are whole tens: expenses of 30, 20 and 10 in
    categories a, b and a, and an income of 500. *)
Definition tens_ledger : Manager float :=
  mkManager
    (mkDatabase []
       [mkTransaction 1 1 "expense" 30%float "a" "" "2026-11-01 10:00:00";
        mkTransaction 2 1 "expense" 20%float "b" "" "2026-11-01 09:00:00";
        mkTransaction 3 1 "income" 500%float "pay" "" "2026-11-01 08:30:00";
        mkTransaction 4 1 "expense" 10%float "a" "" "2026-11-01 08:00:00"]
       [] 0 4 0)
    (Some 1).

(** The binary64 value of [n] tens. *)
Definition tens (n : Z) : float := PrimFloat.of_uint63 (Uint63.of_Z (10 * n)).

(** Two incomes and two expenses of 2^1023 each: both totals overflow. *)
Definition overflow_ledger : Manager float :=
  mkManager
    (mkDatabase []
       [mkTransaction 1 1 "income" 0x1p1023%float "pay" "" "2026-11-01 10:00:00";
        mkTransaction 2 1 "income" 0x1p1023%float "pay" "" "2026-11-01 09:00:00";
        mkTransaction 3 1 "expense" 0x1p1023%float "a" "" "2026-11-01 08:30:00";
        mkTransaction 4 1 "expense" 0x1p1023%float "a" "" "2026-11-01 08:00:00"]
       [] 0 4 0)
    (Some 1).

(** Two users: user 1 is logged in; user 2 owns transaction 2 and a
    budget. *)
Definition shared_ledger : Manager Z :=
  mkManager
    (mkDatabase []
       [mkTransaction 1 1 "expense" 30 "food" "" "2026-11-01 10:00:00";
        mkTransaction 2 2 "income" 900 "pay" "" "2026-11-01 11:00:00"]
       [mkBudget 1 1 "food" 100 11 2026;
        mkBudget 2 2 "food" 250 11 2026;
        mkBudget 3 1 "rent" 700 10 2026]
       0 2 3)
    (Some 1).

(** Documents for [restore_data], all naming user 1. *)
Definition good_document : BackupDoc Z :=
  mkBackupDoc 1 "2026-10-20 08:00:00"
    [mkTransDict 41 "income" 500 "pay" "october" "2026-10-01 09:00:00";
     mkTransDict 40 "expense" 15 "food" "" "2026-09-30 19:00:00"]
    [mkBudgetDict "food" 120; mkBudgetDict "rent" 700].


Definition transfer_document : BackupDoc float :=
  mkBackupDoc 1 "2026-10-20 08:00:00"
    [mkTransDict 41 "transfer" 5%float "misc" "" "2026-10-01 09:00:00"] [].

Definition twice_food_document : BackupDoc Z :=
  mkBackupDoc 1 "2026-10-20 08:00:00" []
    [mkBudgetDict "food" 100; mkBudgetDict "food" 200].

(** User 1 has a budget of 100 for the empty category and one expense,
    of 500 for rent, dated November 2nd. *)
Definition empty_category_ledger : Manager float :=
  mkManager
    (mkDatabase []
       [mkTransaction 1 1 "expense" 500%float "rent" "" "2026-11-02 09:30:00"]
       [mkBudget 1 1 "" 100%float 11 2026]
       0 1 1)
    (Some 1).

(** A session from the start: ann registers, logs in, sets a budget and
    adds an expense.  The digest is a stand-in that leaves the password
    as it is. *)
Definition plain_digest (password : string) : string := password.

Definition ann_registered : Manager Z :=
  fst (fst (register_user plain_digest (mkManager empty_database None) "ann" "pw")).

Definition ann_logged_in : Manager Z :=
  fst (fst (login plain_digest ann_registered "ann" "pw")).

Definition ann_session : Manager Z :=
  state_after (state_after ann_logged_in (SetBudget nov3 "food" 100))
    (AddTransaction nov3 nov3 "expense" 60 "food" "lunch").

(** A console for [main]: lines are typed without surrounding blanks
    and in lower case, numbers as plain digits, every path can be written
    and the clock stands still within a pass.  These stand in for
    [str.strip], [str.lower], [float], [int] and the file system on the
    lines of the sessions below. *)
Definition as_typed (s : string) : string := s.

Fixpoint digits_value (s : string) (acc : Z) : option Z :=
  match s with
  | EmptyString => Some acc
  | String c r =>
      let n := Z.of_nat (nat_of_ascii c) - 48 in
      if (0 <=? n) && (n <=? 9) then digits_value r (10 * acc + n) else None
  end.

Definition plain_number (s : string) : option Z :=
  if String.eqb s "" then None else digits_value s 0.

Definition any_path (name : string) : bool := true.

Definition no_files (name : string) : option (option (BackupDoc Z)) := None.


Definition at_nov3 : readings := mkReadings nov3 nov3 nov3.


Definition console_pass (r : readings) (w : World Z) : World Z * outcome bool :=
  pass plain_digest as_typed as_typed plain_number plain_number any_path r w.

Definition console_main (d : Database Z) (typed : list string) : World Z * ending :=
  main plain_digest as_typed as_typed plain_number plain_number any_path (fun _ => at_nov3)
    d typed no_files.

(** ann registers, logs in, sets a budget of 100 for food, adds an
    expense of 60, lists her transactions and leaves. *)
Definition ann_types : list string :=
  ["1"; "ann"; "pw"; "2"; "ann"; "pw"; "9"; "food"; "100";
   "4"; "60"; "food"; "lunch"; "5"; "1"; "13"].

(** Nobody logs in: bob registers, then an expense, a budget, a backup
    and a restore are asked for. *)
Definition stranger_types : list string :=
  ["1"; "bob"; "pw"; "4"; "60"; "food"; "lunch"; "9"; "food"; "100";
   "11"; "b.json"; "12"; "b.json"; "13"].



(** User 1 of [shared_ledger] is about to type an amount in letters. *)
Definition slip_world : World Z := mkWorld shared_ledger ["4"; "sixty"; "13"] [] no_files.

(** The ledger of two users with nobody logged in. *)
Definition logged_out_ledger : Manager Z := mkManager (db shared_ledger) None.



(** * Properties *)

(** ** The two amount types satisfy the laws they are used with *)

#[export] Instance float_order : AmountOrder float.
Proof.
  split; intros a; cbn; intros Hpos.
  - rewrite ltb_spec in Hpos. rewrite leb_spec.
    unfold SFltb, SFleb in *. change (Prim2SF 0) with (S754_zero false) in *.
    destruct (Prim2SF a) as [s | s | | s m e]; cbn in *;
      try discriminate; destruct s; cbn in *; congruence.
  - rewrite ltb_spec in Hpos. rewrite eqb_spec.
    unfold SFltb, SFeqb in *. change (Prim2SF 0) with (S754_zero false) in *.
    destruct (Prim2SF a) as [s | s | | s m e]; cbn in *; try discriminate; try reflexivity.
    all: destruct s; cbn in *; try discriminate; try reflexivity.
    rewrite Z.compare_refl, Pos.compare_cont_refl. reflexivity.
Qed.

#[export] Instance Z_order : AmountOrder Z.
Proof.
  split; intros a; cbn; intros Hpos; [apply Z.leb_gt; apply Z.gtb_lt in Hpos; lia | reflexivity].
Qed.

#[export] Instance float_eq_self : AmountEqSelf float.
Proof. split. intros a. cbn. now rewrite negb_involutive. Qed.

#[export] Instance Z_eq_self : AmountEqSelf Z.
Proof. split. intros a. cbn. apply Z.eqb_refl. Qed.

#[export] Instance Z_exact : AmountExact Z.
Proof. split; intros; cbn; lia. Qed.

Lemma filter_filter_and {X : Type} (p q : X -> bool) (l : list X) :
  filter p (filter q l) = filter (fun x => q x && p x) l.
Proof.
  induction l as [| x l IH]; cbn; [reflexivity |].
  destruct (q x); cbn; [destruct (p x) |]; now rewrite IH.
Qed.

(** ** Sorting keeps the rows *)

Lemma string_leb_trans (a b c : string) :
  String.leb a b = true -> String.leb b c = true -> String.leb a c = true.
Proof.
  unfold String.leb. intros Hab Hbc.
  destruct (String.compare a b) eqn:Cab; [| | discriminate];
    destruct (String.compare b c) eqn:Cbc; try discriminate.
  - apply OrderedTypeEx.String_as_OT.cmp_eq in Cab. subst. now rewrite Cbc.
  - apply OrderedTypeEx.String_as_OT.cmp_eq in Cab. subst. now rewrite Cbc.
  - apply OrderedTypeEx.String_as_OT.cmp_eq in Cbc. subst. now rewrite Cab.
  - apply OrderedTypeEx.String_as_OT.cmp_lt in Cab, Cbc.
    pose proof (OrderedTypeEx.String_as_OT.lt_trans _ _ _ Cab Cbc) as Hac.
    apply OrderedTypeEx.String_as_OT.cmp_lt in Hac.
    unfold OrderedTypeEx.String_as_OT.cmp in Hac. now rewrite Hac.
Qed.

Section Facts.
Context {A : Type} `{Amount A}.

Lemma insert_desc_perm (t : Transaction A) (l : list (Transaction A)) :
  Permutation (insert_desc t l) (t :: l).
Proof.
  induction l as [| x r IH]; cbn; [reflexivity |].
  destruct (String.leb (t_date x) (t_date t)); [reflexivity |].
  rewrite IH. apply perm_swap.
Qed.

Lemma order_by_date_desc_perm (l : list (Transaction A)) :
  Permutation (order_by_date_desc l) l.
Proof.
  induction l as [| x r IH]; cbn; [reflexivity |].
  rewrite insert_desc_perm. now constructor.
Qed.

Lemma insert_desc_HdRel (x t : Transaction A) (r : list (Transaction A)) :
  not_before x t -> HdRel not_before x r -> HdRel not_before x (insert_desc t r).
Proof.
  intros Hxt Hr. destruct r as [| y r]; cbn; [now constructor |].
  destruct (String.leb (t_date y) (t_date t)); constructor; [assumption |].
  now inversion Hr.
Qed.

Lemma insert_desc_sorted (t : Transaction A) (l : list (Transaction A)) :
  Sorted not_before l -> Sorted not_before (insert_desc t l).
Proof.
  induction l as [| x r IH]; intros Hs; cbn.
  - repeat constructor.
  - destruct (String.leb (t_date x) (t_date t)) eqn:Hle.
    + constructor; [assumption | now constructor].
    + inversion Hs as [| ? ? Hr Hhd]; subst. constructor; [now apply IH |].
      apply insert_desc_HdRel; [| assumption].
      unfold not_before. destruct (String.leb_total (t_date x) (t_date t)); congruence.
Qed.

Lemma order_by_date_desc_sorted (l : list (Transaction A)) :
  Sorted not_before (order_by_date_desc l).
Proof.
  induction l as [| x r IH]; cbn; [constructor | now apply insert_desc_sorted].
Qed.

Lemma to_dict_sorted (l : list (Transaction A)) :
  Sorted not_before l -> Sorted dict_not_before (map to_dict l).
Proof.
  induction 1 as [| x r Hr IH Hhd]; cbn; constructor; [assumption |].
  destruct Hhd; cbn; constructor. assumption.
Qed.

Lemma order_by_date_desc_In (l : list (Transaction A)) (t : Transaction A) :
  In t (order_by_date_desc l) <-> In t l.
Proof.
  split; apply Permutation_in; [| symmetry]; apply order_by_date_desc_perm.
Qed.

End Facts.

(** ** The order in which budgets are listed *)

Section BudgetOrder.
Context {A : Type} `{Amount A}.




Lemma by_category_trans (b1 b2 b3 : Budget A) :
  by_category b1 b2 -> by_category b2 b3 -> by_category b1 b3.
Proof. unfold by_category. apply string_leb_trans. Qed.

Lemma insert_by_category_sorted (b : Budget A) (l : list (Budget A)) :
  Sorted by_category l -> Sorted by_category (insert_by_category b l).
Proof.
  induction l as [| x r IH]; intros Hs; cbn.
  - repeat constructor.
  - destruct (String.leb (b_category b) (b_category x)) eqn:Hle.
    + constructor; [assumption | now constructor].
    + inversion Hs as [| ? ? Hr Hhd]; subst. constructor; [now apply IH |].
      assert (Hxb : by_category x b).
      { unfold by_category.
        destruct (String.leb_total (b_category b) (b_category x)); congruence. }
      destruct r as [| y r]; cbn; [now constructor |].
      destruct (String.leb (b_category b) (b_category y)); constructor; [assumption |].
      now inversion Hhd.
Qed.

Lemma order_by_category_sorted (l : list (Budget A)) : Sorted by_category (order_by_category l).
Proof.
  induction l as [| x r IH]; cbn; [constructor | now apply insert_by_category_sorted].
Qed.

Lemma order_by_category_strongly_sorted (l : list (Budget A)) :
  StronglySorted by_category (order_by_category l).
Proof.
  apply Sorted_StronglySorted; [| apply order_by_category_sorted].
  intros b1 b2 b3. apply by_category_trans.
Qed.

(** Inserting into a sorted list and dropping rows commute. *)
Lemma insert_by_category_filter (p : Budget A -> bool) (b : Budget A) (l : list (Budget A)) :
  StronglySorted by_category l ->
  filter p (insert_by_category b l)
  = if p b then insert_by_category b (filter p l) else filter p l.
Proof.
  induction l as [| y r IH]; intros Hs.
  - cbn. now destruct (p b).
  - apply StronglySorted_inv in Hs as [Hr Hall]. specialize (IH Hr).
    cbn [insert_by_category].
    destruct (String.leb (b_category b) (b_category y)) eqn:Hby.
    + cbn [filter]. destruct (p b) eqn:Hpb; [| reflexivity].
      destruct (p y) eqn:Hpy; [cbn [insert_by_category]; now rewrite Hby |].
      destruct (filter p r) as [| z r'] eqn:Hf; [reflexivity |].
      cbn [insert_by_category].
      assert (Hz : In z r).
      { assert (Hin : In z (filter p r)) by (rewrite Hf; now left).
        now apply filter_In in Hin as [Hin _]. }
      rewrite Forall_forall in Hall. specialize (Hall z Hz). unfold by_category in Hall.
      now rewrite (string_leb_trans _ _ _ Hby Hall).
    + cbn [filter]. rewrite IH. destruct (p y) eqn:Hpy.
      * destruct (p b); [cbn [insert_by_category]; now rewrite Hby | reflexivity].
      * reflexivity.
Qed.

(** Listing in index order and dropping rows commute. *)
Lemma order_by_category_filter (p : Budget A -> bool) (l : list (Budget A)) :
  filter p (order_by_category l) = order_by_category (filter p l).
Proof.
  induction l as [| x l IH]; [reflexivity |].
  cbn [order_by_category fold_right filter].
  rewrite insert_by_category_filter by apply order_by_category_strongly_sorted.
  fold (order_by_category l). rewrite IH. now destruct (p x).
Qed.


Lemma order_by_category_single (b : Budget A) : order_by_category [b] = [b].
Proof. reflexivity. Qed.

End BudgetOrder.

(** ** Authentication *)

Section Authentication.
Context {A : Type} `{Amount A}.
Variable hash_password : string -> string.

Lemma select_user_some (d : Database A) (username digest : string) (id : Z) :
  select_user d username digest = Some id ->
  exists u, In u (users d) /\ u_username u = username /\ u_password u = digest /\ u_id u = id.
Proof.
  unfold select_user. destruct (find _ (users d)) as [u |] eqn:Hfind; [| discriminate].
  intros [= <-]. apply find_some in Hfind as [Hin Hb].
  apply andb_true_iff in Hb as [Hn Hp].
  apply String.eqb_eq in Hn, Hp. now exists u.
Qed.

Lemma select_user_none (d : Database A) (username digest : string) :
  select_user d username digest = None ->
  forall u, In u (users d) -> ~ (u_username u = username /\ u_password u = digest).
Proof.
  unfold select_user. destruct (find _ (users d)) as [u |] eqn:Hfind; [discriminate |].
  intros _ u Hin [Hn Hp]. apply (find_none _ _ Hfind) in Hin.
  rewrite Hn, Hp, !String.eqb_refl in Hin. discriminate.
Qed.

(** C9. [login] succeeds exactly when some stored user row has that
    username and the digest of that password; it then records that row's
    id as the current user.  Every other attempt returns [False], prints
    the same line and leaves the manager as it was, whether the username
    is unknown or the password is wrong. *)
Theorem login_iff_credentials_match (m : Manager A) (username password : string) :
  (snd (fst (login hash_password m username password)) = true <->
   exists u, In u (users (db m)) /\ credentials_match hash_password username password u)
  /\ (snd (fst (login hash_password m username password)) = true ->
      exists u, In u (users (db m)) /\ credentials_match hash_password username password u
        /\ login hash_password m username password
           = (mkManager (db m) (Some (u_id u)), true, [Welcome username]))
  /\ (snd (fst (login hash_password m username password)) = false ->
      login hash_password m username password
        = (m, false, [Text "Invalid username or password."])).
Proof.
  unfold login, credentials_match.
  destruct (select_user (db m) username (hash_password password)) as [id |] eqn:Hsel; cbn.
  - apply select_user_some in Hsel as (u & Hin & Hn & Hp & Hid).
    repeat split; try discriminate; intros _; exists u; subst; auto.
  - repeat split; try discriminate; auto.
    intros (u & Hin & Hn & Hp). exfalso.
    exact (select_user_none _ _ _ Hsel u Hin (conj Hn Hp)).
Qed.

End Authentication.

(** ** The budget check *)

Section BudgetCheck.
Context {A : Type} `{Amount A}.

Lemma compare_append_longer (s r : string) (c : ascii) :
  String.compare (s ++ String c r) s = Gt.
Proof.
  induction s as [| a s IH]; cbn; [reflexivity |].
  unfold Ascii.compare. now rewrite N.compare_refl.
Qed.

(** A timestamp with a time of day sorts after the date it starts with. *)
Lemma timestamp_after_its_date (now : datetime) :
  String.leb (strftime_datetime now) (strftime_date now) = false.
Proof.
  unfold String.leb, strftime_datetime.
  change (strftime_date now ++ " " ++ ?x)%string
    with (strftime_date now ++ String " "%char x)%string.
  now rewrite compare_append_longer.
Qed.

Lemma where_clause_budget (u : Z) (now : datetime) (category : string) (t : Transaction A) :
  where_clause u (Some (strftime_date (replace_day now 1))) (Some (strftime_date now))
    (Some category) (Some "expense") t
  = budget_window u now category t.
Proof.
  unfold where_clause, budget_window, in_range, truthy.
  change (strftime_date (replace_day now 1)) with (first_of_month now).
  change (String.eqb (first_of_month now) "") with false.
  change (String.eqb (strftime_date now) "") with false.
  cbn [negb]. destruct (String.eqb category ""); cbn [negb]; cbn;
    now rewrite ?andb_true_r, ?andb_assoc.
Qed.

(** [check_budget] in terms of the stored rows. *)
Lemma check_budget_spec (m : Manager A) (u : Z) (now : datetime) (category : string)
    (amount : A) :
  logged_in m = Some u ->
  check_budget m now category amount
  = match select_budget_amount (db m) u category (month now) (year now) with
    | None => (false, [])
    | Some budget =>
        if agtb (spent_this_month m u now category) budget
        then (true, [BudgetWarning category;
                     BudgetFigures budget (spent_this_month m u now category)])
        else (false, [])
    end.
Proof.
  intros Hu. unfold check_budget, get_transactions. rewrite Hu.
  destruct (select_budget_amount _ _ _ _ _) as [budget |]; [| reflexivity].
  assert (Hsum :
    sum (map td_amount
           (map to_dict
              (order_by_date_desc
                 (filter (where_clause u (Some (strftime_date (replace_day now 1)))
                            (Some (strftime_date now)) (Some category) (Some "expense"))
                    (transactions (db m))))))
    = spent_this_month m u now category).
  { unfold spent_this_month. rewrite map_map. cbn [td_amount to_dict].
    do 3 f_equal. apply filter_ext. intros t. apply where_clause_budget. }
  cbn zeta. rewrite Hsum. now destruct (agtb _ budget).
Qed.

(** A row stamped by [add_transaction] at [now] is outside the window of
    a check made on the same day. *)
Lemma budget_window_skips_today (u : Z) (now : datetime) (category : string)
    (t : Transaction A) :
  t_date t = strftime_datetime now -> budget_window u now category t = false.
Proof.
  intros Hdate. unfold budget_window, in_range.
  rewrite Hdate, timestamp_after_its_date. now rewrite !andb_false_r.
Qed.

(** C10. The outcome of [check_budget] and the lines it prints do not
    depend on its [amount] argument; the spent figure it prints is the sum
    over the stored rows of the window. *)
Theorem check_budget_ignores_amount (m : Manager A) (now : datetime) (category : string)
    (a b : A) :
  check_budget m now category a = check_budget m now category b
  /\ (forall budget spent,
        In (BudgetFigures budget spent) (snd (check_budget m now category a)) ->
        exists u, logged_in m = Some u
                  /\ select_budget_amount (db m) u category (month now) (year now) = Some budget
                  /\ spent = spent_this_month m u now category).
Proof.
  split; [reflexivity |]. intros budget spent.
  destruct (logged_in m) as [u |] eqn:Hu.
  - rewrite (check_budget_spec m u now category a Hu).
    destruct (select_budget_amount _ _ _ _ _) as [x |] eqn:Hsel; [| intros []].
    destruct (agtb _ x); [| intros []].
    intros [Hin | [Hin | []]]; [discriminate |]. injection Hin as <- <-.
    exists u. repeat split. exact Hsel.
  - unfold check_budget. rewrite Hu. intros [].
Qed.

End BudgetCheck.

(** With the empty string as category the query of [check_budget] has
    no category filter: the rent of 500 is counted against the budget of
    100 set for the empty category. *)
Lemma budget_check_empty_category :
  check_budget empty_category_ledger nov3 "" 0%float
  = (true, [BudgetWarning ""; BudgetFigures 100%float 500%float]).
Proof. reflexivity. Qed.

(** C1 on the code.  When the budget of 100 is set and the expenses of 60
    and 50 are added on November 3rd, a check on that same day finds
    nothing spent and reports no excess, and neither [add_transaction]
    printed a warning; had the same three calls been made on November
    2nd, the check of November 3rd reports the excess with budget 100 and
    spent 110. *)
Theorem budget_check_misses_todays_expenses :
  check_budget (food_scenario nov3) nov3 "food" 50%float = (false, [])
  /\ spent_this_month (food_scenario nov3) 1 nov3 "food" = 0%float
  /\ map t_date (transactions (db (food_scenario nov3)))
     = ["2026-11-03 10:00:00"; "2026-11-03 10:00:00"]
  /\ check_budget (food_scenario nov2) nov3 "food" 50%float
     = (true, [BudgetWarning "food"; BudgetFigures 100%float 110%float]).
Proof. repeat split. Qed.

(** ** Adding a transaction *)

Section Ledger.
Context {A : Type} `{Amount A}.

(** Without filters the [WHERE] clause is [user_id = ?] alone. *)
Lemma where_clause_no_filter (u : Z) (t : Transaction A) :
  where_clause u None None None None t = (t_user_id t =? u).
Proof. unfold where_clause. cbn. now rewrite !andb_true_r. Qed.

Lemma get_transactions_no_filter (m : Manager A) (u : Z) :
  logged_in m = Some u ->
  get_transactions m None None None None
  = (map to_dict (order_by_date_desc
                    (filter (fun t => t_user_id t =? u) (transactions (db m)))), []).
Proof.
  intros Hu. unfold get_transactions. rewrite Hu. do 3 f_equal.
  apply filter_ext. intros t. apply where_clause_no_filter.
Qed.

(** The records of [get_transactions] come most recent first, whatever
    the filters. *)
Theorem get_transactions_sorted (m : Manager A) (s e c k : option string) :
  Sorted dict_not_before (fst (get_transactions m s e c k)).
Proof.
  unfold get_transactions. destruct (logged_in m); cbn [fst]; [| constructor].
  apply to_dict_sorted, order_by_date_desc_sorted.
Qed.

Lemma insert_transaction_some (d : Database A) (u : Z) (ty : string) (amount : A)
    (category description date : string) :
  valid_type ty = true -> anull amount = false ->
  insert_transaction d u ty amount category description date
  = Some (set_transactions d
            (transactions d
               ++ [mkTransaction (seq_transactions d + 1) u ty amount category description date])
            (seq_transactions d + 1)).
Proof. intros Hty Hnull. unfold insert_transaction. now rewrite Hty, Hnull. Qed.

Lemma check_budget_output (m : Manager A) (now : datetime) (category : string) (amount : A) :
  snd (check_budget m now category amount) = []
  \/ exists budget spent,
       check_budget m now category amount
       = (true, [BudgetWarning category; BudgetFigures budget spent]).
Proof.
  unfold check_budget, get_transactions.
  destruct (logged_in m) as [u |]; [| now left].
  destruct (select_budget_amount _ _ _ _ _) as [budget |]; [| now left].
  match goal with |- context [agtb ?s budget] => destruct (agtb s budget) eqn:Hgt end.
  - right. do 2 eexists. reflexivity.
  - now left.
Qed.

(** The row that [add_transaction] stores at [now] is not in the window
    of a check made at [now]: the amount spent is what it was before. *)
Lemma added_today_not_counted (m : Manager A) (u : Z) (now now' : datetime) (ty : string)
    (amount : A) (category description c : string) :
  logged_in m = Some u ->
  spent_this_month (fst (fst (add_transaction m now now' ty amount category description)))
    u now c
  = spent_this_month m u now c.
Proof.
  intros Hu. unfold add_transaction. rewrite Hu.
  destruct (negb (valid_type ty)); [reflexivity |].
  destruct (aleb amount azero); [reflexivity |].
  unfold insert_transaction.
  destruct (negb (valid_type ty) || anull amount); [reflexivity |].
  unfold spent_this_month. cbn [fst db set_transactions transactions].
  rewrite filter_app. cbn [filter].
  rewrite (budget_window_skips_today u now c
             (mkTransaction (seq_transactions (db m) + 1) u ty amount category description
                (strftime_datetime now)) eq_refl).
  now rewrite app_nil_r.
Qed.

(** C7. For a logged-in user, [add_transaction] with a type other than
    'income' or 'expense' is refused with the type message and stores
    nothing; with a valid type and an amount [<= 0] it is refused with the
    amount message and stores nothing; with a valid type and an amount
    [> 0] it returns [True], whatever the budget check finds (the check
    only adds warning lines), and the unfiltered query afterwards returns
    the records it returned before plus exactly one record carrying the
    supplied type, amount, category and description. *)
Theorem add_transaction_then_query `{!AmountOrder A} (m : Manager A) (u : Z)
    (now now' : datetime) (ty : string) (amount : A) (category description : string) :
  logged_in m = Some u ->
  (valid_type ty = false ->
   add_transaction m now now' ty amount category description
   = (m, false, [Text "Transaction type must be 'income' or 'expense'."]))
  /\ (valid_type ty = true -> aleb amount azero = true ->
      add_transaction m now now' ty amount category description
      = (m, false, [Text "Amount must be positive."]))
  /\ (valid_type ty = true -> agtb amount azero = true ->
      exists (m' : Manager A) (id : Z) (warning : list (line A)),
        add_transaction m now now' ty amount category description
        = (m', true, Text "Transaction added successfully!" :: warning)
        /\ (warning = []
            \/ exists budget spent,
                 warning = [BudgetWarning category; BudgetFigures budget spent])
        /\ Permutation (fst (get_transactions m' None None None None))
             (mkTransDict id ty amount category description (strftime_datetime now)
                :: fst (get_transactions m None None None None))
        /\ List.length (fst (get_transactions m' None None None None))
           = S (List.length (fst (get_transactions m None None None None)))).
Proof.
  intros Hu. unfold add_transaction. rewrite Hu. split; [| split].
  - intros ->. reflexivity.
  - intros -> ->. reflexivity.
  - intros Hty Hpos. rewrite Hty, (pos_not_le _ Hpos). cbn [negb].
    rewrite (insert_transaction_some _ _ _ _ _ _ _ Hty (pos_not_null _ Hpos)).
    set (row := mkTransaction (seq_transactions (db m) + 1) u ty amount category description
                  (strftime_datetime now)).
    set (m' := mkManager _ (current_user m)).
    assert (Hu' : logged_in m' = Some u) by exact Hu.
    assert (Hperm : Permutation (fst (get_transactions m' None None None None))
                      (to_dict row :: fst (get_transactions m None None None None))).
    { rewrite (get_transactions_no_filter m' u Hu'), (get_transactions_no_filter m u Hu).
      cbn [fst db m' set_transactions transactions].
      rewrite filter_app. cbn [filter row t_user_id]. rewrite Z.eqb_refl.
      rewrite <- map_cons. apply Permutation_map.
      rewrite !order_by_date_desc_perm. rewrite Permutation_app_comm. reflexivity. }
    exists m', (seq_transactions (db m) + 1), (snd (check_budget m' now' category amount)).
    split; [reflexivity |]. split; [| split].
    + destruct (check_budget_output m' now' category amount) as [-> | (b & s & ->)];
        [now left | right; do 2 eexists; reflexivity].
    + exact Hperm.
    + apply Permutation_length in Hperm. exact Hperm.
Qed.

End Ledger.

(** ** Updating a transaction *)

Section Update.
Context {A : Type} `{Amount A}.

Lemma row_frame_refl tid u amount category description (t : Transaction A) :
  row_frame tid u amount category description t t.
Proof. unfold row_frame. tauto. Qed.

Lemma row_frame_apply tid u amount category description (t : Transaction A) :
  row_frame tid u amount category description t
    (if owned_row tid u t then apply_updates amount category description t else t).
Proof.
  destruct (owned_row tid u t) eqn:Ho; [| apply row_frame_refl].
  unfold row_frame, apply_updates; cbn.
  do 4 (split; [reflexivity |]).
  do 3 (split; [intros ->; reflexivity |]).
  rewrite Ho. discriminate.
Qed.

Lemma Forall2_map_self {X : Type} (R : X -> X -> Prop) (f : X -> X) (l : list X) :
  (forall x, R x (f x)) -> Forall2 R l (map f l).
Proof. intros Hf. induction l; cbn; constructor; auto. Qed.

Lemma filter_nil_iff {X : Type} (p : X -> bool) (l : list X) :
  filter p l = [] <-> forall x, In x l -> p x = false.
Proof.
  induction l as [| a l IH]; cbn; [tauto |].
  destruct (p a) eqn:Hp; split.
  - discriminate.
  - intros Hall. specialize (Hall a (or_introl eq_refl)). congruence.
  - intros Hnil x [<- | Hin]; [assumption | now apply IH].
  - intros Hall. apply IH. auto.
Qed.

Lemma update_transaction_cases (m : Manager A) (u tid : Z) (amount : option A)
    (category description : option string) :
  logged_in m = Some u ->
  update_transaction m tid amount category description
  = (if match amount with Some a => aleb a azero | None => false end then
       (m, false, [Text "Amount must be positive."])
     else match amount, category, description with
          | None, None, None => (m, false, [Text "No updates provided."])
          | _, _, _ =>
              match update_rows (db m) amount category description tid u with
              | Some (d, rowcount) =>
                  if Nat.eqb rowcount 0 then
                    (m, false,
                     [Text "Transaction not found or you don't have permission to update it."])
                  else (mkManager d (current_user m), true,
                        [Text "Transaction updated successfully!"])
              | None => (m, false, [Failure "Error updating transaction"])
              end
          end).
Proof. intros Hu. unfold update_transaction. now rewrite Hu. Qed.

(** The manager after a call, in all outcomes. *)
Lemma update_transaction_frame (m : Manager A) (u tid : Z) (amount : option A)
    (category description : option string) :
  logged_in m = Some u ->
  let m' := fst (fst (update_transaction m tid amount category description)) in
  current_user m' = current_user m
  /\ users (db m') = users (db m)
  /\ budgets (db m') = budgets (db m)
  /\ Forall2 (row_frame tid u amount category description)
       (transactions (db m)) (transactions (db m')).
Proof.
  intros Hu m'. subst m'. rewrite (update_transaction_cases m u tid _ _ _ Hu).
  assert (Hsame : Forall2 (row_frame tid u amount category description)
                    (transactions (db m)) (transactions (db m))).
  { rewrite <- (map_id (transactions (db m))) at 2.
    apply Forall2_map_self. intros. apply row_frame_refl. }
  destruct (match amount with Some a => aleb a azero | None => false end); [now cbn |].
  destruct amount as [a |], category as [c |], description as [s |];
    try (now cbn);
    (unfold update_rows;
     destruct (_ && _); [now cbn |];
     destruct (Nat.eqb _ 0); [now cbn |];
     cbn; do 3 (split; [reflexivity |]);
     apply Forall2_map_self; intros; apply row_frame_apply).
Qed.

(** An amount that would be stored as NULL never gets in. *)
Lemma update_transaction_null_amount (m : Manager A) (u tid : Z) (a : A)
    (category description : option string) :
  logged_in m = Some u -> anull a = true ->
  fst (update_transaction m tid (Some a) category description) = (m, false).
Proof.
  intros Hu Hnull. rewrite (update_transaction_cases m u tid _ _ _ Hu).
  destruct (aleb a azero); [reflexivity |].
  unfold update_rows. rewrite Hnull. cbn [andb].
  destruct (Nat.eqb (List.length (filter (owned_row tid u) (transactions (db m)))) 0)
    eqn:Hcount; cbn [negb]; try rewrite Hcount; now destruct category, description.
Qed.

(** No row has both the id and the current user as owner. *)
Lemma update_transaction_not_found (m : Manager A) (u tid : Z) (amount : option A)
    (category description : option string) :
  logged_in m = Some u ->
  ~ no_field amount category description -> amount_accepted amount ->
  (forall t, In t (transactions (db m)) -> t_id t = tid -> t_user_id t <> u) ->
  update_transaction m tid amount category description
  = (m, false, [Text "Transaction not found or you don't have permission to update it."]).
Proof.
  intros Hu Hsome Hok Hnone. rewrite (update_transaction_cases m u tid _ _ _ Hu).
  assert (Hrows : filter (owned_row tid u) (transactions (db m)) = []).
  { apply filter_nil_iff. intros t Hin. unfold owned_row.
    destruct (t_id t =? tid) eqn:Hid; [| reflexivity].
    apply Z.eqb_eq in Hid. cbn. apply Z.eqb_neq. now apply Hnone. }
  assert (Hupd : exists d, update_rows (db m) amount category description tid u
                           = Some (d, 0%nat)).
  { unfold update_rows. rewrite Hrows. cbn. rewrite andb_false_r. eauto. }
  destruct Hupd as [d ->].
  unfold amount_accepted, no_field in *.
  destruct amount as [a |]; [rewrite Hok |];
    destruct category, description; try reflexivity.
  exfalso. now apply Hsome.
Qed.

(** When a row of the current user has the id, at least one field is
    supplied and a supplied amount is a number above zero, the update
    succeeds and sets exactly the supplied fields of that row. *)
Theorem update_transaction_applies (m : Manager A) (u : Z) (t : Transaction A)
    (amount : option A) (category description : option string) :
  logged_in m = Some u -> In t (transactions (db m)) -> t_user_id t = u ->
  ~ no_field amount category description -> amount_accepted amount ->
  match amount with Some a => anull a = false | None => True end ->
  exists m' : Manager A,
    update_transaction m (t_id t) amount category description
    = (m', true, [Text "Transaction updated successfully!"])
    /\ transactions (db m')
       = map (fun x => if owned_row (t_id t) u x
                       then apply_updates amount category description x else x)
           (transactions (db m))
    /\ In (apply_updates amount category description t) (transactions (db m')).
Proof.
  intros Hu Hin Ht Hsome Hok Hnum.
  assert (Hown : owned_row (t_id t) u t = true).
  { unfold owned_row. now rewrite Ht, !Z.eqb_refl. }
  assert (Hcount : Nat.eqb (List.length (filter (owned_row (t_id t) u) (transactions (db m))))
                     0 = false).
  { destruct (filter (owned_row (t_id t) u) (transactions (db m))) as [| x r] eqn:Hrows;
      [| reflexivity].
    exfalso. assert (Hin' : In t (filter (owned_row (t_id t) u) (transactions (db m))))
      by (apply filter_In; now split).
    rewrite Hrows in Hin'. destruct Hin'. }
  assert (Hset : In (apply_updates amount category description t)
                   (map (fun x => if owned_row (t_id t) u x
                                  then apply_updates amount category description x else x)
                      (transactions (db m)))).
  { apply in_map_iff. exists t. now rewrite Hown. }
  rewrite (update_transaction_cases m u (t_id t) _ _ _ Hu).
  unfold update_rows, amount_accepted, no_field in *. rewrite Hcount.
  destruct amount as [a |]; [rewrite Hok, Hnum |];
    destruct category, description; cbn [andb negb]; rewrite ?Hcount;
    try (eexists; split; [reflexivity | split; [reflexivity | exact Hset]]).
  exfalso. now apply Hsome.
Qed.

(** With an id that SQLite takes, the call is the method above. *)
Lemma update_transaction_of_int_bound (m : Manager A) (tid : Z) (amount : option A)
    (category description : option string) :
  sqlite_integer tid = true ->
  update_transaction_of_int m tid amount category description
  = update_transaction m tid amount category description.
Proof.
  intros Hfits. unfold update_transaction_of_int, update_transaction. rewrite Hfits.
  destruct (logged_in m); [| reflexivity].
  destruct (match amount with Some a => aleb a azero | None => false end); [reflexivity |].
  now destruct amount, category, description.
Qed.

(** With any other id the statement never runs. *)
Lemma update_transaction_of_int_overflow (m : Manager A) (u tid : Z) (amount : option A)
    (category description : option string) :
  logged_in m = Some u -> sqlite_integer tid = false ->
  update_transaction_of_int m tid amount category description
  = (if match amount with Some a => aleb a azero | None => false end then
       (m, false, [Text "Amount must be positive."])
     else match amount, category, description with
          | None, None, None => (m, false, [Text "No updates provided."])
          | _, _, _ => (m, false, [Failure "Error updating transaction"])
          end).
Proof.
  intros Hu Hfits. unfold update_transaction_of_int. rewrite Hu, Hfits.
  destruct (match amount with Some a => aleb a azero | None => false end); [reflexivity |].
  now destruct amount, category, description.
Qed.

(** C6. For a logged-in user who calls [update_transaction] with any
    integer as id: whatever the outcome, every stored row keeps its id,
    owner, type and date and every field that was not supplied, rows other
    than the addressed row of the current user are untouched, and the
    other tables are untouched; with no field supplied the call is refused
    with the no-updates message and the manager is unchanged; with a
    supplied amount [<= 0] it is refused with the amount message and the
    manager is unchanged, and a supplied amount that is not a number is
    refused too, manager unchanged; when the id is one SQLite takes as an
    INTEGER and no row has both that id and the current user as owner (the
    id is unknown, or belongs to someone else) the call is refused with
    one and the same not-found message, manager unchanged; and an id
    outside the signed 64-bit range is refused with the error line of the
    method, manager unchanged. *)
Theorem update_transaction_frame_and_errors (m : Manager A) (u tid : Z)
    (amount : option A) (category description : option string) :
  logged_in m = Some u ->
  (let m' := fst (fst (update_transaction_of_int m tid amount category description)) in
   current_user m' = current_user m
   /\ users (db m') = users (db m)
   /\ budgets (db m') = budgets (db m)
   /\ Forall2 (row_frame tid u amount category description)
        (transactions (db m)) (transactions (db m')))
  /\ (no_field amount category description ->
      update_transaction_of_int m tid amount category description
      = (m, false, [Text "No updates provided."]))
  /\ (forall a, amount = Some a -> aleb a azero = true ->
      update_transaction_of_int m tid amount category description
      = (m, false, [Text "Amount must be positive."]))
  /\ (forall a, amount = Some a -> anull a = true ->
      fst (update_transaction_of_int m tid amount category description) = (m, false))
  /\ (~ no_field amount category description -> amount_accepted amount ->
      sqlite_integer tid = true ->
      (forall t, In t (transactions (db m)) -> t_id t = tid -> t_user_id t <> u) ->
      update_transaction_of_int m tid amount category description
      = (m, false,
         [Text "Transaction not found or you don't have permission to update it."]))
  /\ (~ no_field amount category description -> amount_accepted amount ->
      sqlite_integer tid = false ->
      update_transaction_of_int m tid amount category description
      = (m, false, [Failure "Error updating transaction"])).
Proof.
  intros Hu. destruct (sqlite_integer tid) eqn:Hfits.
  - rewrite (update_transaction_of_int_bound m tid _ _ _ Hfits).
    split; [exact (update_transaction_frame m u tid _ _ _ Hu) |].
    split; [| split; [| split; [| split]]].
    + intros (-> & -> & ->). now rewrite (update_transaction_cases m u tid _ _ _ Hu).
    + intros a -> Hle. now rewrite (update_transaction_cases m u tid _ _ _ Hu), Hle.
    + intros a -> Hnull. now apply (update_transaction_null_amount m u).
    + intros Hsome Hok _. now apply update_transaction_not_found.
    + discriminate.
  - rewrite (update_transaction_of_int_overflow m u tid _ _ _ Hu Hfits).
    assert (Hsame : Forall2 (row_frame tid u amount category description)
                      (transactions (db m)) (transactions (db m))).
    { rewrite <- (map_id (transactions (db m))) at 2.
      apply Forall2_map_self. intros. apply row_frame_refl. }
    split; [| split; [| split; [| split; [| split]]]].
    + destruct (match amount with Some a => aleb a azero | None => false end); [now cbn |].
      destruct amount, category, description; now cbn.
    + intros (-> & -> & ->). reflexivity.
    + intros a -> Hle. now rewrite Hle.
    + intros a -> Hnull. destruct (aleb a azero); [reflexivity |].
      now destruct category, description.
    + discriminate.
    + intros Hsome Hok _.
      assert (Hpass : match amount with Some a => aleb a azero | None => false end = false).
      { destruct amount as [a |]; [exact Hok | reflexivity]. }
      rewrite Hpass. destruct amount, category, description; try reflexivity.
      exfalso. now apply Hsome.
Qed.

End Update.

(** ** Reports *)

Section Reports.
Context {A : Type} `{Amount A}.

Lemma where_clause_range (u : Z) (s e : string) (t : Transaction A) :
  truthy (Some s) = true -> truthy (Some e) = true ->
  where_clause u (Some s) (Some e) None None t = in_range u s e t.
Proof.
  intros Hs He. unfold where_clause, in_range. rewrite Hs, He. cbn.
  now rewrite !andb_true_r.
Qed.

Lemma get_transactions_range (m : Manager A) (u : Z) (s e : string) :
  logged_in m = Some u -> truthy (Some s) = true -> truthy (Some e) = true ->
  get_transactions m (Some s) (Some e) None None = (map to_dict (rows_in_range m u s e), []).
Proof.
  intros Hu Hs He. unfold get_transactions, rows_in_range. rewrite Hu. do 3 f_equal.
  apply filter_ext. intros t. now apply where_clause_range.
Qed.

Lemma rows_in_range_In (m : Manager A) (u : Z) (s e : string) (t : Transaction A) :
  In t (rows_in_range m u s e)
  <-> In t (transactions (db m)) /\ t_user_id t = u
      /\ String.leb s (t_date t) = true /\ String.leb (t_date t) e = true.
Proof.
  unfold rows_in_range. rewrite order_by_date_desc_In, filter_In. unfold in_range.
  rewrite !andb_true_iff, Z.eqb_eq. tauto.
Qed.

Lemma generate_report_range_of (m : Manager A) (u : Z) (now : datetime) (period s e : string) :
  logged_in m = Some u -> period_range now period = Some (s, e) ->
  truthy (Some s) = true -> truthy (Some e) = true ->
  generate_report m now period = (Some (report_of period s e (rows_in_range m u s e)), []).
Proof.
  intros Hu Hp Hs He. unfold generate_report. rewrite Hu, Hp.
  rewrite (get_transactions_range m u s e Hu Hs He). unfold report_of.
  destruct (report_loop _) as [[i x] c]. reflexivity.
Qed.

(** What [generate_report] reads.  For a logged-in user, the monthly
    report is computed from exactly
    the user's rows whose date string is between the first day of the
    current month and today's date, the yearly report from those between
    January 1 of the current year and today's date, and any other period
    gives no report and the invalid-period message; membership in the
    range is decided by comparing the stored date strings with the bounds
    in string order, both bounds included. *)
Theorem generate_report_range (m : Manager A) (u : Z) (now : datetime) (period : string) :
  logged_in m = Some u ->
  (forall s e t,
     In t (rows_in_range m u s e)
     <-> In t (transactions (db m)) /\ t_user_id t = u
         /\ String.leb s (t_date t) = true /\ String.leb (t_date t) e = true)
  /\ (forall s e,
        Permutation (rows_in_range m u s e)
          (filter (in_range u s e) (transactions (db m))))
  /\ (period = "monthly" ->
      generate_report m now period
      = (Some (report_of "monthly" (first_of_month now) (strftime_date now)
                 (rows_in_range m u (first_of_month now) (strftime_date now))), []))
  /\ (period = "yearly" ->
      generate_report m now period
      = (Some (report_of "yearly" (first_of_year now) (strftime_date now)
                 (rows_in_range m u (first_of_year now) (strftime_date now))), []))
  /\ (period <> "monthly" -> period <> "yearly" ->
      generate_report m now period
      = (None, [Text "Invalid period. Use 'monthly' or 'yearly'."])).
Proof.
  intros Hu. split; [| split; [| split; [| split]]].
  - intros s e t. apply rows_in_range_In.
  - intros s e. apply order_by_date_desc_perm.
  - intros ->. now apply generate_report_range_of.
  - intros ->. now apply generate_report_range_of.
  - intros Hm Hy. unfold generate_report, period_range. rewrite Hu.
    apply String.eqb_neq in Hm, Hy. now rewrite Hm, Hy.
Qed.

End Reports.

(** C2 on the code.  A salary of 1000 and an expense of 40 added on
    November 3rd are in neither the monthly nor the yearly report made on
    that day, although the range of both ends on '2026-11-03': the two
    rows are dated '2026-11-03 10:00:00', which sorts after the bound, and
    both reports show totals of zero.  The monthly report of November 4th
    has them. *)
Theorem report_misses_todays_transactions :
  generate_report (payday_scenario nov3) nov3 "monthly"
  = (Some (mkReport "monthly" "2026-11-01" "2026-11-03" 0%float 0%float 0%float []), [])
  /\ generate_report (payday_scenario nov3) nov3 "yearly"
     = (Some (mkReport "yearly" "2026-01-01" "2026-11-03" 0%float 0%float 0%float []), [])
  /\ map t_date (transactions (db (payday_scenario nov3)))
     = ["2026-11-03 10:00:00"; "2026-11-03 10:00:00"]
  /\ generate_report (payday_scenario nov3) nov4 "monthly"
     = (Some (mkReport "monthly" "2026-11-01" "2026-11-04" 1000%float 40%float 960%float
                [("food", 40%float)]), []).
Proof. repeat split. Qed.

(** ** Totals of a report *)

Section Totals.
Context {A : Type} `{Amount A}.

Lemma dict_get_set_same (d : list (string * A)) (k : string) (v z : A) :
  dict_get (dict_set d k v) k z = v.
Proof.
  induction d as [| [k' v'] r IH]; cbn.
  - now rewrite String.eqb_refl.
  - destruct (String.eqb k' k) eqn:Hk; cbn; rewrite Hk; auto.
Qed.

Lemma dict_get_set_other (d : list (string * A)) (k c : string) (v z : A) :
  k <> c -> dict_get (dict_set d k v) c z = dict_get d c z.
Proof.
  intros Hkc. induction d as [| [k' v'] r IH]; cbn.
  - apply String.eqb_neq in Hkc. now rewrite Hkc.
  - destruct (String.eqb k' k) eqn:Hk; cbn.
    + apply String.eqb_eq in Hk. subst k'. apply String.eqb_neq in Hkc. now rewrite Hkc.
    + destruct (String.eqb k' c); auto.
Qed.

Lemma dict_set_keys (d : list (string * A)) (k c : string) (v : A) :
  In c (map fst (dict_set d k v)) <-> c = k \/ In c (map fst d).
Proof.
  induction d as [| [k' v'] r IH]; cbn.
  - intuition.
  - destruct (String.eqb k' k) eqn:Hk; cbn.
    + apply String.eqb_eq in Hk. subst k'. intuition.
    + rewrite IH. intuition.
Qed.

Lemma report_step_income (acc : A * A * list (string * A)) (t : TransDict A) :
  fst (fst (report_step acc t))
  = if is_income t then aadd (fst (fst acc)) (td_amount t) else fst (fst acc).
Proof. destruct acc as [[i e] d]. unfold report_step, is_income. now destruct (String.eqb _ _). Qed.

Lemma report_step_expenses (acc : A * A * list (string * A)) (t : TransDict A) :
  snd (fst (report_step acc t))
  = if counted_as_expense t then aadd (snd (fst acc)) (td_amount t) else snd (fst acc).
Proof.
  destruct acc as [[i e] d]. unfold report_step, counted_as_expense, is_income.
  now destruct (String.eqb _ _).
Qed.

Lemma report_step_category (acc : A * A * list (string * A)) (t : TransDict A) (c : string) :
  dict_get (snd (report_step acc t)) c azero
  = if expense_in c t then aadd (dict_get (snd acc) c azero) (td_amount t)
    else dict_get (snd acc) c azero.
Proof.
  destruct acc as [[i e] d]. unfold report_step, expense_in, counted_as_expense, is_income.
  destruct (String.eqb (td_type t) "income"); cbn; [reflexivity |].
  destruct (String.eqb (td_category t) c) eqn:Hc.
  - apply String.eqb_eq in Hc. subst c. apply dict_get_set_same.
  - apply String.eqb_neq in Hc. now apply dict_get_set_other.
Qed.

Lemma report_step_keys (acc : A * A * list (string * A)) (t : TransDict A) (c : string) :
  In c (map fst (snd (report_step acc t)))
  <-> (counted_as_expense t = true /\ td_category t = c) \/ In c (map fst (snd acc)).
Proof.
  destruct acc as [[i e] d]. unfold report_step, counted_as_expense, is_income.
  destruct (String.eqb (td_type t) "income"); cbn.
  - intuition discriminate.
  - rewrite dict_set_keys. intuition.
Qed.

(** The loop, from any starting accumulators. *)
Lemma loop_income (l : list (TransDict A)) (acc : A * A * list (string * A)) :
  fst (fst (fold_left report_step l acc))
  = fold_left aadd (map td_amount (filter is_income l)) (fst (fst acc)).
Proof.
  revert acc. induction l as [| t l IH]; intros acc; cbn; [reflexivity |].
  rewrite IH, report_step_income. now destruct (is_income t).
Qed.

Lemma loop_expenses (l : list (TransDict A)) (acc : A * A * list (string * A)) :
  snd (fst (fold_left report_step l acc))
  = fold_left aadd (map td_amount (filter counted_as_expense l)) (snd (fst acc)).
Proof.
  revert acc. induction l as [| t l IH]; intros acc; cbn; [reflexivity |].
  rewrite IH, report_step_expenses. now destruct (counted_as_expense t).
Qed.

Lemma loop_category (l : list (TransDict A)) (acc : A * A * list (string * A)) (c : string) :
  dict_get (snd (fold_left report_step l acc)) c azero
  = fold_left aadd (map td_amount (filter (expense_in c) l)) (dict_get (snd acc) c azero).
Proof.
  revert acc. induction l as [| t l IH]; intros acc; cbn; [reflexivity |].
  rewrite IH, report_step_category. now destruct (expense_in c t).
Qed.

Lemma loop_keys (l : list (TransDict A)) (acc : A * A * list (string * A)) (c : string) :
  In c (map fst (snd (fold_left report_step l acc)))
  <-> (exists t, In t l /\ counted_as_expense t = true /\ td_category t = c)
      \/ In c (map fst (snd acc)).
Proof.
  revert acc. induction l as [| t l IH]; intros acc; cbn.
  - split; [auto | intros [(t & [] & _) | Hin]; assumption].
  - rewrite IH, report_step_keys. split.
    + intros [(x & Hin & Hx) | [Ht | Hin]]; eauto 6.
    + intros [(x & [<- | Hin] & Hx) | Hin]; eauto 6.
Qed.

(** With exact addition the order of summation does not matter. *)
Section Exact.
Context `{!AmountExact A}.

Lemma fold_left_aadd_shift (xs : list A) (z x : A) :
  fold_left aadd xs (aadd z x) = aadd (fold_left aadd xs z) x.
Proof.
  revert z. induction xs as [| y xs IH]; intros z; cbn; [reflexivity |].
  rewrite <- IH. f_equal.
  rewrite <- !aadd_assoc. f_equal. apply aadd_comm.
Qed.

Lemma sum_cons (x : A) (xs : list A) : sum (x :: xs) = aadd (sum xs) x.
Proof. unfold sum. cbn [fold_left]. apply fold_left_aadd_shift. Qed.

Lemma sum_values_dict_set (d : list (string * A)) (k : string) (a : A) :
  sum_values (dict_set d k (aadd (dict_get d k azero) a)) = aadd (sum_values d) a.
Proof.
  unfold sum_values. induction d as [| [k' v'] r IH]; cbn [dict_set dict_get map snd].
  - rewrite sum_cons. cbn. now rewrite aadd_0_l.
  - destruct (String.eqb k' k); cbn [map snd]; rewrite !sum_cons.
    + rewrite <- !aadd_assoc. f_equal.
    + rewrite IH. rewrite <- !aadd_assoc. f_equal. apply aadd_comm.
Qed.

Lemma loop_sum_values (l : list (TransDict A)) (acc : A * A * list (string * A)) :
  sum_values (snd acc) = snd (fst acc) ->
  sum_values (snd (fold_left report_step l acc)) = snd (fst (fold_left report_step l acc)).
Proof.
  revert acc. induction l as [| t l IH]; intros acc Hacc; cbn; [assumption |].
  apply IH. destruct acc as [[i e] d]. cbn [fst snd] in Hacc. unfold report_step.
  destruct (String.eqb (td_type t) "income"); cbn [fst snd]; [assumption |].
  rewrite sum_values_dict_set. now rewrite Hacc.
Qed.

End Exact.

(** Amounts that are whole numbers of a unit, added without rounding. *)
Section Units.
Variable of_units : Z -> A.
Variable bound : Z.
Hypothesis Hexact : exact_up_to of_units bound.

Lemma total_units_cons (n : Z) (ns : list Z) : total_units (n :: ns) = n + total_units ns.
Proof. reflexivity. Qed.

Lemma total_units_nonneg (ns : list Z) : Forall (fun n => 0 <= n) ns -> 0 <= total_units ns.
Proof.
  induction 1 as [| n ns Hn _ IH]; [cbn; lia |]. rewrite total_units_cons. lia.
Qed.

Lemma fold_units (ns : list Z) (z : Z) :
  Forall (fun n => 0 <= n) ns -> 0 <= z -> z + total_units ns <= bound ->
  fold_left aadd (map of_units ns) (of_units z) = of_units (z + total_units ns).
Proof.
  intros Hns. revert z. induction Hns as [| n ns Hn Hns IH]; intros z Hz Hb.
  - cbn. now rewrite Z.add_0_r.
  - pose proof (total_units_nonneg ns Hns) as Hpos. rewrite total_units_cons in *.
    cbn [map fold_left]. rewrite (proj2 Hexact z n Hz Hn) by lia.
    rewrite IH by lia. f_equal. lia.
Qed.

(** One more expense of [n] units under category [c]. *)
Lemma dict_set_units (d : list (string * A)) (ks : list Z) (c : string) (n : Z) :
  map snd d = map of_units ks -> Forall (fun k => 0 <= k) ks -> 0 <= n ->
  total_units ks + n <= bound ->
  exists ks',
    map snd (dict_set d c (aadd (dict_get d c azero) (of_units n))) = map of_units ks'
    /\ Forall (fun k => 0 <= k) ks' /\ total_units ks' = total_units ks + n.
Proof.
  revert ks. induction d as [| [k' v'] r IH]; intros ks Hd Hks Hn Hb.
  - destruct ks; [| discriminate]. exists [n]. cbn [dict_set dict_get map snd].
    change (total_units []) with 0 in *.
    rewrite <- (proj1 Hexact), (proj2 Hexact 0 n) by lia.
    split; [reflexivity |]. split; [repeat constructor; assumption |].
    rewrite total_units_cons. cbn. lia.
  - destruct ks as [| k0 ks0]; [discriminate |]. cbn [map snd] in Hd.
    injection Hd as Hv Hr. inversion Hks as [| ? ? Hk0 Hks0]; subst.
    pose proof (total_units_nonneg ks0 Hks0) as Hpos. rewrite total_units_cons in *.
    cbn [dict_set dict_get]. destruct (String.eqb k' c).
    + exists ((k0 + n) :: ks0). cbn [map snd].
      rewrite (proj2 Hexact k0 n Hk0 Hn) by lia. rewrite Hr.
      split; [reflexivity |]. split; [constructor; [lia | assumption] |].
      rewrite total_units_cons. lia.
    + destruct (IH ks0 Hr Hks0 Hn) as (ks' & Hd' & Hks' & Hsum); [lia |].
      exists (k0 :: ks'). cbn [map snd]. rewrite Hd'.
      split; [reflexivity |]. split; [constructor; assumption |].
      rewrite total_units_cons. lia.
Qed.

(** The loop from accumulators that hold [e] units spread over the
    categories. *)
Lemma loop_units (l : list (TransDict A)) (acc : A * A * list (string * A)) (e : Z)
    (ks ns : list Z) :
  snd (fst acc) = of_units e -> map snd (snd acc) = map of_units ks ->
  Forall (fun k => 0 <= k) ks -> total_units ks = e ->
  map td_amount (filter counted_as_expense l) = map of_units ns ->
  Forall (fun n => 0 <= n) ns -> e + total_units ns <= bound ->
  snd (fst (fold_left report_step l acc)) = of_units (e + total_units ns)
  /\ sum_values (snd (fold_left report_step l acc)) = of_units (e + total_units ns).
Proof.
  revert acc e ks ns. induction l as [| t l IH]; intros acc e ks ns He Hd Hks Hsum Hl Hns Hb.
  - destruct ns; [| discriminate]. cbn [fold_left]. change (total_units []) with 0 in *.
    rewrite Z.add_0_r in *. split; [exact He |].
    unfold sum_values, sum. rewrite Hd, <- (proj1 Hexact).
    rewrite fold_units by (try assumption; lia). f_equal. lia.
  - cbn [fold_left]. cbn [filter] in Hl. destruct acc as [[i x] d]. cbn [fst snd] in He, Hd.
    unfold counted_as_expense, is_income in Hl.
    destruct (String.eqb (td_type t) "income") eqn:Hty; cbn [negb] in Hl.
    + assert (Hstep : report_step (i, x, d) t = (aadd i (td_amount t), x, d))
        by (unfold report_step; now rewrite Hty).
      rewrite Hstep. now apply (IH _ e ks ns).
    + assert (Hstep : report_step (i, x, d) t
                      = (i, aadd x (td_amount t),
                         dict_set d (td_category t)
                           (aadd (dict_get d (td_category t) azero) (td_amount t))))
        by (unfold report_step; now rewrite Hty).
      rewrite Hstep. clear Hstep.
      destruct ns as [| n ns']; [discriminate |]. cbn [map] in Hl.
      injection Hl as Hn Hl. inversion Hns as [| ? ? Hn0 Hns']. subst.
      pose proof (total_units_nonneg ns' Hns') as Hpos.
      pose proof (total_units_nonneg ks Hks) as Hpos'.
      rewrite total_units_cons in *. rewrite Hn.
      destruct (dict_set_units d ks (td_category t) n Hd Hks Hn0) as (ks' & Hd' & Hks' & Hsum');
        [lia |].
      destruct (IH (i, aadd (of_units (total_units ks)) (of_units n),
                    dict_set d (td_category t)
                      (aadd (dict_get d (td_category t) azero) (of_units n)))
                  (total_units ks + n) ks' ns') as [Hx Hv]; cbn [fst snd];
        try assumption; try lia.
      { apply (proj2 Hexact); lia. }
      rewrite Hx, Hv. split; f_equal; lia.
Qed.

End Units.

End Totals.

(** ** The report invariant *)

Section ReportInvariant.
Context {A : Type} `{Amount A}.

(** C3, as the code has it.  In every report [savings] is the value of
    [total_income - total_expenses], and the program's [==] holds between
    the two unless that value is NaN (a NaN is not [==] to itself);
    [total_income] adds up, in report order, the amounts of the records of
    type 'income' in range, [total_expenses] those of the other records,
    and [category_expenses] holds, for exactly the categories of those
    other records, the amounts of the category added up in report order.
    The values of [category_expenses] add up to [total_expenses] whenever
    the additions do not round: when the expenses are whole numbers of a
    unit whose sums are exact up to their total (as binary64 is on
    moderate whole numbers), and when addition of amounts is exact
    altogether. *)
Theorem report_totals `{!AmountEq A} `{!AmountEqSelf A} (m : Manager A) (now : datetime)
    (period : string) (r : Report A) (out : list (line A)) :
  generate_report m now period = (Some r, out) ->
  let l := fst (get_transactions m (Some (r_start_date r)) (Some (r_end_date r)) None None) in
  r_savings r = asub (r_total_income r) (r_total_expenses r)
  /\ aeqb (asub (r_total_income r) (r_total_expenses r)) (r_savings r)
     = negb (anull (r_savings r))
  /\ r_total_income r = sum (map td_amount (filter is_income l))
  /\ r_total_expenses r = sum (map td_amount (filter counted_as_expense l))
  /\ (forall c, dict_get (r_category_expenses r) c azero
                = sum (map td_amount (filter (expense_in c) l)))
  /\ (forall c, In c (map fst (r_category_expenses r))
                <-> exists t, In t l /\ counted_as_expense t = true /\ td_category t = c)
  /\ (forall (of_units : Z -> A) (bound : Z) (ns : list Z),
        exact_up_to of_units bound ->
        map td_amount (filter counted_as_expense l) = map of_units ns ->
        Forall (fun n => 0 <= n) ns -> total_units ns <= bound ->
        sum_values (r_category_expenses r) = r_total_expenses r
        /\ r_total_expenses r = of_units (total_units ns))
  /\ (AmountExact A -> sum_values (r_category_expenses r) = r_total_expenses r).
Proof.
  unfold generate_report. destruct (logged_in m) as [u |]; [| discriminate].
  destruct (period_range now period) as [[s e] |]; [| discriminate].
  destruct (get_transactions m (Some s) (Some e) None None) as [l out'] eqn:Hget.
  destruct (report_loop l) as [[i x] c] eqn:Hloop.
  intros [= <- <-]. cbn [r_start_date r_end_date r_savings r_total_income r_total_expenses
                         r_category_expenses].
  rewrite Hget. cbn [fst]. unfold report_loop in Hloop.
  pose proof (loop_income l (azero, azero, [])) as Hi.
  pose proof (loop_expenses l (azero, azero, [])) as Hx.
  pose proof (loop_category l (azero, azero, [])) as Hc.
  pose proof (loop_keys l (azero, azero, [])) as Hk.
  rewrite Hloop in Hi, Hx, Hc, Hk. cbn [fst snd] in Hi, Hx, Hc, Hk.
  split; [reflexivity |]. split; [apply aeqb_self |]. split; [exact Hi |].
  split; [exact Hx |]. split; [exact Hc |]. split; [| split].
  - intros k. rewrite Hk. cbn. tauto.
  - intros of_units bound ns Hexact Hl Hns Hb.
    assert (Hstart : total_units [] = 0) by reflexivity.
    pose proof (loop_units of_units bound Hexact l (azero, azero, []) 0 [] ns
                  (eq_sym (proj1 Hexact)) eq_refl (Forall_nil _) Hstart Hl Hns Hb)
      as [Hx' Hv'].
    rewrite Hloop in Hx', Hv'. cbn [fst snd] in Hx', Hv'. rewrite Z.add_0_l in Hx', Hv'.
    split; congruence.
  - intros Hexact.
    pose proof (loop_sum_values l (azero, azero, []) eq_refl) as Hs.
    now rewrite Hloop in Hs.
Qed.

End ReportInvariant.

(** Whole tens up to 60 add without rounding in binary64. *)
Lemma tens_exact : exact_up_to tens 6.
Proof.
  split; [reflexivity |]. intros a b Ha Hb Hab.
  assert (Hcase : forall n, 0 <= n <= 6 ->
                    n = 0 \/ n = 1 \/ n = 2 \/ n = 3 \/ n = 4 \/ n = 5 \/ n = 6) by (intros; lia).
  destruct (Hcase a ltac:(lia)) as [-> | [-> | [-> | [-> | [-> | [-> | ->]]]]]];
    destruct (Hcase b ltac:(lia)) as [-> | [-> | [-> | [-> | [-> | [-> | ->]]]]]];
    try reflexivity; exfalso; lia.
Qed.

(** The report of [tens_ledger], in binary64: the category values 40
    and 20 add up to the total expenses 60, and savings, 440, is [==] to
    income less expenses. *)
Lemma report_totals_witness :
  exists r : Report float,
    generate_report tens_ledger nov3 "monthly" = (Some r, [])
    /\ r_category_expenses r = [("a", 40%float); ("b", 20%float)]
    /\ sum_values (r_category_expenses r) = r_total_expenses r
    /\ r_total_expenses r = 60%float
    /\ PrimFloat.eqb (PrimFloat.sub (r_total_income r) (r_total_expenses r)) (r_savings r)
       = true.
Proof.
  eexists. split; [reflexivity |]. split; [reflexivity |].
  destruct (report_totals tens_ledger nov3 "monthly" _ [] eq_refl)
    as (_ & Heq & _ & _ & _ & _ & Hunits & _).
  destruct (Hunits tens 6 [3; 2; 1] tens_exact eq_refl) as [Hsum Htotal].
  - repeat constructor; discriminate.
  - discriminate.
  - split; [exact Hsum |]. split; [exact Htotal | exact Heq].
Defined.

(** C3 as stated fails on binary64 amounts, in both halves.  The report
    of [rounding_ledger] has total expenses 2^53 (adding 1 to 2^53 rounds
    back to 2^53) while its category values 2 and 2^53 add up to
    2^53 + 2.  In the report of [overflow_ledger] both totals are
    infinite, savings is NaN, and [total_income - total_expenses ==
    savings] is false. *)
Lemma category_sum_differs_from_total :
  (exists r : Report float,
     generate_report rounding_ledger nov3 "monthly" = (Some r, [])
     /\ r_category_expenses r = [("a", 2%float); ("b", 9007199254740992%float)]
     /\ r_total_expenses r = 9007199254740992%float
     /\ sum_values (r_category_expenses r) = 9007199254740994%float
     /\ PrimFloat.eqb (sum_values (r_category_expenses r)) (r_total_expenses r) = false)
  /\ (exists r : Report float,
        generate_report overflow_ledger nov3 "monthly" = (Some r, [])
        /\ r_total_income r = infinity /\ r_total_expenses r = infinity
        /\ PrimFloat.eqb (PrimFloat.sub (r_total_income r) (r_total_expenses r))
             (r_savings r)
           = false).
Proof.
  split; eexists; (split; [reflexivity |]); repeat split.
Qed.

(** The same with everyday amounts: 0.30, 0.20 and 0.10 give total
    expenses 0.6 and category values adding up to 0.6000000000000001. *)
Lemma category_sum_differs_on_cents :
  exists r : Report float,
    generate_report cents_ledger nov3 "monthly" = (Some r, [])
    /\ PrimFloat.eqb (sum_values (r_category_expenses r)) (r_total_expenses r) = false.
Proof. eexists. split; [reflexivity |]. reflexivity. Qed.

(** ** Restoring a backup *)

Section Restore.
Context {A : Type} `{Amount A}.

Lemma restore_transactions_valid (l : list (TransDict A)) (d : Database A) (u : Z) :
  forallb valid_transaction_dict l = true ->
  restore_transactions d u l
  = Some (set_transactions d
            (transactions d ++ number_transactions (seq_transactions d) u l)
            (seq_transactions d + Z.of_nat (List.length l))).
Proof.
  revert d. induction l as [| t l IH]; intros d Hall.
  - cbn. rewrite app_nil_r, Z.add_0_r. now destruct d.
  - cbn [forallb] in Hall. apply andb_true_iff in Hall as [Ht Hl].
    unfold valid_transaction_dict in Ht. apply andb_true_iff in Ht as [Hty Hnull].
    apply negb_true_iff in Hnull.
    cbn [restore_transactions]. rewrite (insert_transaction_some _ _ _ _ _ _ _ Hty Hnull).
    cbn [bind]. rewrite (IH _ Hl). cbn [List.length number_transactions].
    rewrite Nat2Z.inj_succ. unfold set_transactions.
    cbn [users transactions budgets seq_users seq_transactions seq_budgets].
    rewrite <- app_assoc. cbn [app]. do 2 f_equal. lia.
Qed.

Lemma restore_transactions_invalid (l : list (TransDict A)) (d : Database A) (u : Z) :
  forallb valid_transaction_dict l = false -> restore_transactions d u l = None.
Proof.
  revert d. induction l as [| t l IH]; intros d Hall; [discriminate |].
  cbn [forallb] in Hall. cbn [restore_transactions]. unfold insert_transaction.
  unfold valid_transaction_dict in Hall.
  destruct (valid_type (td_type t)); cbn in *; [| reflexivity].
  destruct (anull (td_amount t)); cbn in *; [reflexivity |].
  now apply IH.
Qed.

Lemma insert_budget_some (d : Database A) (u : Z) (now : datetime) (b : BudgetDict A) :
  anull (bd_amount b) = false -> key_free d u now b ->
  insert_budget d u (bd_category b) (bd_amount b) (month now) (year now)
  = Some (set_budgets d
            (budgets d ++ [mkBudget (seq_budgets d + 1) u (bd_category b) (bd_amount b)
                             (month now) (year now)])
            (seq_budgets d + 1)).
Proof. unfold key_free, insert_budget. now intros -> ->. Qed.

Lemma insert_budget_inv (d d' : Database A) (u : Z) (now : datetime) (b : BudgetDict A) :
  insert_budget d u (bd_category b) (bd_amount b) (month now) (year now) = Some d' ->
  anull (bd_amount b) = false /\ key_free d u now b
  /\ d' = set_budgets d
            (budgets d ++ [mkBudget (seq_budgets d + 1) u (bd_category b) (bd_amount b)
                             (month now) (year now)])
            (seq_budgets d + 1).
Proof.
  unfold key_free, insert_budget.
  destruct (anull (bd_amount b)); [discriminate |].
  destruct (existsb _ (budgets d)); [discriminate |].
  cbn. intros [= <-]. auto.
Qed.

(** The key of a row inserted for [b] meets the key of [b'] exactly when
    the two categories are equal. *)
Lemma same_budget_key_inserted (s u : Z) (now : datetime) (b b' : BudgetDict A) :
  same_budget_key u (bd_category b') (month now) (year now)
    (mkBudget s u (bd_category b) (bd_amount b) (month now) (year now))
  = String.eqb (bd_category b) (bd_category b').
Proof.
  unfold same_budget_key. cbn [b_user_id b_category b_month b_year].
  now rewrite !Z.eqb_refl, !andb_true_r.
Qed.

Lemma restore_budgets_valid (l : list (BudgetDict A)) (d : Database A) (u : Z)
    (now : datetime) :
  forallb (fun b => negb (anull (bd_amount b))) l = true ->
  distinct_categories l = true ->
  (forall b, In b l -> key_free d u now b) ->
  restore_budgets d u now l
  = Some (set_budgets d (budgets d ++ number_budgets (seq_budgets d) u now l)
            (seq_budgets d + Z.of_nat (List.length l))).
Proof.
  revert d. induction l as [| b l IH]; intros d Hnull Hdist Hfree.
  - cbn. rewrite app_nil_r, Z.add_0_r. now destruct d.
  - cbn [forallb] in Hnull. apply andb_true_iff in Hnull as [Hb Hnull].
    apply negb_true_iff in Hb.
    cbn [distinct_categories] in Hdist. apply andb_true_iff in Hdist as [Hfresh Hdist].
    apply negb_true_iff in Hfresh.
    cbn [restore_budgets].
    rewrite (insert_budget_some d u now b Hb (Hfree b (or_introl eq_refl))).
    cbn [bind]. rewrite IH; [| assumption | assumption |].
    + cbn [List.length number_budgets]. rewrite Nat2Z.inj_succ. unfold set_budgets.
      cbn [users transactions budgets seq_users seq_transactions seq_budgets].
      rewrite <- app_assoc. cbn [app]. do 2 f_equal. lia.
    + intros b' Hin. unfold key_free, set_budgets. cbn [budgets].
      rewrite existsb_app. rewrite (Hfree b' (or_intror Hin)). cbn [existsb orb].
      rewrite same_budget_key_inserted, orb_false_r.
      destruct (String.eqb (bd_category b) (bd_category b')) eqn:Heq; [| reflexivity].
      rewrite <- Hfresh. symmetry. apply existsb_exists. exists b'. split; [assumption |].
      now rewrite String.eqb_sym.
Qed.

Lemma restore_budgets_keys_free (l : list (BudgetDict A)) (d d' : Database A) (u : Z)
    (now : datetime) :
  restore_budgets d u now l = Some d' -> forall b, In b l -> key_free d u now b.
Proof.
  revert d. induction l as [| b l IH]; intros d Hres b' Hin; [destruct Hin |].
  cbn [restore_budgets] in Hres.
  destruct (insert_budget d u (bd_category b) (bd_amount b) (month now) (year now))
    as [d1 |] eqn:Hins; [| discriminate].
  cbn [bind] in Hres. apply insert_budget_inv in Hins as (Hb & Hfree & ->).
  destruct Hin as [<- | Hin]; [assumption |].
  specialize (IH _ Hres b' Hin). unfold key_free, set_budgets in IH. cbn [budgets] in IH.
  rewrite existsb_app in IH. now apply orb_false_iff in IH as [IH _].
Qed.

Lemma restore_budgets_inv (l : list (BudgetDict A)) (d d' : Database A) (u : Z)
    (now : datetime) :
  restore_budgets d u now l = Some d' ->
  forallb (fun b => negb (anull (bd_amount b))) l = true /\ distinct_categories l = true.
Proof.
  revert d. induction l as [| b l IH]; intros d Hres; [now cbn |].
  cbn [restore_budgets] in Hres.
  destruct (insert_budget d u (bd_category b) (bd_amount b) (month now) (year now))
    as [d1 |] eqn:Hins; [| discriminate].
  cbn [bind] in Hres. apply insert_budget_inv in Hins as (Hb & Hfree & ->).
  destruct (IH _ Hres) as [Hnull Hdist].
  cbn [forallb distinct_categories]. rewrite Hb, Hnull, Hdist. cbn [negb andb].
  rewrite andb_true_r. split; [reflexivity |].
  apply negb_true_iff. destruct (existsb _ l) eqn:Hex; [| reflexivity].
  apply existsb_exists in Hex as (b' & Hin & Heq).
  pose proof (restore_budgets_keys_free _ _ _ _ _ Hres b' Hin) as Hfree'.
  unfold key_free, set_budgets in Hfree'. cbn [budgets] in Hfree'.
  rewrite existsb_app in Hfree'. apply orb_false_iff in Hfree' as [_ Hnew].
  cbn [existsb] in Hnew. rewrite same_budget_key_inserted, orb_false_r in Hnew.
  rewrite String.eqb_sym in Hnew. congruence.
Qed.

Lemma restore_budgets_invalid (l : list (BudgetDict A)) (d : Database A) (u : Z)
    (now : datetime) :
  forallb (fun b => negb (anull (bd_amount b))) l && distinct_categories l = false ->
  restore_budgets d u now l = None.
Proof.
  intros Hbad. destruct (restore_budgets d u now l) as [d' |] eqn:Hres; [| reflexivity].
  apply restore_budgets_inv in Hres as [Hnull Hdist].
  rewrite Hnull, Hdist in Hbad. discriminate.
Qed.

Lemma cleared_key_free (d : Database A) (u : Z) (now : datetime) (b : BudgetDict A)
    (l : list (Transaction A)) (s : Z) :
  key_free (set_transactions (delete_user_budgets d u) l s) u now b.
Proof.
  unfold key_free, set_transactions, delete_user_budgets, set_budgets. cbn [budgets].
  destruct (existsb _ _) eqn:Hex; [| reflexivity].
  apply existsb_exists in Hex as (x & Hin & Hkey).
  apply filter_In in Hin as [_ Hother]. unfold same_budget_key in Hkey.
  destruct (b_user_id x =? u); [discriminate | now cbn in Hkey].
Qed.

(** [restore_data] on a document of the current user: committed when
    the document meets the constraints, rolled back otherwise. *)
Lemma restore_data_outcome (m : Manager A) (u : Z) (now : datetime) (doc : BackupDoc A) :
  logged_in m = Some u -> bk_user_id doc = u ->
  restore_data m now (Some doc)
  = if valid_document doc
    then (mkManager (restored_db (db m) u now doc) (current_user m), true,
          [Text "Data restored successfully!"])
    else (m, false, [Failure "Error restoring data"]).
Proof.
  intros Hu Hid. unfold restore_data, valid_document. rewrite Hu, Hid, Z.eqb_refl.
  cbn [negb].
  destruct (forallb valid_transaction_dict (bk_transactions doc)) eqn:Htx.
  - rewrite (restore_transactions_valid _ _ _ Htx). cbn [bind andb].
    destruct (forallb _ (bk_budgets doc) && distinct_categories (bk_budgets doc)) eqn:Hb.
    + apply andb_true_iff in Hb as [Hnull Hdist].
      rewrite (restore_budgets_valid _ _ _ _ Hnull Hdist).
      * reflexivity.
      * intros b _. apply cleared_key_free.
    + now rewrite (restore_budgets_invalid _ _ _ _ Hb).
  - now rewrite (restore_transactions_invalid _ _ _ Htx).
Qed.

Lemma filter_owned_cleared (u : Z) (l : list (Transaction A)) :
  filter (owned_by u) (filter (fun t => negb (t_user_id t =? u)) l) = [].
Proof.
  apply filter_nil_iff. intros t Hin. apply filter_In in Hin as [_ Hn].
  unfold owned_by. now apply negb_true_iff.
Qed.

Lemma filter_budget_cleared (u : Z) (l : list (Budget A)) :
  filter (budget_of u) (filter (fun b => negb (b_user_id b =? u)) l) = [].
Proof.
  apply filter_nil_iff. intros t Hin. apply filter_In in Hin as [_ Hn].
  unfold budget_of. now apply negb_true_iff.
Qed.

Lemma filter_idem {X : Type} (p : X -> bool) (l : list X) :
  filter p (filter p l) = filter p l.
Proof.
  induction l as [| x l IH]; cbn; [reflexivity |].
  destruct (p x) eqn:Hp; cbn; now rewrite ?Hp, IH.
Qed.

Lemma owned_by_mk (i u : Z) (ty : string) (a : A) (c ds dt : string) :
  owned_by u (mkTransaction i u ty a c ds dt) = true.
Proof. apply Z.eqb_refl. Qed.

Lemma budget_of_mk (i u : Z) (c : string) (a : A) (mo y : Z) :
  budget_of u (mkBudget i u c a mo y) = true.
Proof. apply Z.eqb_refl. Qed.

Lemma number_transactions_owned (s u : Z) (l : list (TransDict A)) :
  filter (owned_by u) (number_transactions s u l) = number_transactions s u l
  /\ filter (fun t => negb (owned_by u t)) (number_transactions s u l) = [].
Proof.
  revert s. induction l as [| t l IH]; intros s; cbn [number_transactions filter];
    [now split |].
  rewrite !owned_by_mk. cbn [negb]. destruct (IH (s + 1)) as [-> ->]. now split.
Qed.

Lemma number_budgets_owned (s u : Z) (now : datetime) (l : list (BudgetDict A)) :
  filter (budget_of u) (number_budgets s u now l) = number_budgets s u now l
  /\ filter (fun b => negb (budget_of u b)) (number_budgets s u now l) = [].
Proof.
  revert s. induction l as [| t l IH]; intros s; cbn [number_budgets filter];
    [now split |].
  rewrite !budget_of_mk. cbn [negb]. destruct (IH (s + 1)) as [-> ->]. now split.
Qed.

Lemma number_transactions_fields (s u : Z) (l : list (TransDict A)) :
  map transaction_fields (number_transactions s u l) = map dict_fields l.
Proof. revert s. induction l as [| t l IH]; intros s; cbn; [| rewrite IH]; reflexivity. Qed.

Lemma number_budgets_fields (s u : Z) (now : datetime) (l : list (BudgetDict A)) :
  map budget_fields (number_budgets s u now l) = map (stamped now) l.
Proof. revert s. induction l as [| t l IH]; intros s; cbn; [| rewrite IH]; reflexivity. Qed.

(** What the committed database holds. *)
Lemma restored_db_contents (d : Database A) (u : Z) (now : datetime) (doc : BackupDoc A) :
  users (restored_db d u now doc) = users d
  /\ map transaction_fields (filter (owned_by u) (transactions (restored_db d u now doc)))
     = map dict_fields (bk_transactions doc)
  /\ map budget_fields (filter (budget_of u) (budgets (restored_db d u now doc)))
     = map (stamped now) (bk_budgets doc)
  /\ filter (fun t => negb (owned_by u t)) (transactions (restored_db d u now doc))
     = filter (fun t => negb (owned_by u t)) (transactions d)
  /\ filter (fun b => negb (budget_of u b)) (budgets (restored_db d u now doc))
     = filter (fun b => negb (budget_of u b)) (budgets d).
Proof.
  unfold restored_db. cbn [users transactions budgets]. rewrite !filter_app.
  destruct (number_transactions_owned (seq_transactions d) u (bk_transactions doc))
    as [-> ->].
  destruct (number_budgets_owned (seq_budgets d) u now (bk_budgets doc)) as [-> ->].
  rewrite filter_owned_cleared, filter_budget_cleared, !app_nil_r. cbn [app].
  rewrite number_transactions_fields, number_budgets_fields.
  repeat split.
  - apply (filter_idem (fun t => negb (owned_by u t))).
  - apply (filter_idem (fun b => negb (budget_of u b))).
Qed.

(** C5, as the code has it.  For a logged-in user, [restore_data] on a
    document of another user is refused with the ownership message and
    the manager is unchanged.  On a document of the user that meets the
    constraints of the tables it succeeds, and afterwards the user's
    transactions are, field by field and in order, those of the document,
    the user's budgets are those of the document stamped with the current
    month and year, and the rows of other users and the users table are
    as before.  On a document of the user that violates a constraint it
    fails with the storage error and the manager is unchanged. *)
Theorem restore_data_replaces (m : Manager A) (u : Z) (now : datetime) (doc : BackupDoc A) :
  logged_in m = Some u ->
  (bk_user_id doc <> u ->
   restore_data m now (Some doc)
   = (m, false, [Text "Backup file does not belong to the current user."]))
  /\ (bk_user_id doc = u -> valid_document doc = true ->
      exists m' : Manager A,
        restore_data m now (Some doc) = (m', true, [Text "Data restored successfully!"])
        /\ current_user m' = current_user m
        /\ users (db m') = users (db m)
        /\ map transaction_fields (filter (owned_by u) (transactions (db m')))
           = map dict_fields (bk_transactions doc)
        /\ map budget_fields (filter (budget_of u) (budgets (db m')))
           = map (stamped now) (bk_budgets doc)
        /\ filter (fun t => negb (owned_by u t)) (transactions (db m'))
           = filter (fun t => negb (owned_by u t)) (transactions (db m))
        /\ filter (fun b => negb (budget_of u b)) (budgets (db m'))
           = filter (fun b => negb (budget_of u b)) (budgets (db m)))
  /\ (bk_user_id doc = u -> valid_document doc = false ->
      restore_data m now (Some doc) = (m, false, [Failure "Error restoring data"])).
Proof.
  intros Hu. split; [| split].
  - intros Hid. unfold restore_data. rewrite Hu.
    apply Z.eqb_neq in Hid. now rewrite Hid.
  - intros Hid Hvalid. rewrite (restore_data_outcome m u now doc Hu Hid), Hvalid.
    eexists. split; [reflexivity |]. cbn [current_user db]. split; [reflexivity |].
    apply restored_db_contents.
  - intros Hid Hvalid. now rewrite (restore_data_outcome m u now doc Hu Hid), Hvalid.
Qed.

End Restore.

(** ** Backup followed by restore *)

Section RoundTrip.
Context {A : Type} `{Amount A}.







End RoundTrip.

(** ** Isolation between users *)

Section Isolation.
Context {A : Type} `{Amount A}.











(** *** What user [a] observes depends on the rows of [a] only *)




Lemma where_clause_owned (a : Z) (s e c k : option string) (t : Transaction A) :
  where_clause a s e c k t = true -> owned_by a t = true.
Proof.
  unfold where_clause, owned_by. destruct (t_user_id t =? a); [reflexivity | discriminate].
Qed.






















Lemma delete_transaction_not_found (m : Manager A) (u tid : Z) :
  logged_in m = Some u ->
  (forall t, In t (transactions (db m)) -> t_id t = tid -> t_user_id t <> u) ->
  delete_transaction m tid
  = (m, false, [Text "Transaction not found or you don't have permission to delete it."]).
Proof.
  intros Hu Hnone. unfold delete_transaction, delete_rows. rewrite Hu.
  assert (Hrows : filter (owned_row tid u) (transactions (db m)) = []).
  { apply filter_nil_iff. intros t Hin. unfold owned_row.
    destruct (t_id t =? tid) eqn:Hid; [| reflexivity].
    apply Z.eqb_eq in Hid. cbn. apply Z.eqb_neq. now apply Hnone. }
  now rewrite Hrows.
Qed.


End Isolation.

(** ** The constraints of the schema hold in every reachable state *)

Section Invariants.
Context {A : Type} `{Amount A}.

Lemma NoDup_map_filter {X Y : Type} (f : X -> Y) (p : X -> bool) (l : list X) :
  NoDup (map f l) -> NoDup (map f (filter p l)).
Proof.
  induction l as [| x l IH]; cbn; intros Hnd; [constructor |].
  apply NoDup_cons_iff in Hnd as [Hx Hnd].
  destruct (p x); cbn; [| now apply IH].
  constructor; [| now apply IH].
  intros Hin. apply Hx. apply in_map_iff in Hin as (y & Hy & Hin).
  apply filter_In in Hin as [Hin _]. apply in_map_iff. eauto.
Qed.

Lemma Forall_filter {X : Type} (P : X -> Prop) (p : X -> bool) (l : list X) :
  Forall P l -> Forall P (filter p l).
Proof.
  intros Hall. apply Forall_forall. intros x Hin. apply filter_In in Hin as [Hin _].
  rewrite Forall_forall in Hall. now apply Hall.
Qed.

Lemma NoDup_map_snoc_fresh {X : Type} (f : X -> Z) (l : list X) (x : X) (s : Z) :
  NoDup (map f l) -> Forall (fun y => f y <= s) l -> f x = s + 1 ->
  NoDup (map f (l ++ [x])) /\ Forall (fun y => f y <= s + 1) (l ++ [x]).
Proof.
  intros Hnd Hle Hx. split.
  - rewrite map_app. cbn. apply NoDup_app; [assumption | repeat constructor; auto |].
    intros k Hin [<- | []]. apply in_map_iff in Hin as (y & Hy & Hin).
    rewrite Forall_forall in Hle. specialize (Hle y Hin). lia.
  - apply Forall_app. split.
    + eapply Forall_impl; [| exact Hle]. cbn. intros; lia.
    + constructor; [lia | constructor].
Qed.

Lemma insert_transaction_consistent (d d' : Database A) (u : Z) (ty : string) (amount : A)
    (category description date : string) :
  consistent d ->
  insert_transaction d u ty amount category description date = Some d' ->
  consistent d'.
Proof.
  intros [(Htx & Hb & Hk) (Hid & Hle & Hbid & Hble & Hun)]. unfold insert_transaction.
  destruct (valid_type ty) eqn:Hty; [| discriminate].
  destruct (anull amount) eqn:Hnull; [discriminate |].
  cbn [negb orb]. intros [= <-].
  destruct (NoDup_map_snoc_fresh t_id (transactions d)
              (mkTransaction (seq_transactions d + 1) u ty amount category description date)
              (seq_transactions d) Hid Hle eq_refl) as [Hid' Hle'].
  repeat split; cbn [set_transactions users transactions budgets seq_transactions
                     seq_budgets]; try assumption.
  apply Forall_app. split; [assumption |]. constructor; [now split | constructor].
Qed.

Lemma insert_budget_consistent (d d' : Database A) (u : Z) (category : string) (amount : A)
    (mo y : Z) :
  consistent d -> insert_budget d u category amount mo y = Some d' -> consistent d'.
Proof.
  intros [(Htx & Hb & Hk) (Hid & Hle & Hbid & Hble & Hun)]. unfold insert_budget.
  destruct (anull amount) eqn:Hnull; [discriminate |].
  destruct (existsb _ (budgets d)) eqn:Hex; [discriminate |].
  cbn [orb]. intros [= <-].
  destruct (NoDup_map_snoc_fresh b_id (budgets d)
              (mkBudget (seq_budgets d + 1) u category amount mo y)
              (seq_budgets d) Hbid Hble eq_refl) as [Hbid' Hble'].
  repeat split; cbn [set_budgets users transactions budgets seq_transactions seq_budgets];
    try assumption.
  - apply Forall_app. split; [assumption |]. constructor; [assumption | constructor].
  - rewrite map_app. cbn. apply NoDup_app; [assumption | repeat constructor; auto |].
    intros k Hin [<- | []]. apply in_map_iff in Hin as (b & Hkey & Hin).
    assert (Hfalse : same_budget_key u category mo y b = false).
    { destruct (same_budget_key u category mo y b) eqn:Hs; [| reflexivity].
      rewrite <- Hex. symmetry. apply existsb_exists. eauto. }
    unfold budget_key in Hkey. cbn in Hkey. injection Hkey as Hu Hc Hm Hy.
    unfold same_budget_key in Hfalse.
    rewrite Hu, Hc, Hm, Hy, !Z.eqb_refl, String.eqb_refl in Hfalse. discriminate.
Qed.

Lemma replace_budget_consistent (d d' : Database A) (u : Z) (category : string) (amount : A)
    (mo y : Z) :
  consistent d -> replace_budget d u category amount mo y = Some d' -> consistent d'.
Proof.
  intros [(Htx & Hb & Hk) (Hid & Hle & Hbid & Hble & Hun)]. unfold replace_budget.
  destruct (anull amount) eqn:Hnull; [discriminate |]. intros [= <-].
  set (kept := filter (fun b => negb (same_budget_key u category mo y b)) (budgets d)).
  assert (Hbid1 : NoDup (map b_id kept)) by now apply NoDup_map_filter.
  assert (Hble1 : Forall (fun b => b_id b <= seq_budgets d) kept) by now apply Forall_filter.
  destruct (NoDup_map_snoc_fresh b_id kept
              (mkBudget (seq_budgets d + 1) u category amount mo y)
              (seq_budgets d) Hbid1 Hble1 eq_refl) as [Hbid' Hble'].
  repeat split; cbn [set_budgets users transactions budgets seq_transactions seq_budgets];
    try assumption.
  - apply Forall_app. split; [now apply Forall_filter |].
    constructor; [assumption | constructor].
  - rewrite map_app. cbn.
    apply NoDup_app; [now apply NoDup_map_filter | repeat constructor; auto |].
    intros k Hin [<- | []]. apply in_map_iff in Hin as (b & Hkey & Hin).
    apply filter_In in Hin as [_ Hfalse]. apply negb_true_iff in Hfalse.
    unfold budget_key in Hkey. cbn in Hkey. injection Hkey as Hu Hc Hm Hy.
    unfold same_budget_key in Hfalse.
    rewrite Hu, Hc, Hm, Hy, !Z.eqb_refl, String.eqb_refl in Hfalse. discriminate.
Qed.

Lemma filter_transactions_consistent (d : Database A) (p : Transaction A -> bool) :
  consistent d ->
  consistent (set_transactions d (filter p (transactions d)) (seq_transactions d)).
Proof.
  intros [(Htx & Hb & Hk) (Hid & Hle & Hbid & Hble & Hun)].
  repeat split; cbn [set_transactions users transactions budgets seq_transactions
                     seq_budgets]; try assumption.
  - now apply Forall_filter.
  - now apply NoDup_map_filter.
  - now apply Forall_filter.
Qed.

Lemma filter_budgets_consistent (d : Database A) (p : Budget A -> bool) :
  consistent d -> consistent (set_budgets d (filter p (budgets d)) (seq_budgets d)).
Proof.
  intros [(Htx & Hb & Hk) (Hid & Hle & Hbid & Hble & Hun)].
  repeat split; cbn [set_budgets users transactions budgets seq_transactions seq_budgets];
    try assumption.
  - now apply Forall_filter.
  - now apply NoDup_map_filter.
  - now apply NoDup_map_filter.
  - now apply Forall_filter.
Qed.

Lemma map_update_ids (amount : option A) (category description : option string)
    (tid uid : Z) (l : list (Transaction A)) :
  map t_id (map (fun t => if owned_row tid uid t
                          then apply_updates amount category description t else t) l)
  = map t_id l.
Proof.
  rewrite map_map. apply map_ext. intros t. now destruct (owned_row tid uid t).
Qed.

Lemma update_rows_consistent (d d' : Database A) (amount : option A)
    (category description : option string) (tid uid : Z) (n : nat) :
  consistent d ->
  update_rows d amount category description tid uid = Some (d', n) -> consistent d'.
Proof.
  intros [(Htx & Hb & Hk) (Hid & Hle & Hbid & Hble & Hun)]. unfold update_rows.
  destruct (_ && _) eqn:Hguard; [discriminate |]. intros [= <- <-].
  repeat split; cbn [set_transactions users transactions budgets seq_transactions
                     seq_budgets]; try assumption.
  - apply Forall_forall. intros t' Hin. apply in_map_iff in Hin as (t & <- & Hin).
    rewrite Forall_forall in Htx. destruct (Htx t Hin) as [Hty Hnull].
    destruct (owned_row tid uid t) eqn:Ho; [| now split].
    split; [exact Hty |]. unfold apply_updates. cbn [t_amount].
    destruct amount as [a |]; [| exact Hnull].
    apply andb_false_iff in Hguard as [Ha | Hn]; [exact Ha |].
    apply negb_false_iff, Nat.eqb_eq in Hn.
    apply length_zero_iff_nil in Hn.
    assert (Hin' : In t (filter (owned_row tid uid) (transactions d)))
      by (apply filter_In; now split).
    rewrite Hn in Hin'. destruct Hin'.
  - now rewrite map_update_ids.
  - apply Forall_forall. intros t' Hin. apply in_map_iff in Hin as (t & <- & Hin).
    rewrite Forall_forall in Hle. specialize (Hle t Hin).
    now destruct (owned_row tid uid t).
Qed.

Lemma restore_transactions_consistent (l : list (TransDict A)) (d d' : Database A) (u : Z) :
  consistent d -> restore_transactions d u l = Some d' -> consistent d'.
Proof.
  revert d. induction l as [| t l IH]; intros d Hd; cbn [restore_transactions].
  - now intros [= <-].
  - destruct (insert_transaction d u _ _ _ _ _) as [d1 |] eqn:Hins; [| discriminate].
    cbn [bind]. apply IH. now apply (insert_transaction_consistent _ _ _ _ _ _ _ _ Hd Hins).
Qed.

Lemma restore_budgets_consistent (l : list (BudgetDict A)) (d d' : Database A) (u : Z)
    (now : datetime) :
  consistent d -> restore_budgets d u now l = Some d' -> consistent d'.
Proof.
  revert d. induction l as [| b l IH]; intros d Hd; cbn [restore_budgets].
  - now intros [= <-].
  - destruct (insert_budget d u _ _ _ _) as [d1 |] eqn:Hins; [| discriminate].
    cbn [bind]. apply IH. now apply (insert_budget_consistent _ _ _ _ _ _ _ Hd Hins).
Qed.

Lemma insert_user_consistent (d d' : Database A) (username password : string) :
  consistent d -> insert_user d username password = Some d' -> consistent d'.
Proof.
  intros [(Htx & Hb & Hk) (Hid & Hle & Hbid & Hble & Hun)]. unfold insert_user.
  destruct (existsb _ (users d)) eqn:Hex; [discriminate |]. intros [= <-].
  repeat split; cbn [users transactions budgets seq_transactions seq_budgets];
    try assumption.
  rewrite map_app. cbn. apply NoDup_app; [assumption | repeat constructor; auto |].
  intros k Hin [<- | []]. apply in_map_iff in Hin as (x & Hx & Hin).
  assert (Htrue : existsb (fun u => String.eqb (u_username u) username) (users d) = true).
  { apply existsb_exists. exists x. split; [assumption |]. now apply String.eqb_eq. }
  congruence.
Qed.

(** Each data method keeps the constraints. *)
Lemma exec_consistent (m : Manager A) (c : command A) :
  consistent (db m) -> consistent (db (state_after m c)).
Proof.
  intros Hd. unfold state_after. destruct c; cbn [exec].
  - unfold add_transaction. destruct (logged_in m) as [u |]; [| exact Hd].
    destruct (negb (valid_type transaction_type)); [exact Hd |].
    destruct (aleb amount azero); [exact Hd |].
    destruct (insert_transaction _ _ _ _ _ _ _) as [d' |] eqn:Hins; [| exact Hd].
    cbn [fst db]. now apply (insert_transaction_consistent _ _ _ _ _ _ _ _ Hd Hins).
  - unfold update_transaction. destruct (logged_in m) as [u |]; [| exact Hd].
    destruct (match amount with Some a => aleb a azero | None => false end); [exact Hd |].
    destruct amount as [a |], category as [k |], description as [ds |];
      try exact Hd;
      (destruct (update_rows _ _ _ _ _ _) as [[d' n] |] eqn:Hupd; [| exact Hd];
       destruct (Nat.eqb n 0); [exact Hd |];
       cbn [fst db]; now apply (update_rows_consistent _ _ _ _ _ _ _ _ Hd Hupd)).
  - unfold delete_transaction, delete_rows. destruct (logged_in m) as [u |]; [| exact Hd].
    destruct (Nat.eqb _ 0); [exact Hd |]. cbn [fst db].
    now apply filter_transactions_consistent.
  - now destruct (get_transactions _ _ _ _ _).
  - now destruct (generate_report _ _ _).
  - unfold set_budget. destruct (logged_in m) as [u |]; [| exact Hd].
    destruct (aleb amount azero); [exact Hd |].
    destruct (replace_budget _ _ _ _ _ _) as [d' |] eqn:Hrep; [| exact Hd].
    cbn [fst db]. now apply (replace_budget_consistent _ _ _ _ _ _ _ Hd Hrep).
  - now destruct (check_budget _ _ _ _).
  - now destruct (get_budgets _ _).
  - now destruct (backup_data _ _ _ _) as [[x r] o].
  - unfold restore_data. destruct (logged_in m) as [u |]; [| exact Hd].
    destruct file as [doc |]; [| exact Hd].
    destruct (negb (bk_user_id doc =? u)); [exact Hd |].
    destruct (restore_transactions _ u (bk_transactions doc)) as [d1 |] eqn:Htx;
      [| exact Hd].
    cbn [bind].
    destruct (restore_budgets d1 u now (bk_budgets doc)) as [d2 |] eqn:Hb; [| exact Hd].
    cbn [fst db]. apply (restore_budgets_consistent _ _ _ _ _) with (2 := Hb).
    apply (restore_transactions_consistent _ _ _ _) with (2 := Htx).
    unfold delete_user_budgets, delete_user_transactions.
    now apply filter_budgets_consistent, filter_transactions_consistent.
Qed.

Lemma empty_database_consistent : consistent (@empty_database A).
Proof. repeat split; cbn; constructor. Qed.

(** The schema's constraints and the uniqueness of keys hold in every
    manager a session can reach: starting from an empty database and
    applying [register_user], [login] and the data methods in any order. *)
Theorem reachable_consistent (hash_password : string -> string) (m : Manager A) :
  reachable hash_password m -> consistent (db m).
Proof.
  induction 1 as [| m username password Hr IH | m username password Hr IH | m c Hr IH].
  - apply empty_database_consistent.
  - unfold register_user.
    destruct (String.eqb username "" || String.eqb password ""); [exact IH |].
    destruct (insert_user _ _ _) as [d' |] eqn:Hins; [| exact IH].
    cbn [fst db]. now apply (insert_user_consistent _ _ _ _ IH Hins).
  - unfold login. now destruct (select_user _ _ _).
  - now apply exec_consistent.
Qed.

End Invariants.

(** ** Deleting, and registering *)

Section DeleteRegister.
Context {A : Type} `{Amount A}.

(** Deleting a transaction of the logged-in user removes the rows with
    that id and owner and nothing else; deleting it again is refused with
    the not-found message and changes nothing. *)
Theorem delete_transaction_twice (m : Manager A) (u : Z) (t : Transaction A) :
  logged_in m = Some u -> In t (transactions (db m)) -> t_user_id t = u ->
  exists m' : Manager A,
    delete_transaction m (t_id t) = (m', true, [Text "Transaction deleted successfully!"])
    /\ transactions (db m')
       = filter (fun x => negb (owned_row (t_id t) u x)) (transactions (db m))
    /\ ~ In t (transactions (db m'))
    /\ budgets (db m') = budgets (db m)
    /\ delete_transaction m' (t_id t)
       = (m', false,
          [Text "Transaction not found or you don't have permission to delete it."]).
Proof.
  intros Hu Hin Ht.
  assert (Hown : owned_row (t_id t) u t = true).
  { unfold owned_row. now rewrite Ht, !Z.eqb_refl. }
  unfold delete_transaction at 1. unfold delete_rows. rewrite Hu.
  destruct (filter (owned_row (t_id t) u) (transactions (db m))) as [| x r] eqn:Hrows.
  { exfalso. assert (Hin' : In t (filter (owned_row (t_id t) u) (transactions (db m))))
      by (apply filter_In; now split).
    rewrite Hrows in Hin'. destruct Hin'. }
  cbn [List.length Nat.eqb]. eexists. split; [reflexivity |].
  cbn [db set_transactions transactions budgets]. split; [reflexivity |]. split.
  - intros Hin'. apply filter_In in Hin' as [_ Hneg]. rewrite Hown in Hneg. discriminate.
  - split; [reflexivity |]. apply delete_transaction_not_found with (u := u); [exact Hu |].
    cbn [db set_transactions transactions]. intros y Hy Hid Hyu.
    apply filter_In in Hy as [_ Hneg]. unfold owned_row in Hneg.
    rewrite Hid, Hyu, !Z.eqb_refl in Hneg. discriminate.
Qed.

Lemma find_app_none {X : Type} (p : X -> bool) (l1 l2 : list X) :
  find p l1 = None -> find p (l1 ++ l2) = find p l2.
Proof.
  induction l1 as [| x l1 IH]; cbn; [reflexivity |].
  destruct (p x); [discriminate | exact IH].
Qed.

(** Registering a fresh, non-empty username with a non-empty password
    succeeds; registering the name again is refused with the
    duplicate-user message; afterwards [login] with the password succeeds
    and sets the current user, and with a password of another digest it
    is refused with the invalid-credentials message. *)
Theorem register_then_login (hash_password : string -> string) (m : Manager A)
    (username password other : string) :
  username <> "" -> password <> "" -> other <> "" ->
  (forall x, In x (users (db m)) -> u_username x <> username) ->
  exists m1 : Manager A,
    register_user hash_password m username password
    = (m1, true, [Text "Registration successful!"])
    /\ register_user hash_password m1 username other
       = (m1, false, [Text "Username already exists. Please choose a different one."])
    /\ login hash_password m1 username password
       = (mkManager (db m1) (Some (seq_users (db m) + 1)), true, [Welcome username])
    /\ (hash_password other <> hash_password password ->
        login hash_password m1 username other
        = (m1, false, [Text "Invalid username or password."])).
Proof.
  intros Hn Hp Ho Hfresh.
  apply String.eqb_neq in Hn, Hp, Ho.
  assert (Hnew : existsb (fun x => String.eqb (u_username x) username) (users (db m))
                 = false).
  { destruct (existsb _ _) eqn:Hex; [| reflexivity].
    apply existsb_exists in Hex as (x & Hin & Hx).
    apply String.eqb_eq in Hx. now destruct (Hfresh x Hin). }
  assert (Hfind : forall q,
            find (fun x => String.eqb (u_username x) username && String.eqb (u_password x) q)
              (users (db m)) = None).
  { intros q. destruct (find _ _) as [x |] eqn:Hf; [| reflexivity].
    apply find_some in Hf as [Hin Hx]. apply andb_true_iff in Hx as [Hx _].
    apply String.eqb_eq in Hx. now destruct (Hfresh x Hin). }
  unfold register_user at 1. rewrite Hn, Hp. cbn [orb]. unfold insert_user. rewrite Hnew.
  eexists. split; [reflexivity |]. split; [| split].
  - unfold register_user. rewrite Hn, Ho. cbn [orb]. unfold insert_user.
    cbn [db users]. rewrite existsb_app. cbn [existsb u_username].
    now rewrite String.eqb_refl, orb_true_r.
  - unfold login, select_user. cbn [db users]. rewrite (find_app_none _ _ _ (Hfind _)).
    cbn [find u_username u_password]. now rewrite !String.eqb_refl.
  - intros Hdiff. unfold login, select_user. cbn [db users].
    rewrite (find_app_none _ _ _ (Hfind _)).
    cbn [find u_username u_password]. rewrite String.eqb_refl. cbn [andb].
    apply not_eq_sym, String.eqb_neq in Hdiff. now rewrite Hdiff.
Qed.

(** [register_user] succeeds exactly when both fields are non-empty and
    the username is not taken; it then appends one user row holding the
    digest of the password, with a fresh id.  In every case the current
    user, the transactions and the budgets stay as they were, and a
    refused call changes nothing at all. *)
Theorem register_user_iff (hash_password : string -> string) (m : Manager A)
    (username password : string) :
  (snd (fst (register_user hash_password m username password)) = true
   <-> (username <> "" /\ password <> ""
        /\ forall x, In x (users (db m)) -> u_username x <> username))
  /\ current_user (fst (fst (register_user hash_password m username password)))
     = current_user m
  /\ transactions (db (fst (fst (register_user hash_password m username password))))
     = transactions (db m)
  /\ budgets (db (fst (fst (register_user hash_password m username password))))
     = budgets (db m)
  /\ (snd (fst (register_user hash_password m username password)) = true ->
      users (db (fst (fst (register_user hash_password m username password))))
      = users (db m) ++ [mkUser (seq_users (db m) + 1) username (hash_password password)])
  /\ (snd (fst (register_user hash_password m username password)) = false ->
      fst (fst (register_user hash_password m username password)) = m).
Proof.
  unfold register_user, insert_user.
  destruct (String.eqb username "") eqn:Hn; cbn [orb].
  { apply String.eqb_eq in Hn. cbn. repeat split; try discriminate; try tauto. }
  destruct (String.eqb password "") eqn:Hp; cbn [orb].
  { apply String.eqb_eq in Hp. cbn. repeat split; try discriminate; try tauto. }
  apply String.eqb_neq in Hn, Hp.
  destruct (existsb _ (users (db m))) eqn:Hex; cbn.
  - apply existsb_exists in Hex as (x & Hin & Hx). apply String.eqb_eq in Hx.
    repeat split; try discriminate. intros (_ & _ & Hfresh). now destruct (Hfresh x Hin).
  - repeat split; try discriminate; try assumption.
    intros x Hin Hx.
    assert (Htrue : existsb (fun u => String.eqb (u_username u) username) (users (db m))
                    = true).
    { apply existsb_exists. exists x. split; [assumption | now apply String.eqb_eq]. }
    congruence.
Qed.

End DeleteRegister.

(** ** Before login, and budgets *)

Section Budgets.
Context {A : Type} `{Amount A}.

(** With nobody logged in ([current_user] is [None], or the falsy id
    0), every data method returns its failure value, prints the log-in
    line ([check_budget] prints nothing) and leaves the manager as it
    was. *)
Theorem not_logged_in_refused (m : Manager A) (c : command A) :
  logged_in m = None ->
  state_after m c = m /\ observed m c = (refusal c, refusal_lines c).
Proof.
  intros Hout. unfold state_after, observed.
  destruct c; cbn [exec refusal refusal_lines].
  - unfold add_transaction. now rewrite Hout.
  - unfold update_transaction. now rewrite Hout.
  - unfold delete_transaction. now rewrite Hout.
  - unfold get_transactions. now rewrite Hout.
  - unfold generate_report. now rewrite Hout.
  - unfold set_budget. now rewrite Hout.
  - unfold check_budget. now rewrite Hout.
  - unfold get_budgets. now rewrite Hout.
  - unfold backup_data. now rewrite Hout.
  - unfold restore_data. now rewrite Hout.
Qed.

Lemma find_same_key_replaced (u : Z) (category : string) (amount : A) (mo y s : Z)
    (l : list (Budget A)) :
  find (same_budget_key u category mo y)
    (filter (fun b => negb (same_budget_key u category mo y b)) l
       ++ [mkBudget s u category amount mo y])
  = Some (mkBudget s u category amount mo y).
Proof.
  rewrite find_app_none.
  - cbn [find]. unfold same_budget_key. cbn [b_user_id b_category b_month b_year].
    now rewrite !Z.eqb_refl, String.eqb_refl.
  - destruct (find _ _) as [b |] eqn:Hf; [| reflexivity].
    apply find_some in Hf as [Hin Hkey]. apply filter_In in Hin as [_ Hneg].
    rewrite Hkey in Hneg. discriminate.
Qed.

(** The rows listed under a category are the listed rows of that
    category. *)
Lemma listed_under_rows (c : string) (l : list (Budget A)) :
  listed_under c (map (fun b => mkBudgetDict (b_category b) (b_amount b)) (order_by_category l))
  = map (fun b => mkBudgetDict (b_category b) (b_amount b))
      (order_by_category (filter (fun b => String.eqb (b_category b) c) l)).
Proof.
  rewrite <- order_by_category_filter. unfold listed_under.
  generalize (order_by_category l). intros r.
  induction r as [| b r IH]; cbn [map filter bd_category]; [reflexivity |].
  destruct (String.eqb (b_category b) c); cbn [map]; now rewrite IH.
Qed.

(** The rows a query keeps, after the replacement of one key. *)
Lemma filter_replaced (p : Budget A -> bool) (u : Z) (category : string) (amount : A)
    (mo y s : Z) (l : list (Budget A)) :
  filter p
    (filter (fun b => negb (same_budget_key u category mo y b)) l
       ++ [mkBudget s u category amount mo y])
  = filter (fun b => negb (same_budget_key u category mo y b) && p b) l
    ++ (if p (mkBudget s u category amount mo y)
        then [mkBudget s u category amount mo y] else []).
Proof. rewrite filter_app, filter_filter_and. reflexivity. Qed.

(** [set_budget] is an upsert on (user, category, current month and
    year).  With an amount above zero it succeeds; the budget then found
    for the category is the new amount, [get_budgets] lists exactly one
    entry under the category, lists under every other category what it
    listed before, and lists for any other month or year what it listed
    before; the transactions are untouched.  With an amount [<= 0] it is
    refused and nothing changes. *)
Theorem set_budget_upsert `{!AmountOrder A} (m : Manager A) (u : Z) (now : datetime)
    (category : string) (amount : A) :
  logged_in m = Some u ->
  (aleb amount azero = true ->
   set_budget m now category amount = (m, false, [Text "Budget amount must be positive."]))
  /\ (agtb amount azero = true ->
      exists m' : Manager A,
        set_budget m now category amount = (m', true, [BudgetSet category amount now])
        /\ select_budget_amount (db m') u category (month now) (year now) = Some amount
        /\ listed_under category (fst (get_budgets m' now)) = [mkBudgetDict category amount]
        /\ (forall c, c <> category ->
            listed_under c (fst (get_budgets m' now))
            = listed_under c (fst (get_budgets m now)))
        /\ (forall now2, (month now2 <> month now \/ year now2 <> year now) ->
            get_budgets m' now2 = get_budgets m now2)
        /\ transactions (db m') = transactions (db m)
        /\ current_user m' = current_user m).
Proof.
  intros Hu. unfold set_budget. rewrite Hu. split.
  - now intros ->.
  - intros Hpos. rewrite (pos_not_le _ Hpos). unfold replace_budget.
    rewrite (pos_not_null _ Hpos).
    eexists. split; [reflexivity |].
    assert (Hu' : forall d : Database A, logged_in (mkManager d (current_user m)) = Some u)
      by (intros d; exact Hu).
    cbn [fst db set_budgets users transactions budgets current_user].
    split; [| split; [| split; [| split; [| split]]]]; try reflexivity.
    + unfold select_budget_amount, set_budgets. cbn [budgets].
      now rewrite find_same_key_replaced.
    + unfold get_budgets. rewrite Hu'. cbn [fst].
      unfold select_budgets, set_budgets. cbn [db budgets].
      rewrite listed_under_rows, filter_filter_and, filter_replaced.
      cbn [b_user_id b_month b_year b_category]. rewrite !Z.eqb_refl, String.eqb_refl.
      cbn [andb].
      replace (filter _ (budgets (db m))) with (@nil (Budget A)); [reflexivity |].
      symmetry. apply filter_nil_iff. intros b _. unfold same_budget_key.
      destruct (b_user_id b =? u), (b_month b =? month now), (b_year b =? year now),
        (String.eqb (b_category b) category); reflexivity.
    + intros c Hc. unfold get_budgets. rewrite Hu', Hu. cbn [fst].
      unfold select_budgets, set_budgets. cbn [db budgets].
      rewrite !listed_under_rows, !filter_filter_and, filter_replaced.
      cbn [b_user_id b_month b_year b_category]. rewrite !Z.eqb_refl.
      apply not_eq_sym, String.eqb_neq in Hc. rewrite Hc. cbn [andb].
      rewrite !app_nil_r. do 2 f_equal. apply filter_ext. intros b.
      unfold same_budget_key.
      destruct (String.eqb (b_category b) c) eqn:Hbc; [| now rewrite !andb_false_r].
      apply String.eqb_eq in Hbc. rewrite Hbc, String.eqb_sym, Hc.
      now rewrite !andb_false_r, !andb_true_r.
    + intros now2 Hother. unfold get_budgets. rewrite Hu', Hu. f_equal.
      unfold select_budgets, set_budgets. cbn [db budgets].
      rewrite filter_replaced. cbn [b_user_id b_month b_year].
      assert (Hno : (month now =? month now2) && (year now =? year now2) = false).
      { apply andb_false_iff. destruct Hother as [Hm | Hy]; [left | right];
          apply Z.eqb_neq; congruence. }
      rewrite <- andb_assoc, Hno, andb_false_r, app_nil_r. do 2 f_equal.
      apply filter_ext. intros b. unfold same_budget_key.
      destruct ((b_user_id b =? u) && (b_month b =? month now2) && (b_year b =? year now2))
        eqn:Hb; [| now rewrite andb_false_r].
      rewrite andb_true_r. apply negb_true_iff.
      apply andb_true_iff in Hb as [Hb Hy]. apply andb_true_iff in Hb as [Hb Hm].
      apply Z.eqb_eq in Hm, Hy. rewrite Hm, Hy.
      apply andb_false_iff in Hno as [Hno | Hno].
      * rewrite (Z.eqb_sym (month now2)), Hno. now rewrite !andb_false_r.
      * rewrite (Z.eqb_sym (year now2)), Hno. now rewrite !andb_false_r.
Qed.

End Budgets.

(** ** Queries after queries, deletions and updates *)

Section Queries.
Context {A : Type} `{Amount A}.

Lemma not_before_trans (t1 t2 t3 : Transaction A) :
  not_before t1 t2 -> not_before t2 t3 -> not_before t1 t3.
Proof. unfold not_before. intros H12 H23. exact (string_leb_trans _ _ _ H23 H12). Qed.

Lemma order_strongly_sorted (l : list (Transaction A)) :
  StronglySorted not_before (order_by_date_desc l).
Proof.
  apply Sorted_StronglySorted; [| apply order_by_date_desc_sorted].
  intros t1 t2 t3. apply not_before_trans.
Qed.

(** Inserting into a sorted list and dropping rows commute. *)
Lemma insert_desc_filter (p : Transaction A -> bool) (x : Transaction A)
    (l : list (Transaction A)) :
  StronglySorted not_before l ->
  filter p (insert_desc x l)
  = if p x then insert_desc x (filter p l) else filter p l.
Proof.
  induction l as [| y r IH]; intros Hs.
  - cbn. now destruct (p x).
  - apply StronglySorted_inv in Hs as [Hr Hall]. specialize (IH Hr).
    cbn [insert_desc]. destruct (String.leb (t_date y) (t_date x)) eqn:Hyx.
    + cbn [filter]. destruct (p x) eqn:Hpx; [| reflexivity].
      destruct (p y) eqn:Hpy; [cbn [insert_desc]; now rewrite Hyx |].
      destruct (filter p r) as [| z r'] eqn:Hf; [reflexivity |].
      cbn [insert_desc].
      assert (Hz : In z r).
      { assert (Hin : In z (filter p r)) by (rewrite Hf; now left).
        now apply filter_In in Hin as [Hin _]. }
      rewrite Forall_forall in Hall. specialize (Hall z Hz). unfold not_before in Hall.
      now rewrite (string_leb_trans _ _ _ Hall Hyx).
    + cbn [filter]. rewrite IH. destruct (p y) eqn:Hpy.
      * destruct (p x); [cbn [insert_desc]; now rewrite Hyx | reflexivity].
      * reflexivity.
Qed.

Lemma order_by_date_desc_filter (p : Transaction A -> bool) (l : list (Transaction A)) :
  filter p (order_by_date_desc l) = order_by_date_desc (filter p l).
Proof.
  induction l as [| x l IH]; [reflexivity |].
  cbn [order_by_date_desc fold_right filter].
  rewrite insert_desc_filter by apply order_strongly_sorted.
  fold (order_by_date_desc l). rewrite IH. now destruct (p x).
Qed.

(** Sorting looks at the dates only. *)
Lemma insert_desc_map (f : Transaction A -> Transaction A) (x : Transaction A)
    (l : list (Transaction A)) :
  (forall t, t_date (f t) = t_date t) ->
  insert_desc (f x) (map f l) = map f (insert_desc x l).
Proof.
  intros Hf. induction l as [| y r IH]; cbn; [reflexivity |].
  rewrite !Hf. destruct (String.leb (t_date y) (t_date x)); cbn; [reflexivity |].
  now rewrite IH.
Qed.

Lemma order_by_date_desc_map (f : Transaction A -> Transaction A)
    (l : list (Transaction A)) :
  (forall t, t_date (f t) = t_date t) ->
  order_by_date_desc (map f l) = map f (order_by_date_desc l).
Proof.
  intros Hf. induction l as [| x l IH]; [reflexivity |].
  cbn [order_by_date_desc fold_right map].
  fold (order_by_date_desc (map f l)). fold (order_by_date_desc l).
  rewrite IH. now apply insert_desc_map.
Qed.

Lemma filter_map_swap {X Y : Type} (f : X -> Y) (q : Y -> bool) (l : list X) :
  filter q (map f l) = map f (filter (fun x => q (f x)) l).
Proof.
  induction l as [| x l IH]; cbn; [reflexivity |]. destruct (q (f x)); cbn; now rewrite IH.
Qed.

Lemma where_clause_split (u : Z) (s e c k : option string) (t : Transaction A) :
  where_clause u s e c k t = (t_user_id t =? u) && dict_matches s e c k (to_dict t).
Proof.
  unfold where_clause, dict_matches. cbn [to_dict td_date td_category td_type].
  now rewrite !andb_assoc.
Qed.

Lemma get_transactions_filtered (m : Manager A) (s e c k : option string) :
  fst (get_transactions m s e c k)
  = filter (dict_matches s e c k) (fst (get_transactions m None None None None)).
Proof.
  unfold get_transactions. destruct (logged_in m) as [u |]; [| reflexivity].
  cbn [fst]. rewrite filter_map_swap, order_by_date_desc_filter, filter_filter_and.
  do 2 f_equal. apply filter_ext. intros t.
  rewrite where_clause_split, where_clause_no_filter. reflexivity.
Qed.

(** A query with filters returns the records of the query without
    filters that match every filter given, in the same order; a filter
    left as [None] or given as the empty string removes nothing. *)
Theorem filtered_query_narrows (m : Manager A) (s e c k : option string) :
  fst (get_transactions m s e c k)
  = filter (dict_matches s e c k) (fst (get_transactions m None None None None)).
Proof. apply get_transactions_filtered. Qed.

(** After [delete_transaction], whatever its outcome, every query
    returns what it returned before without the records of that id. *)
Theorem delete_then_query (m : Manager A) (tid : Z) (s e c k : option string) :
  fst (get_transactions (fst (fst (delete_transaction m tid))) s e c k)
  = filter (fun x => negb (td_id x =? tid)) (fst (get_transactions m s e c k)).
Proof.
  unfold delete_transaction, delete_rows, get_transactions.
  destruct (logged_in m) as [u |] eqn:Hu; [| cbn; now rewrite Hu].
  assert (Hgen :
    map to_dict
      (order_by_date_desc
         (filter (where_clause u s e c k)
            (filter (fun t => negb (owned_row tid u t)) (transactions (db m)))))
    = filter (fun x => negb (td_id x =? tid))
        (map to_dict (order_by_date_desc
                        (filter (where_clause u s e c k) (transactions (db m)))))).
  { rewrite filter_map_swap, order_by_date_desc_filter, !filter_filter_and.
    do 2 f_equal. apply filter_ext. intros t. cbn [to_dict td_id].
    unfold owned_row, where_clause.
    destruct (t_user_id t =? u); cbn [andb]; [| now rewrite andb_false_r].
    rewrite andb_true_r. apply andb_comm. }
  destruct (Nat.eqb _ 0) eqn:Hcount.
  - cbn [fst]. rewrite Hu. cbn [fst]. rewrite <- Hgen. do 2 f_equal.
    apply Nat.eqb_eq, length_zero_iff_nil in Hcount.
    rewrite filter_filter_and. apply filter_ext_in. intros t Hin.
    destruct (owned_row tid u t) eqn:Ho; [| reflexivity].
    assert (Hin' : In t (filter (owned_row tid u) (transactions (db m))))
      by (apply filter_In; now split).
    rewrite Hcount in Hin'. destruct Hin'.
  - cbn [fst db set_transactions transactions current_user].
    change (logged_in (mkManager _ (current_user m))) with (logged_in m).
    rewrite Hu. cbn [fst]. exact Hgen.
Qed.

Lemma where_clause_updated (u tid : Z) (amount : option A)
    (category description : option string) (s e k : option string) (t : Transaction A) :
  where_clause u s e None k
    (if owned_row tid u t then apply_updates amount category description t else t)
  = where_clause u s e None k t.
Proof. now destruct (owned_row tid u t). Qed.

Lemma to_dict_updated (u tid : Z) (amount : option A)
    (category description : option string) (t : Transaction A) :
  t_user_id t = u ->
  to_dict (if owned_row tid u t then apply_updates amount category description t else t)
  = patch_dict tid amount category description (to_dict t).
Proof.
  intros Hu. unfold owned_row, patch_dict. cbn [to_dict td_id]. rewrite Hu, Z.eqb_refl.
  rewrite andb_true_r. now destruct (t_id t =? tid).
Qed.

(** After [update_transaction], a query without a category filter
    returns the same records in the same order, those of the addressed id
    carrying the supplied fields when the update succeeded, and exactly
    what it returned before when the update was refused. *)
Theorem update_then_query (m : Manager A) (tid : Z) (amount : option A)
    (category description : option string) (s e k : option string) :
  fst (get_transactions
         (fst (fst (update_transaction m tid amount category description))) s e None k)
  = if snd (fst (update_transaction m tid amount category description))
    then map (patch_dict tid amount category description)
           (fst (get_transactions m s e None k))
    else fst (get_transactions m s e None k).
Proof.
  destruct (logged_in m) as [u |] eqn:Hu;
    [| unfold update_transaction; now rewrite Hu].
  rewrite (update_transaction_cases m u tid _ _ _ Hu).
  destruct (match amount with Some a => aleb a azero | None => false end); [reflexivity |].
  assert (Hgo :
    fst (get_transactions
           (mkManager
              (set_transactions (db m)
                 (map (fun t => if owned_row tid u t
                                then apply_updates amount category description t else t)
                    (transactions (db m))) (seq_transactions (db m)))
              (current_user m)) s e None k)
    = map (patch_dict tid amount category description)
        (fst (get_transactions m s e None k))).
  { unfold get_transactions.
    change (logged_in (mkManager _ (current_user m))) with (logged_in m).
    rewrite Hu. cbn [fst db set_transactions transactions].
    rewrite filter_map_swap.
    rewrite (filter_ext _ _ (where_clause_updated u tid amount category description s e k)).
    rewrite order_by_date_desc_map by (intros t; now destruct (owned_row tid u t)).
    rewrite !map_map. apply map_ext_in. intros t Hin.
    rewrite order_by_date_desc_In in Hin. apply filter_In in Hin as [_ Hw].
    apply where_clause_owned in Hw. apply Z.eqb_eq in Hw.
    now apply to_dict_updated. }
  unfold update_rows.
  destruct amount as [a |], category as [c |], description as [ds |];
    try reflexivity;
    (destruct (_ && _); [reflexivity |];
     destruct (Nat.eqb _ 0); [reflexivity |];
     cbn [fst snd]; exact Hgo).
Qed.

Lemma compare_app_prefix (p a b : string) :
  String.compare (p ++ a) (p ++ b) = String.compare a b.
Proof.
  induction p as [| c p IH]; cbn; [reflexivity |].
  unfold Ascii.compare. now rewrite N.compare_refl.
Qed.

Lemma first_of_year_le_month (now : datetime) :
  1 <= month now <= 12 -> String.leb (first_of_year now) (first_of_month now) = true.
Proof.
  intros Hm. unfold String.leb, first_of_year, first_of_month.
  rewrite compare_app_prefix.
  assert (Hcases : month now = 1 \/ month now = 2 \/ month now = 3 \/ month now = 4
                   \/ month now = 5 \/ month now = 6 \/ month now = 7 \/ month now = 8
                   \/ month now = 9 \/ month now = 10 \/ month now = 11 \/ month now = 12)
    by lia.
  repeat (destruct Hcases as [-> | Hcases]; [reflexivity |]). now rewrite Hcases.
Qed.

(** The two ranges of [generate_report] end on the same day and the
    yearly one starts no later, so the records of the monthly report are
    those of the yearly report dated from the first of the month on, in
    the same order. *)
Theorem monthly_within_yearly (m : Manager A) (now : datetime) :
  1 <= month now <= 12 ->
  exists sm sy e : string,
    period_range now "monthly" = Some (sm, e)
    /\ period_range now "yearly" = Some (sy, e)
    /\ String.leb sy sm = true
    /\ fst (get_transactions m (Some sm) (Some e) None None)
       = filter (fun x => String.leb sm (td_date x))
           (fst (get_transactions m (Some sy) (Some e) None None)).
Proof.
  intros Hm. exists (first_of_month now), (first_of_year now), (strftime_date now).
  split; [reflexivity |]. split; [reflexivity |].
  pose proof (first_of_year_le_month now Hm) as Hle. split; [exact Hle |].
  rewrite (get_transactions_filtered m (Some (first_of_month now))),
          (get_transactions_filtered m (Some (first_of_year now))).
  rewrite filter_filter_and. apply filter_ext. intros x.
  unfold dict_matches.
  change (truthy (Some (first_of_month now))) with true.
  change (truthy (Some (first_of_year now))) with true.
  change (truthy (Some (strftime_date now))) with true.
  cbn [truthy]. rewrite !andb_true_r.
  destruct (String.leb (first_of_month now) (td_date x)) eqn:Hx.
  - rewrite (string_leb_trans _ _ _ Hle Hx). cbn [andb]. now rewrite andb_true_r.
  - cbn [andb]. now rewrite andb_false_r.
Qed.

End Queries.

(** ** Restore followed by backup *)

Section RestoreBackup.
Context {A : Type} `{Amount A}.









End RestoreBackup.

(** ** The menu loop *)

Section MethodFrames.
Context {A : Type} `{Amount A}.

Lemma state_after_add (m : Manager A) (now now' : datetime) (ty : string) (amount : A)
    (category description : string) :
  fst (fst (add_transaction m now now' ty amount category description))
  = state_after m (AddTransaction now now' ty amount category description).
Proof.
  unfold state_after. cbn [exec]. now destruct (add_transaction _ _ _ _ _ _ _) as [[m' b] out].
Qed.

Lemma state_after_update (m : Manager A) (tid : Z) (amount : option A)
    (category description : option string) :
  fst (fst (update_transaction m tid amount category description))
  = state_after m (UpdateTransaction tid amount category description).
Proof.
  unfold state_after. cbn [exec]. now destruct (update_transaction _ _ _ _ _) as [[m' b] out].
Qed.

Lemma state_after_delete (m : Manager A) (tid : Z) :
  fst (fst (delete_transaction m tid)) = state_after m (DeleteTransaction tid).
Proof.
  unfold state_after. cbn [exec]. now destruct (delete_transaction _ _) as [[m' b] out].
Qed.

Lemma state_after_set_budget (m : Manager A) (now : datetime) (category : string) (amount : A) :
  fst (fst (set_budget m now category amount)) = state_after m (SetBudget now category amount).
Proof.
  unfold state_after. cbn [exec]. now destruct (set_budget _ _ _ _) as [[m' b] out].
Qed.

Lemma state_after_restore (m : Manager A) (now : datetime) (file : option (BackupDoc A)) :
  fst (fst (restore_data m now file)) = state_after m (RestoreData now file).
Proof.
  unfold state_after. cbn [exec]. now destruct (restore_data _ _ _) as [[m' b] out].
Qed.

(** Called with any Python int, the two methods do what they do with
    a bound id, or nothing. *)
Lemma update_transaction_of_int_cases (m : Manager A) (tid : Z) (amount : option A)
    (category description : option string) :
  fst (fst (update_transaction_of_int m tid amount category description))
  = state_after m (UpdateTransaction tid amount category description)
  \/ fst (fst (update_transaction_of_int m tid amount category description)) = m.
Proof.
  unfold update_transaction_of_int. destruct (logged_in m); [| now right].
  destruct (match amount with Some a => aleb a azero | None => false end); [now right |].
  destruct (sqlite_integer tid).
  - destruct amount, category, description; try (left; apply state_after_update).
    now right.
  - destruct amount, category, description; now right.
Qed.

Lemma delete_transaction_of_int_cases (m : Manager A) (tid : Z) :
  fst (fst (delete_transaction_of_int m tid)) = state_after m (DeleteTransaction tid)
  \/ fst (fst (delete_transaction_of_int m tid)) = m.
Proof.
  unfold delete_transaction_of_int. destruct (logged_in m); [| now right].
  destruct (sqlite_integer tid); [left; apply state_after_delete | now right].
Qed.

Lemma exec_refused (m : Manager A) (c : command A) :
  logged_in m = None -> state_after m c = m.
Proof.
  intros Hout. unfold state_after. destruct c; cbn [exec].
  - unfold add_transaction. now rewrite Hout.
  - unfold update_transaction. now rewrite Hout.
  - unfold delete_transaction. now rewrite Hout.
  - unfold get_transactions. now rewrite Hout.
  - unfold generate_report. now rewrite Hout.
  - unfold set_budget. now rewrite Hout.
  - unfold check_budget. now rewrite Hout.
  - unfold get_budgets. now rewrite Hout.
  - unfold backup_data. now rewrite Hout.
  - unfold restore_data. now rewrite Hout.
Qed.

Ltac break_match :=
  repeat match goal with
  | |- context [match ?x with _ => _ end] => destruct x eqn:?
  | Heq : Some _ = Some _ |- _ => injection Heq as <-
  | Heq : (_, _) = (_, _) |- _ => injection Heq as <- <-
  end.

(** No data method logs anybody in or out. *)
Lemma exec_current_user (m : Manager A) (c : command A) :
  current_user (state_after m c) = current_user m.
Proof.
  destruct c;
    [ rewrite <- state_after_add; unfold add_transaction
    | rewrite <- state_after_update; unfold update_transaction
    | rewrite <- state_after_delete; unfold delete_transaction
    | unfold state_after; cbn [exec]; destruct (get_transactions _ _ _ _ _)
    | unfold state_after; cbn [exec]; destruct (generate_report _ _ _)
    | rewrite <- state_after_set_budget; unfold set_budget
    | unfold state_after; cbn [exec]; destruct (check_budget _ _ _ _)
    | unfold state_after; cbn [exec]; destruct (get_budgets _ _)
    | unfold state_after; cbn [exec]; destruct (backup_data _ _ _ _) as [[? ?] ?]
    | rewrite <- state_after_restore; unfold restore_data ];
    break_match; reflexivity.
Qed.


Lemma register_user_frame (hash_password : string -> string) (m : Manager A)
    (username password : string) :
  current_user (fst (fst (register_user hash_password m username password))) = current_user m
  /\ transactions (db (fst (fst (register_user hash_password m username password))))
     = transactions (db m)
  /\ budgets (db (fst (fst (register_user hash_password m username password))))
     = budgets (db m).
Proof.
  unfold register_user, insert_user.
  destruct (String.eqb username "" || String.eqb password ""); [now repeat split |].
  destruct (existsb _ _); now repeat split.
Qed.

Lemma register_user_consistent (hash_password : string -> string) (m : Manager A)
    (username password : string) :
  consistent (db m) ->
  consistent (db (fst (fst (register_user hash_password m username password)))).
Proof.
  intros Hd. unfold register_user.
  destruct (String.eqb username "" || String.eqb password ""); [exact Hd |].
  destruct (insert_user _ _ _) as [d' |] eqn:Hins; [| exact Hd].
  cbn [fst db]. now apply (insert_user_consistent _ _ _ _ Hd Hins).
Qed.

Lemma login_db (hash_password : string -> string) (m : Manager A) (username password : string) :
  db (fst (fst (login hash_password m username password))) = db m.
Proof. unfold login. now destruct (select_user _ _ _). Qed.

Lemma login_failed (hash_password : string -> string) (m : Manager A)
    (username password : string) :
  current_user (fst (fst (login hash_password m username password))) = None ->
  current_user m = None.
Proof. unfold login. now destruct (select_user _ _ _). Qed.





End MethodFrames.
Section MenuFacts.
Context {A : Type} `{Amount A}.
Variable hash_password : string -> string.
Variables strip lower : string -> string.
Variable parse_float : string -> option A.
Variable parse_int : string -> option Z.
Variable writable : string -> bool.

Lemma idle_refl (w : World A) : idle w w.
Proof.
  repeat split; [exists [] | exists []]; [reflexivity | now rewrite app_nil_r].
Qed.

Lemma frame_refl (R : World A -> World A -> Prop) `{!Frame R} (w : World A) : R w w.
Proof. apply frame_idle, idle_refl. Qed.

Section Rules.
Variable R : World A -> World A -> Prop.
Context `{!Frame R}.

Lemma keeps_ret {X : Type} (x : X) : keeps R (ret x).
Proof. intros w. apply frame_refl; assumption. Qed.

Lemma keeps_bind {X Y : Type} (c : io X) (k : X -> io Y) :
  keeps R c -> (forall x, keeps R (k x)) -> keeps R (io_bind c k).
Proof.
  intros Hc Hk w. unfold io_bind. specialize (Hc w).
  destruct (c w) as [w1 [x | e]]; cbn [fst] in *; [| assumption].
  eapply frame_trans; [exact Hc | apply Hk].
Qed.

Lemma keeps_except (body handler : io unit) :
  keeps R body -> keeps R handler -> keeps R (except_value_error body handler).
Proof.
  intros Hb Hh w. unfold except_value_error. specialize (Hb w).
  destruct (body w) as [w1 [x | [|]]]; cbn [fst] in *; try assumption.
  eapply frame_trans; [exact Hb | apply Hh].
Qed.

Lemma keeps_show (l : list (display A)) : keeps R (show l).
Proof.
  intros w. apply frame_idle. repeat split; cbn; [now exists [] | now exists l].
Qed.

Lemma keeps_input (prompt : string) : keeps R (input prompt).
Proof.
  intros w. apply frame_idle. unfold input.
  destruct (keyboard w) as [| typed rest] eqn:Hk; repeat split; cbn.
  - now exists [].
  - now exists [Prompt prompt].
  - now exists [typed].
  - now exists [Prompt prompt].
Qed.

Lemma keeps_raise_unless {X : Type} (o : option X) : keeps R (raise_unless o).
Proof. intros w. destruct o; apply frame_refl; assumption. Qed.

Lemma keeps_ask {X : Type} (method : Manager A -> X * list (line A)) : keeps R (ask method).
Proof.
  intros w. apply frame_idle. unfold ask. destruct (method (manager w)) as [x out].
  repeat split; cbn; [now exists [] | now exists (map Printed out)].
Qed.

Lemma keeps_look_up (name : string) : keeps R (look_up name).
Proof. intros w. apply frame_refl; assumption. Qed.

Lemma keeps_call {X : Type} (method : Manager A -> Manager A * X * list (line A)) :
  allows R (fun m => fst (fst (method m))) -> keeps R (call method).
Proof.
  intros Hm w. unfold call. specialize (Hm w). revert Hm. cbn beta.
  destruct (method (manager w)) as [[m' x] out]. intros Hm. apply Hm.
Qed.

Lemma allows_unchanged : allows R (fun m => m).
Proof.
  intros w shown. apply frame_idle. repeat split; cbn; [now exists [] | now exists shown].
Qed.

Lemma keeps_backup_to_file (now now' : datetime) (backup_file : string) :
  saves R -> keeps R (backup_to_file writable now now' backup_file).
Proof.
  intros Hs w. unfold backup_to_file.
  destruct (backup_data _ _ _ _) as [[[document |] b] out] eqn:Hb.
  - destruct (writable backup_file); cbn [fst].
    + eapply Hs, Hb.
    + apply frame_idle. repeat split; cbn; [now exists [] | now eexists].
  - apply frame_idle. repeat split; cbn; [now exists [] | now eexists].
Qed.

End Rules.

Lemma contained_ret {X : Type} (x : X) : contained (@ret A X x).
Proof. intros w. discriminate. Qed.

Lemma contained_bind {X Y : Type} (c : @io A X) (k : X -> io Y) :
  contained c -> (forall x, contained (k x)) -> contained (io_bind c k).
Proof.
  intros Hc Hk w. unfold io_bind. specialize (Hc w).
  destruct (c w) as [w1 [x | e]]; cbn [snd] in *; [apply Hk |].
  intros [= ->]. now apply Hc.
Qed.

Lemma contained_except (body handler : @io A unit) :
  contained handler -> contained (except_value_error body handler).
Proof.
  intros Hh w. unfold except_value_error.
  destruct (body w) as [w1 [x | [|]]]; cbn [snd]; [discriminate | apply Hh | discriminate].
Qed.

Lemma contained_show (l : list (display A)) : contained (show l).
Proof. intros w. discriminate. Qed.

Lemma contained_input (prompt : string) : contained (@input A prompt).
Proof. intros w. unfold input. destruct (keyboard w); discriminate. Qed.

Lemma contained_ask {X : Type} (method : Manager A -> X * list (line A)) :
  contained (ask method).
Proof. intros w. unfold ask. destruct (method _). discriminate. Qed.

Lemma contained_look_up (name : string) : contained (@look_up A name).
Proof. intros w. discriminate. Qed.

Lemma contained_call {X : Type} (method : Manager A -> Manager A * X * list (line A)) :
  contained (call method).
Proof. intros w. unfold call. destruct (method _) as [[m' x] out]. discriminate. Qed.

Lemma contained_backup_to_file (now now' : datetime) (backup_file : string) :
  contained (@backup_to_file A writable now now' backup_file).
Proof.
  intros w. unfold backup_to_file.
  destruct (backup_data _ _ _ _) as [[[document |] b] out]; [| discriminate].
  destruct (writable backup_file); discriminate.
Qed.

Lemma starved_ret {X : Type} (x : X) : starved (@ret A X x).
Proof. intros w. discriminate. Qed.

Lemma starved_bind {X Y : Type} (c : @io A X) (k : X -> io Y) :
  starved c -> (forall x, starved (k x)) -> starved (io_bind c k).
Proof.
  intros Hc Hk w. unfold io_bind. specialize (Hc w).
  destruct (c w) as [w1 [x | e]]; cbn [fst snd] in *; [apply Hk |].
  intros [= ->]. now apply Hc.
Qed.

Lemma starved_except (body handler : @io A unit) :
  starved body -> starved handler -> starved (except_value_error body handler).
Proof.
  intros Hb Hh w. unfold except_value_error. specialize (Hb w).
  destruct (body w) as [w1 [x | [|]]]; cbn [fst snd] in *;
    [discriminate | apply Hh | assumption].
Qed.

Lemma starved_show (l : list (display A)) : starved (show l).
Proof. intros w. discriminate. Qed.

Lemma starved_input (prompt : string) : starved (@input A prompt).
Proof.
  intros w. unfold input. destruct (keyboard w); [reflexivity | discriminate].
Qed.

Lemma starved_raise_unless {X : Type} (o : option X) : starved (@raise_unless A X o).
Proof. intros w. destruct o; discriminate. Qed.

Lemma starved_ask {X : Type} (method : Manager A -> X * list (line A)) : starved (ask method).
Proof. intros w. unfold ask. destruct (method _). discriminate. Qed.

Lemma starved_look_up (name : string) : starved (@look_up A name).
Proof. intros w. discriminate. Qed.

Lemma starved_call {X : Type} (method : Manager A -> Manager A * X * list (line A)) :
  starved (call method).
Proof. intros w. unfold call. destruct (method _) as [[m' x] out]. discriminate. Qed.

Lemma starved_backup_to_file (now now' : datetime) (backup_file : string) :
  starved (@backup_to_file A writable now now' backup_file).
Proof.
  intros w. unfold backup_to_file.
  destruct (backup_data _ _ _ _) as [[[document |] b] out]; [| discriminate].
  destruct (writable backup_file); discriminate.
Qed.

Lemma goes_on_bind {X : Type} (c : @io A X) (k : X -> io bool) :
  (forall x, goes_on (k x)) -> goes_on (io_bind c k).
Proof.
  intros Hk w. unfold io_bind.
  destruct (c w) as [w1 [x | e]]; cbn [snd]; [apply Hk | discriminate].
Qed.

Lemma goes_on_ret : goes_on (@ret A bool true).
Proof. intros w. discriminate. Qed.

(** Walks down a dialog along its binds, handlers and tests. *)
Ltac walk :=
  repeat match goal with
  | |- keeps _ (io_bind _ _) => apply keeps_bind; try exact _; [| intros ?]
  | |- keeps _ (except_value_error _ _) => apply keeps_except; try exact _
  | |- keeps _ (show _) => apply keeps_show; exact _
  | |- keeps _ (input _) => apply keeps_input; exact _
  | |- keeps _ (ret _) => apply keeps_ret; exact _
  | |- keeps _ (raise_unless _) => apply keeps_raise_unless; exact _
  | |- keeps _ (ask _) => apply keeps_ask; exact _
  | |- keeps _ (look_up _) => apply keeps_look_up; exact _
  | |- keeps _ (call _) => apply keeps_call; try exact _
  | |- keeps _ (backup_to_file _ _ _ _) => apply keeps_backup_to_file; try exact _
  | |- contained (io_bind _ _) => apply contained_bind; [| intros ?]
  | |- contained (except_value_error _ _) => apply contained_except
  | |- contained (show _) => apply contained_show
  | |- contained (input _) => apply contained_input
  | |- contained (ret _) => apply contained_ret
  | |- contained (ask _) => apply contained_ask
  | |- contained (look_up _) => apply contained_look_up
  | |- contained (call _) => apply contained_call
  | |- contained (backup_to_file _ _ _ _) => apply contained_backup_to_file
  | |- starved (io_bind _ _) => apply starved_bind; [| intros ?]
  | |- starved (except_value_error _ _) => apply starved_except
  | |- starved (show _) => apply starved_show
  | |- starved (input _) => apply starved_input
  | |- starved (ret _) => apply starved_ret
  | |- starved (raise_unless _) => apply starved_raise_unless
  | |- starved (ask _) => apply starved_ask
  | |- starved (look_up _) => apply starved_look_up
  | |- starved (call _) => apply starved_call
  | |- starved (backup_to_file _ _ _ _) => apply starved_backup_to_file
  | |- goes_on (io_bind _ _) => apply goes_on_bind; intros ?
  | |- goes_on (ret true) => apply goes_on_ret
  | |- _ (match ?x with _ => _ end) => destruct x
  | |- _ _ (match ?x with _ => _ end) => destruct x
  end.


Section Dialogs.
Variable R : World A -> World A -> Prop.
Context `{!Frame R}.

Lemma add_dialog_keeps (r : readings) (kind ask_amount : string) :
  (forall now now' amount category description,
     allows R (fun m => state_after m
                          (AddTransaction now now' kind amount category description))) ->
  keeps R (add_dialog strip parse_float r kind ask_amount).
Proof.
  intros Hcall. unfold add_dialog. walk.
  intros w shown. cbn beta. rewrite state_after_add. apply Hcall.
Qed.

Lemma view_dialog_keeps : keeps R (view_dialog strip lower).
Proof. unfold view_dialog. walk. Qed.

Lemma update_dialog_keeps :
  (forall transaction_id amount category description,
     allows R (fun m => state_after m
                          (UpdateTransaction transaction_id amount category description))) ->
  keeps R (update_dialog strip parse_float parse_int).
Proof.
  intros Hcall. unfold update_dialog. walk.
  intros w shown. cbn beta.
  match goal with
  | |- context [update_transaction_of_int ?m ?t ?a ?c ?d] =>
      destruct (update_transaction_of_int_cases m t a c d) as [-> | ->]
  end; [apply Hcall | apply (allows_unchanged R)].
Qed.

Lemma delete_dialog_keeps :
  (forall transaction_id, allows R (fun m => state_after m (DeleteTransaction transaction_id))) ->
  keeps R (delete_dialog parse_int).
Proof.
  intros Hcall. unfold delete_dialog. walk.
  intros w shown. cbn beta.
  match goal with
  | |- context [delete_transaction_of_int ?m ?t] =>
      destruct (delete_transaction_of_int_cases m t) as [-> | ->]
  end; [apply Hcall | apply (allows_unchanged R)].
Qed.

Lemma report_dialog_keeps (r : readings) : keeps R (report_dialog strip lower r).
Proof. unfold report_dialog. walk. Qed.

Lemma budget_dialog_keeps (r : readings) :
  (forall now category amount, allows R (fun m => state_after m (SetBudget now category amount))) ->
  keeps R (budget_dialog strip parse_float r).
Proof.
  intros Hcall. unfold budget_dialog. walk.
  intros w shown. cbn beta. rewrite state_after_set_budget. apply Hcall.
Qed.

Lemma budgets_dialog_keeps (r : readings) : keeps R (budgets_dialog r).
Proof. unfold budgets_dialog. walk. Qed.

Lemma backup_dialog_keeps (r : readings) :
  saves R -> keeps R (backup_dialog strip writable r).
Proof. intros Hs. unfold backup_dialog. walk; assumption. Qed.

Lemma restore_dialog_keeps (r : readings) :
  (forall now file, allows R (fun m => state_after m (RestoreData now file))) ->
  keeps R (restore_dialog strip r).
Proof.
  intros Hcall. unfold restore_dialog. walk.
  intros w shown. cbn beta. rewrite state_after_restore. apply Hcall.
Qed.

(** Which method each choice can call. *)
Lemma branch_calls (r : readings) (choice : string) :
  (choice = "1" ->
   forall username password,
     allows R (fun m => fst (fst (register_user hash_password m username password)))) ->
  (choice = "2" ->
   forall username password,
     allows R (fun m => fst (fst (login hash_password m username password)))) ->
  (choice = "3" ->
   forall now now' amount category description,
     allows R (fun m => state_after m
                          (AddTransaction now now' "income" amount category description))) ->
  (choice = "4" ->
   forall now now' amount category description,
     allows R (fun m => state_after m
                          (AddTransaction now now' "expense" amount category description))) ->
  (choice = "6" ->
   forall transaction_id amount category description,
     allows R (fun m => state_after m
                          (UpdateTransaction transaction_id amount category description))) ->
  (choice = "7" ->
   forall transaction_id, allows R (fun m => state_after m (DeleteTransaction transaction_id))) ->
  (choice = "9" ->
   forall now category amount,
     allows R (fun m => state_after m (SetBudget now category amount))) ->
  (choice = "11" -> saves R) ->
  (choice = "12" ->
   forall now file, allows R (fun m => state_after m (RestoreData now file))) ->
  keeps R (branch hash_password strip lower parse_float parse_int writable r choice).
Proof.
  intros H1 H2 H3 H4 H6 H7 H9 H11 H12. unfold branch.
  repeat match goal with
  | |- keeps _ (if String.eqb ?a ?b then _ else _) => destruct (String.eqb_spec a b)
  end; walk;
    first [ now apply H1 | now apply H2
          | apply add_dialog_keeps; auto | now apply view_dialog_keeps
          | apply update_dialog_keeps; auto
          | apply delete_dialog_keeps; auto
          | now apply report_dialog_keeps
          | apply budget_dialog_keeps; auto
          | now apply budgets_dialog_keeps
          | apply backup_dialog_keeps; auto
          | apply restore_dialog_keeps; auto ].
Qed.

(** One pass changes the world as the methods do. *)
Lemma branch_keeps (r : readings) (choice : string) :
  (forall username password,
     allows R (fun m => fst (fst (register_user hash_password m username password)))) ->
  (forall username password,
     allows R (fun m => fst (fst (login hash_password m username password)))) ->
  (forall c, allows R (fun m => state_after m c)) ->
  saves R ->
  keeps R (branch hash_password strip lower parse_float parse_int writable r choice).
Proof.
  intros Hreg Hlog Hexec Hsaves. apply branch_calls; intros; auto using Hexec.
Qed.

Lemma pass_keeps (r : readings) :
  (forall username password,
     allows R (fun m => fst (fst (register_user hash_password m username password)))) ->
  (forall username password,
     allows R (fun m => fst (fst (login hash_password m username password)))) ->
  (forall c, allows R (fun m => state_after m c)) ->
  saves R ->
  keeps R (pass hash_password strip lower parse_float parse_int writable r).
Proof.
  intros Hreg Hlog Hexec Hsaves. unfold pass. walk. now apply branch_keeps.
Qed.

End Dialogs.


Lemma branch_contained (r : readings) (choice : string) :
  contained (branch hash_password strip lower parse_float parse_int writable r choice).
Proof.
  unfold branch, add_dialog, view_dialog, update_dialog, delete_dialog, report_dialog,
    budget_dialog, budgets_dialog, backup_dialog, restore_dialog.
  walk.
Qed.

Lemma branch_starved (r : readings) (choice : string) :
  starved (branch hash_password strip lower parse_float parse_int writable r choice).
Proof.
  unfold branch, add_dialog, view_dialog, update_dialog, delete_dialog, report_dialog,
    budget_dialog, budgets_dialog, backup_dialog, restore_dialog.
  walk.
Qed.

Lemma branch_goes_on (r : readings) (choice : string) :
  choice <> "13" ->
  goes_on (branch hash_password strip lower parse_float parse_int writable r choice).
Proof.
  intros Hc. unfold branch.
  repeat match goal with
  | |- goes_on (if String.eqb ?a ?b then _ else _) => destruct (String.eqb_spec a b)
  end; try contradiction; walk.
Qed.


Lemma pass_eq (r : readings) (w : World A) :
  pass hash_password strip lower parse_float parse_int writable r w
  = match keyboard w with
    | [] =>
        (mkWorld (manager w) []
           ((screen w ++ [Menu]) ++ [Prompt "Enter your choice (1-13): "]) (files w),
         Raise EOFError)
    | typed :: rest =>
        branch hash_password strip lower parse_float parse_int writable r (strip typed)
          (mkWorld (manager w) rest
             ((screen w ++ [Menu]) ++ [Prompt "Enter your choice (1-13): "]) (files w))
    end.
Proof.
  unfold pass, io_bind, show, input. cbn [keyboard manager screen files].
  now destruct (keyboard w).
Qed.

#[local] Instance consumes_frame : Frame (@consumes A).
Proof.
  split.
  - intros w1 w2 w3 [k1 H1] [k2 H2]. exists (k1 ++ k2). now rewrite H1, H2, app_assoc.
  - intros w w' (_ & _ & Hk & _). exact Hk.
Qed.

#[local] Instance preserves_frame (I : Manager A -> Prop) : Frame (preserves I).
Proof.
  split.
  - intros w1 w2 w3 H1 H2 Hi. auto.
  - intros w w' (Hm & _) Hi. now rewrite Hm.
Qed.

#[local] Instance same_frame {X : Type} (part : Manager A -> X) : Frame (same part).
Proof.
  split.
  - intros w1 w2 w3 H1 H2. unfold same in *. congruence.
  - intros w w' (Hm & _). unfold same. now rewrite Hm.
Qed.

#[local] Instance same_files_frame : Frame (@same_files A).
Proof.
  split.
  - intros w1 w2 w3 H1 H2. unfold same_files in *. congruence.
  - intros w w' (_ & Hf & _). exact Hf.
Qed.

#[local] Instance untouched_frame : Frame (@untouched_unless_logged_in A).
Proof.
  split.
  - intros w1 w2 w3 H1 H2 Hout. destruct (H2 Hout) as (Hout2 & Ht2 & Hb2 & Hf2).
    destruct (H1 Hout2) as (Hout1 & Ht1 & Hb1 & Hf1). repeat split; congruence.
  - intros w w' (Hm & Hf & _) Hout. rewrite Hm in *. now repeat split.
Qed.

Lemma consumes_calls (change : Manager A -> Manager A) : allows consumes change.
Proof. intros w shown. now exists []. Qed.

Lemma consumes_saves : saves (@consumes A).
Proof. intros w now now' file document b out shown _. now exists []. Qed.

(** What one pass reads and how it can end. *)
Lemma pass_outcome (r : readings) (w : World A) :
  match snd (pass hash_password strip lower parse_float parse_int writable r w) with
  | Ok b =>
      exists typed read,
        keyboard w
        = typed :: read
            ++ keyboard (fst (pass hash_password strip lower parse_float parse_int writable r w))
        /\ (b = false -> strip typed = "13")
  | Raise EOFError =>
      keyboard (fst (pass hash_password strip lower parse_float parse_int writable r w)) = []
  | Raise ValueError => False
  end.
Proof.
  rewrite pass_eq. destruct (keyboard w) as [| typed rest]; [reflexivity |].
  set (w1 := mkWorld _ _ _ _).
  pose proof (branch_keeps consumes r (strip typed)
                (fun _ _ => consumes_calls _) (fun _ _ => consumes_calls _)
                (fun _ => consumes_calls _) consumes_saves w1) as [read Hread].
  pose proof (branch_contained r (strip typed) w1) as Hcontained.
  pose proof (branch_starved r (strip typed) w1) as Hstarved.
  pose proof (branch_goes_on r (strip typed)) as Hgoes.
  destruct (branch _ _ _ _ _ _ _ _ w1) as [w' [b | [|]]] eqn:Hbranch; cbn [fst snd] in *.
  - exists typed, read. split; [now rewrite <- Hread |].
    intros ->. destruct (String.eqb_spec (strip typed) "13") as [| Hne]; [assumption |].
    specialize (Hgoes Hne w1). rewrite Hbranch in Hgoes. now contradiction Hgoes.
  - now contradiction Hcontained.
  - now apply Hstarved.
Qed.

(** The loop ends: at choice 13, or with [EOFError] when the typed
    lines run out. *)
Lemma main_loop_ends (clock : nat -> readings) (passes n : nat) (w : World A) :
  (List.length (keyboard w) < passes)%nat ->
  (snd (main_loop hash_password strip lower parse_float parse_int writable clock passes n w)
   = Exited
   /\ exists s, In s (keyboard w) /\ strip s = "13")
  \/ (snd (main_loop hash_password strip lower parse_float parse_int writable clock passes n w)
      = Raised EOFError
      /\ keyboard
           (fst (main_loop hash_password strip lower parse_float parse_int writable clock
                   passes n w))
         = []).
Proof.
  revert n w. induction passes as [| passes IH]; intros n w Hlt; [lia |].
  cbn [main_loop]. pose proof (pass_outcome (clock n) w) as Hpass.
  destruct (pass _ _ _ _ _ _ (clock n) w) as [w' [[|] | [|]]]; cbn [fst snd] in *.
  - destruct Hpass as (typed & read & Hk & _).
    assert (Hlt' : (List.length (keyboard w') < passes)%nat).
    { rewrite Hk in Hlt. cbn [List.length] in Hlt. rewrite length_app in Hlt. lia. }
    destruct (IH (S n) w' Hlt') as [(He & s & Hin & Hs) | Hr]; [left | now right].
    split; [exact He |]. exists s. split; [| exact Hs].
    rewrite Hk. right. apply in_or_app. now right.
  - destruct Hpass as (typed & read & Hk & H13). left. split; [reflexivity |].
    exists typed. split; [rewrite Hk; now left | now apply H13].
  - contradiction.
  - now right.
Qed.

(** A relation kept by every branch a typed line can select is kept
    by the loop. *)
Lemma main_loop_keeps (R : World A -> World A -> Prop) `{!Frame R} (allowed : string -> Prop)
    (clock : nat -> readings) (passes n : nat) (w : World A) :
  (forall r choice, allowed choice ->
     keeps R (branch hash_password strip lower parse_float parse_int writable r choice)) ->
  (forall s, In s (keyboard w) -> allowed (strip s)) ->
  R w (fst (main_loop hash_password strip lower parse_float parse_int writable clock passes n w)).
Proof.
  intros Hbranch. revert n w. induction passes as [| passes IH]; intros n w Hin.
  - apply frame_refl; assumption.
  - cbn [main_loop]. pose proof (pass_outcome (clock n) w) as Hpass.
    assert (Hstep : R w (fst (pass hash_password strip lower parse_float parse_int writable
                                (clock n) w))).
    { rewrite pass_eq. destruct (keyboard w) as [| typed rest] eqn:Hk.
      - apply frame_idle. repeat split; cbn; [now exists [] | rewrite <- app_assoc; now eexists].
      - eapply frame_trans; [| apply Hbranch, Hin; now left].
        apply frame_idle. repeat split; cbn.
        + exists [typed]. now rewrite Hk.
        + rewrite <- app_assoc. now eexists. }
    destruct (pass _ _ _ _ _ _ (clock n) w) as [w' [[|] | e]]; cbn [fst snd] in *;
      try exact Hstep.
    destruct Hpass as (typed & read & Hk & _).
    eapply frame_trans; [exact Hstep |]. apply IH. intros s Hs. apply Hin.
    rewrite Hk. right. apply in_or_app. now right.
Qed.


(** Once the loop has ended, more passes change nothing. *)
Lemma main_loop_stable (clock : nat -> readings) (passes more n : nat) (w : World A) :
  snd (main_loop hash_password strip lower parse_float parse_int writable clock passes n w)
  <> StillRunning ->
  main_loop hash_password strip lower parse_float parse_int writable clock (passes + more) n w
  = main_loop hash_password strip lower parse_float parse_int writable clock passes n w.
Proof.
  revert n w. induction passes as [| passes IH]; intros n w Hended.
  - now contradiction Hended.
  - cbn [main_loop Nat.add] in *.
    destruct (pass _ _ _ _ _ _ (clock n) w) as [w' [[|] | e]]; try reflexivity.
    now apply IH.
Qed.

(** The world after some passes is related to the world after more. *)
Lemma main_loop_prefix (R : World A -> World A -> Prop) `{!Frame R}
    (clock : nat -> readings) (passes more n : nat) (w : World A) :
  (forall r choice,
     keeps R (branch hash_password strip lower parse_float parse_int writable r choice)) ->
  R (fst (main_loop hash_password strip lower parse_float parse_int writable clock passes n w))
    (fst (main_loop hash_password strip lower parse_float parse_int writable clock
            (passes + more) n w)).
Proof.
  intros Hbranch. revert n w. induction passes as [| passes IH]; intros n w.
  - cbn [main_loop Nat.add fst].
    apply (main_loop_keeps R (fun _ => True)); [intros; apply Hbranch | auto].
  - cbn [main_loop Nat.add].
    destruct (pass _ _ _ _ _ _ (clock n) w) as [w' [[|] | e]];
      try (apply frame_refl; assumption).
    apply IH.
Qed.

(** What a choice other than the one named leaves alone. *)
Lemma branch_same_user (r : readings) (choice : string) :
  choice <> "2" ->
  keeps (same (@current_user A))
    (branch hash_password strip lower parse_float parse_int writable r choice).
Proof.
  intros Hc. apply branch_calls; try exact _; intros; try contradiction;
    intros w shown; unfold same; cbn [manager];
    first [ apply exec_current_user | apply register_user_frame | reflexivity ].
Qed.





(** With nobody logged in afterwards, nobody was logged in before and
    a step has changed neither transactions, budgets nor files. *)
Lemma branch_untouched (r : readings) (choice : string) :
  keeps untouched_unless_logged_in
    (branch hash_password strip lower parse_float parse_int writable r choice).
Proof.
  apply branch_keeps; try exact _.
  - intros username password w shown Hout. cbn [manager files] in *.
    destruct (register_user_frame hash_password (manager w) username password)
      as (Hu & Ht & Hb).
    rewrite Hu in Hout. now repeat split.
  - intros username password w shown Hout. cbn [manager files] in *.
    rewrite login_db. apply login_failed in Hout. now repeat split.
  - intros c w shown Hout. cbn [manager files] in *.
    rewrite exec_current_user in Hout.
    rewrite exec_refused; [now repeat split |]. unfold logged_in. now rewrite Hout.
  - intros w now now' file document b out shown Hdoc Hout. cbn [manager] in Hout.
    unfold backup_data, logged_in in Hdoc. rewrite Hout in Hdoc. discriminate.
Qed.


(** A whole run of [main] on a database that meets the constraints of
    the schema leaves a database that meets them. *)
Theorem main_consistent (clock : nat -> readings) (d : Database A) (typed : list string)
    (disk : string -> option (option (BackupDoc A))) :
  consistent d ->
  consistent
    (db (manager
           (fst (main hash_password strip lower parse_float parse_int writable clock d typed
                   disk)))).
Proof.
  intros Hd. unfold main.
  apply (main_loop_keeps (preserves (fun m => consistent (db m))) (fun _ => True));
    [| auto | exact Hd].
  intros r choice _. apply branch_keeps; try exact _.
  - intros username password w shown Hc. now apply register_user_consistent.
  - intros username password w shown Hc. cbn [manager]. now rewrite login_db.
  - intros c w shown Hc. now apply exec_consistent.
  - intros w now now' file document b out shown _ Hc. exact Hc.
Qed.

(** Started on an empty database, [main] only reaches managers that a
    sequence of calls of [register_user], [login] and the data methods
    reaches. *)
Theorem main_reachable (clock : nat -> readings) (typed : list string)
    (disk : string -> option (option (BackupDoc A))) :
  reachable hash_password
    (manager
       (fst (main hash_password strip lower parse_float parse_int writable clock
               empty_database typed disk))).
Proof.
  unfold main.
  apply (main_loop_keeps (preserves (reachable hash_password)) (fun _ => True));
    [| auto | apply reach_start].
  intros r choice _. apply branch_keeps; try exact _.
  - intros username password w shown Hr. now apply reach_register.
  - intros username password w shown Hr. now apply reach_login.
  - intros c w shown Hr. now apply reach_exec.
  - intros w now now' file document b out shown _ Hr. exact Hr.
Qed.

(** As long as nobody is logged in, the program changes no
    transaction, no budget and no backup file: when a run of [main] ends
    with nobody logged in, then nobody was logged in after any number of
    passes of the loop, and transactions, budgets and files are those the
    run started with. *)
Theorem main_untouched_before_login (clock : nat -> readings) (d : Database A)
    (typed : list string) (disk : string -> option (option (BackupDoc A))) :
  current_user
    (manager
       (fst (main hash_password strip lower parse_float parse_int writable clock d typed disk)))
  = None ->
  (forall passes,
     current_user
       (manager
          (fst (main_loop hash_password strip lower parse_float parse_int writable clock
                  passes 0 (mkWorld (mkManager d None) typed [] disk))))
     = None)
  /\ transactions
       (db (manager
              (fst (main hash_password strip lower parse_float parse_int writable clock d typed
                      disk))))
     = transactions d
  /\ budgets
       (db (manager
              (fst (main hash_password strip lower parse_float parse_int writable clock d typed
                      disk))))
     = budgets d
  /\ files
       (fst (main hash_password strip lower parse_float parse_int writable clock d typed disk))
     = disk.
Proof.
  intros Hout. unfold main in *.
  set (w0 := mkWorld (mkManager d None) typed [] disk) in *.
  set (fuel := S (List.length typed)) in *.
  split.
  - intros passes. destruct (Nat.le_gt_cases passes fuel) as [Hle | Hgt].
    + pose proof (main_loop_prefix untouched_unless_logged_in clock passes (fuel - passes) 0 w0
                    (fun r choice => branch_untouched r choice)) as Hrel.
      replace (passes + (fuel - passes))%nat with fuel in Hrel by lia.
      now destruct (Hrel Hout) as (Hnone & _).
    + replace passes with (fuel + (passes - fuel))%nat by lia.
      rewrite main_loop_stable; [exact Hout |].
      destruct (main_loop_ends clock fuel 0 w0) as [[He _] | [He _]];
        [unfold fuel, w0; cbn [keyboard]; lia | |]; rewrite He; discriminate.
  - pose proof (main_loop_keeps untouched_unless_logged_in (fun _ => True) clock fuel 0 w0
                  (fun r choice _ => branch_untouched r choice) (fun _ _ => I) Hout)
      as (_ & Ht & Hb & Hf).
    now repeat split.
Qed.

(** Only choice 2 logs in: when no typed line reads 2, a run of
    [main] ends with nobody logged in. *)
Theorem login_only_by_choice_2 (clock : nat -> readings) (d : Database A)
    (typed : list string) (disk : string -> option (option (BackupDoc A))) :
  (forall s, In s typed -> strip s <> "2") ->
  current_user
    (manager
       (fst (main hash_password strip lower parse_float parse_int writable clock d typed disk)))
  = None.
Proof.
  intros Hno. unfold main.
  apply (main_loop_keeps (same (@current_user A)) (fun choice => choice <> "2") clock
           (S (List.length typed)) 0 (mkWorld (mkManager d None) typed [] disk)).
  - intros r choice. apply branch_same_user.
  - exact Hno.
Qed.






#[local] Instance strangers_frame (a : Z) : Frame (@strangers_kept A a).
Proof.
  split.
  - intros w1 w2 w3 H1 H2 Ha. destruct (H1 Ha) as (Ha2 & Ht1 & Hb1).
    destruct (H2 Ha2) as (Ha3 & Ht2 & Hb2). repeat split; congruence.
  - intros w w' (Hm & _) Ha. rewrite Hm. now repeat split.
Qed.



(** A number that [float] or [int] refuses, typed first under choice
    3, 4, 6 or 7, reaches no method: the pass reads the two lines, prints
    the complaint of the choice and goes on, with the manager and the
    files as they were. *)
Theorem bad_number_changes_nothing (r : readings) (w : World A) (choice typed : string)
    (rest : list string) :
  keyboard w = choice :: typed :: rest ->
  ((strip choice = "3" \/ strip choice = "4") /\ parse_float typed = None)
  \/ ((strip choice = "6" \/ strip choice = "7") /\ parse_int typed = None) ->
  exists asked,
    pass hash_password strip lower parse_float parse_int writable r w
    = (mkWorld (manager w) rest
         (screen w ++ [Menu; Prompt "Enter your choice (1-13): "; Prompt asked;
                       Say (complaint (strip choice))])
         (files w),
       Ok true).
Proof.
  intros Hk Hbad. rewrite pass_eq, Hk. unfold branch.
  destruct Hbad as [[[Hc | Hc] Hp] | [[Hc | Hc] Hp]]; rewrite Hc;
    cbn [String.eqb Ascii.eqb Bool.eqb andb complaint];
    unfold add_dialog, update_dialog, delete_dialog, except_value_error, io_bind, input,
      raise_unless, show, ret;
    cbn [keyboard manager screen files]; rewrite Hp;
    cbn [keyboard manager screen files]; rewrite <- !app_assoc; eexists; reflexivity.
Qed.

End MenuFacts.

(** ** The theorems at concrete ledgers *)

(** User 1 adds an expense of 60 for food to an empty ledger. *)
Lemma add_transaction_then_query_witness :
  logged_in fresh_session = Some 1
  /\ exists (m' : Manager float) (id : Z) (warning : list (line float)),
       add_transaction fresh_session nov3 nov3 "expense" 60%float "food" "lunch"
       = (m', true, Text "Transaction added successfully!" :: warning)
       /\ (warning = []
           \/ exists budget spent,
                warning = [BudgetWarning "food"; BudgetFigures budget spent])
       /\ Permutation (fst (get_transactions m' None None None None))
            (mkTransDict id "expense" 60%float "food" "lunch" (strftime_datetime nov3)
               :: fst (get_transactions fresh_session None None None None))
       /\ List.length (fst (get_transactions m' None None None None))
          = S (List.length (fst (get_transactions fresh_session None None None None))).
Proof.
  split; [reflexivity |].
  exact (proj2 (proj2 (add_transaction_then_query fresh_session 1 nov3 nov3 "expense"
                         60%float "food" "lunch" eq_refl)) eq_refl eq_refl).
Defined.

(** User 1 of the food ledger, who holds transactions 1 and 2, asks for
    an update of transaction 7, which nobody holds. *)
Lemma update_transaction_frame_and_errors_witness :
  logged_in (food_scenario nov2) = Some 1 /\ sqlite_integer 7 = true
  /\ update_transaction_of_int (food_scenario nov2) 7 (Some 5%float) None None
     = (food_scenario nov2, false,
        [Text "Transaction not found or you don't have permission to update it."]).
Proof.
  split; [reflexivity |]. split; [reflexivity |].
  refine (proj1 (proj2 (proj2 (proj2 (proj2
            (update_transaction_frame_and_errors (food_scenario nov2) 1 7
               (Some 5%float) None None eq_refl))))) _ eq_refl eq_refl _).
  - intros [Hamount _]. discriminate Hamount.
  - intros t [<- | [<- | []]]; cbn; intros Hid; discriminate Hid.
Defined.

(** C6 as stated fails for an id that does not exist because it is
    outside the signed 64-bit range: asked to update transaction 2^63,
    which no row holds, the method does not answer not-found; it prints
    its error line. *)
Lemma update_of_unbindable_id :
  logged_in (food_scenario nov2) = Some 1
  /\ existsb (fun t => t_id t =? 2 ^ 63) (transactions (db (food_scenario nov2))) = false
  /\ update_transaction_of_int (food_scenario nov2) (2 ^ 63) None (Some "groceries") None
     = (food_scenario nov2, false, [Failure "Error updating transaction"]).
Proof. split; [reflexivity |]. split; reflexivity. Qed.

(** The monthly report of [whole_ledger] on November 3rd. *)
Lemma generate_report_range_witness :
  logged_in whole_ledger = Some 1
  /\ generate_report whole_ledger nov3 "monthly" = (Some whole_report, []).
Proof.
  split; [reflexivity |].
  exact (proj1 (proj2 (proj2 (generate_report_range whole_ledger 1 nov3 "monthly" eq_refl)))
           eq_refl).
Defined.

(** User 1 restores [good_document] over [shared_ledger]. *)
Lemma restore_data_replaces_witness :
  logged_in shared_ledger = Some 1 /\ valid_document good_document = true
  /\ exists m' : Manager Z,
       restore_data shared_ledger nov3 (Some good_document)
       = (m', true, [Text "Data restored successfully!"])
       /\ map transaction_fields (filter (owned_by 1) (transactions (db m')))
          = [("income", 500, "pay", "october", "2026-10-01 09:00:00");
             ("expense", 15, "food", "", "2026-09-30 19:00:00")]
       /\ map budget_fields (filter (budget_of 1) (budgets (db m')))
          = [("food", 120, 11, 2026); ("rent", 700, 11, 2026)]
       /\ filter (fun t => negb (owned_by 1 t)) (transactions (db m'))
          = [mkTransaction 2 2 "income" 900 "pay" "" "2026-11-01 11:00:00"].
Proof.
  assert (Hvalid : valid_document good_document = true) by reflexivity.
  split; [reflexivity |]. split; [exact Hvalid |].
  destruct (proj1 (proj2 (restore_data_replaces shared_ledger 1 nov3 good_document eq_refl))
              eq_refl Hvalid)
    as (m' & Hrun & _ & _ & Htx & Hb & Hothers & _).
  exists m'. split; [exact Hrun |]. split; [exact Htx |]. split; [exact Hb | exact Hothers].
Defined.

(** C5 as stated fails: [transfer_document] names the logged-in user,
    yet [restore_data] fails on the [CHECK] of the type column, and the
    two transactions and the budget of the user stay in place. *)
Lemma restore_refuses_invalid_document :
  logged_in (food_scenario nov2) = Some 1
  /\ bk_user_id transfer_document = 1
  /\ restore_data (food_scenario nov2) nov3 (Some transfer_document)
     = (food_scenario nov2, false, [Failure "Error restoring data"])
  /\ map transaction_fields (transactions (db (food_scenario nov2)))
     = [("expense", 60%float, "food", "", "2026-11-02 09:30:00");
        ("expense", 50%float, "food", "", "2026-11-02 09:30:00")]
  /\ map dict_fields (bk_transactions transfer_document)
     = [("transfer", 5%float, "misc", "", "2026-10-01 09:00:00")].
Proof. repeat split. Qed.

(** Likewise for two budgets of one category, which meet the [UNIQUE]
    constraint of the budgets table. *)
Lemma restore_refuses_repeated_budget :
  bk_user_id twice_food_document = 1
  /\ restore_data shared_ledger nov3 (Some twice_food_document)
     = (shared_ledger, false, [Failure "Error restoring data"]).
Proof. repeat split. Qed.



(** The session of ann is reachable, so its database is consistent. *)
Lemma reachable_consistent_witness :
  reachable plain_digest ann_session /\ consistent (db ann_session).
Proof.
  assert (Hreach : reachable plain_digest ann_session).
  { unfold ann_session, ann_logged_in, ann_registered.
    apply reach_exec, reach_exec, reach_login, reach_register, reach_start. }
  split; [exact Hreach |]. exact (reachable_consistent plain_digest ann_session Hreach).
Defined.

(** User 1 deletes transaction 1 of [shared_ledger], twice. *)
Lemma delete_transaction_twice_witness :
  logged_in shared_ledger = Some 1
  /\ exists m' : Manager Z,
       delete_transaction shared_ledger 1
       = (m', true, [Text "Transaction deleted successfully!"])
       /\ transactions (db m')
          = [mkTransaction 2 2 "income" 900 "pay" "" "2026-11-01 11:00:00"]
       /\ delete_transaction m' 1
          = (m', false,
             [Text "Transaction not found or you don't have permission to delete it."]).
Proof.
  split; [reflexivity |].
  destruct (delete_transaction_twice shared_ledger 1
              (mkTransaction 1 1 "expense" 30 "food" "" "2026-11-01 10:00:00")
              eq_refl (or_introl eq_refl) eq_refl)
    as (m' & Hrun & Hrows & _ & _ & Hagain).
  exists m'. split; [exact Hrun |]. split; [exact Hrows | exact Hagain].
Defined.

(** ann registers on an empty database and logs in. *)
Lemma register_then_login_witness :
  exists m1 : Manager Z,
    register_user plain_digest (mkManager empty_database None) "ann" "pw"
    = (m1, true, [Text "Registration successful!"])
    /\ register_user plain_digest m1 "ann" "px"
       = (m1, false, [Text "Username already exists. Please choose a different one."])
    /\ login plain_digest m1 "ann" "pw" = (mkManager (db m1) (Some 1), true, [Welcome "ann"])
    /\ login plain_digest m1 "ann" "px" = (m1, false, [Text "Invalid username or password."]).
Proof.
  destruct (register_then_login plain_digest (mkManager (@empty_database Z) None)
              "ann" "pw" "px")
    as (m1 & Hreg & Hdup & Hlogin & Hwrong); try discriminate.
  { intros x []. }
  exists m1. split; [exact Hreg |]. split; [exact Hdup |]. split; [exact Hlogin |].
  apply Hwrong. discriminate.
Defined.

(** The expense ann adds on November 3rd does not move the amount spent
    that a check of November 3rd computes. *)
Lemma added_today_not_counted_witness :
  logged_in ann_logged_in = Some 1
  /\ spent_this_month ann_session 1 nov3 "food" = spent_this_month ann_logged_in 1 nov3 "food".
Proof.
  split; [reflexivity |].
  exact (added_today_not_counted
           (state_after ann_logged_in (SetBudget nov3 "food" 100)) 1 nov3 nov3
           "expense" 60 "food" "lunch" "food" eq_refl).
Defined.

(** User 1 renames the category of transaction 1 of [shared_ledger]. *)
Lemma update_transaction_applies_witness :
  logged_in shared_ledger = Some 1
  /\ exists m' : Manager Z,
       update_transaction shared_ledger 1 None (Some "groceries") None
       = (m', true, [Text "Transaction updated successfully!"])
       /\ transactions (db m')
          = [mkTransaction 1 1 "expense" 30 "groceries" "" "2026-11-01 10:00:00";
             mkTransaction 2 2 "income" 900 "pay" "" "2026-11-01 11:00:00"].
Proof.
  split; [reflexivity |].
  destruct (update_transaction_applies shared_ledger 1
              (mkTransaction 1 1 "expense" 30 "food" "" "2026-11-01 10:00:00")
              None (Some "groceries") None eq_refl (or_introl eq_refl) eq_refl)
    as (m' & Hrun & Hrows & _).
  - intros (_ & Hcat & _). discriminate Hcat.
  - exact I.
  - exact I.
  - exists m'. split; [exact Hrun | exact Hrows].
Defined.

(** With nobody logged in, adding an expense to the ledger of two
    users is refused. *)
Lemma not_logged_in_refused_witness :
  logged_in logged_out_ledger = None
  /\ state_after logged_out_ledger (AddTransaction nov3 nov3 "expense" 60 "food" "lunch")
     = logged_out_ledger
  /\ observed logged_out_ledger (AddTransaction nov3 nov3 "expense" 60 "food" "lunch")
     = (RBool false, [please_log_in]).
Proof.
  split; [reflexivity |].
  exact (not_logged_in_refused logged_out_ledger
           (AddTransaction nov3 nov3 "expense" 60 "food" "lunch") eq_refl).
Defined.

(** User 1 raises the food budget of November from 100 to 150; a
    budget of 0 is refused. *)
Lemma set_budget_upsert_witness :
  logged_in shared_ledger = Some 1
  /\ set_budget shared_ledger nov3 "food" 0
     = (shared_ledger, false, [Text "Budget amount must be positive."])
  /\ exists m' : Manager Z,
       set_budget shared_ledger nov3 "food" 150 = (m', true, [BudgetSet "food" 150 nov3])
       /\ select_budget_amount (db m') 1 "food" 11 2026 = Some 150
       /\ listed_under "food" (fst (get_budgets m' nov3)) = [mkBudgetDict "food" 150]
       /\ get_budgets m' (mkDatetime 2026 10 3 10 0 0)
          = ([mkBudgetDict "rent" 700], []).
Proof.
  split; [reflexivity |]. split.
  - destruct (set_budget_upsert shared_ledger 1 nov3 "food" 0 eq_refl) as [Hrefused _].
    now apply Hrefused.
  - destruct (set_budget_upsert shared_ledger 1 nov3 "food" 150 eq_refl) as [_ Hset].
    destruct (Hset eq_refl) as (m' & Hrun & Hfound & Hlisted & _ & Hother & _).
    exists m'. split; [exact Hrun |]. split; [exact Hfound |]. split; [exact Hlisted |].
    rewrite Hother; [reflexivity | left; discriminate].
Defined.

(** The reports of November 3rd on the ledger of whole amounts. *)
Lemma monthly_within_yearly_witness :
  1 <= month nov3 <= 12
  /\ exists sm sy e : string,
       period_range nov3 "monthly" = Some (sm, e)
       /\ period_range nov3 "yearly" = Some (sy, e)
       /\ String.leb sy sm = true
       /\ fst (get_transactions whole_ledger (Some sm) (Some e) None None)
          = filter (fun x => String.leb sm (td_date x))
              (fst (get_transactions whole_ledger (Some sy) (Some e) None None)).
Proof.
  assert (Hmonth : 1 <= month nov3 <= 12) by (cbn; lia).
  split; [exact Hmonth |]. exact (monthly_within_yearly whole_ledger nov3 Hmonth).
Defined.


(** The session of ann leaves a database that meets the constraints. *)
Lemma main_consistent_witness :
  consistent (@empty_database Z)
  /\ consistent (db (manager (fst (console_main empty_database ann_types)))).
Proof.
  split; [apply empty_database_consistent |].
  exact (main_consistent plain_digest as_typed as_typed plain_number plain_number any_path
           (fun _ => at_nov3) empty_database ann_types no_files
           empty_database_consistent).
Defined.

(** Without a login, what is typed after bob's registration changes
    neither the ledger of two users nor the files. *)
Lemma main_untouched_before_login_witness :
  current_user (manager (fst (console_main (db shared_ledger) stranger_types))) = None
  /\ transactions (db (manager (fst (console_main (db shared_ledger) stranger_types))))
     = transactions (db shared_ledger)
  /\ budgets (db (manager (fst (console_main (db shared_ledger) stranger_types))))
     = budgets (db shared_ledger)
  /\ files (fst (console_main (db shared_ledger) stranger_types)) = no_files.
Proof.
  unfold console_main.
  assert (Hout : current_user
                   (manager (fst (main plain_digest as_typed as_typed plain_number plain_number
                                   any_path (fun _ => at_nov3) (db shared_ledger)
                                   stranger_types no_files)))
                 = None) by (vm_compute; reflexivity).
  split; [exact Hout |].
  exact (proj2 (main_untouched_before_login plain_digest as_typed as_typed plain_number
                  plain_number any_path (fun _ => at_nov3) (db shared_ledger) stranger_types
                  no_files Hout)).
Defined.

(** No line of the second session reads 2, and nobody is logged in at
    its end. *)
Lemma login_only_by_choice_2_witness :
  Forall (fun s => as_typed s <> "2") stranger_types
  /\ current_user (manager (fst (console_main (db shared_ledger) stranger_types))) = None.
Proof.
  assert (Hno : Forall (fun s => as_typed s <> "2") stranger_types)
    by (repeat constructor; discriminate).
  split; [exact Hno |]. unfold console_main.
  apply (login_only_by_choice_2 plain_digest as_typed as_typed plain_number plain_number
           any_path (fun _ => at_nov3) (db shared_ledger) stranger_types no_files).
  now apply Forall_forall.
Defined.




(** An amount typed in letters under choice 4. *)
Lemma bad_number_changes_nothing_witness :
  keyboard slip_world = ["4"; "sixty"; "13"] /\ plain_number "sixty" = None
  /\ exists asked : string,
       console_pass at_nov3 slip_world
       = (mkWorld shared_ledger ["13"]
            [Menu; Prompt "Enter your choice (1-13): "; Prompt asked;
             Say "Invalid amount. Please enter a number."]
            no_files,
          Ok true).
Proof.
  split; [reflexivity |]. split; [reflexivity |]. unfold console_pass.
  exact (bad_number_changes_nothing plain_digest as_typed as_typed plain_number plain_number
           any_path at_nov3 slip_world "4" "sixty" ["13"] eq_refl
           (or_introl (conj (or_intror eq_refl) eq_refl))).
Defined.
